(** * devices-api-server: a shallow embedding of the HTTP handlers

    The server is a gin application over a GORM database.  The handlers of
    [internal/server/handlers], the middleware of [internal/server] and the
    helpers of [internal/server/utils] are translated function by function.
    A request is a [Context] (gin's per-request object) running in a [World]
    (the process-wide state the Go code reaches through package variables:
    the database singleton, the environment, the clock, the logger).

    The third-party libraries are modelled by what the handlers observe of
    them:
    - google/uuid: [uuid.Parse] and [uuid.String] on 128-bit values;
    - golang-jwt: a compact token is kept symbolic (signing method, claim
      set, key it was signed with), and [jwt.Parse] checks it the way
      version 5 of the library does;
    - GORM: a table is the list of its rows, [First] returns the matching
      row with the least primary key, a soft delete sets [DeletedAt];
    - gin: [c.JSON] appends to the responses written, [c.Abort] stops the
      handler chain, [gin.Recovery] answers a panic with a bare 500. *)

From Stdlib Require Import ZArith NArith Ascii String List Bool Lia.
From stdpp Require Import base option strings list gmap.

Open Scope string_scope.

(** Go's [(T, error)] results. *)
Inductive result (A : Type) : Type :=
  | Ok (a : A)
  | Err (e : string).
Arguments Ok {A} a.
Arguments Err {A} e.

(** Go's [interface{}] restricted to the dynamic types that reach the
    handlers: JSON-decoded claim values and context keys. *)
Inductive any : Type :=
  | Nil
  | Str (s : string)
  | Num (z : Z)
  | Boolean (b : bool).

#[global] Instance any_eq_dec : EqDecision any.
Proof. solve_decision. Defined.

(** [m[k]] on a Go map: the zero value ([nil]) when the key is absent. *)
Definition index (m : gmap string any) (k : string) : any :=
  default Nil (m !! k).

(** ** google/uuid *)
Module uuid.

(** A UUID is a [16]byte array, read here as a big-endian 128-bit number. *)
Definition UUID : Type := N.

Definition Nil : UUID := 0%N.

Definition hexchar (d : N) : ascii :=
  nth (N.to_nat d)
    ["0";"1";"2";"3";"4";"5";"6";"7";"8";"9";"a";"b";"c";"d";"e";"f"]%char
    "0"%char.

(** The [digits] low hexadecimal digits of [n], most significant first. *)
Fixpoint hex (digits : nat) (n : N) : string :=
  match digits with
  | O => ""
  | S d => hex d (n / 16) ++ String (hexchar (n mod 16)) ""
  end.

(** [UUID.String]: xxxxxxxx-xxxx-xxxx-xxxx-xxxxxxxxxxxx, lower case. *)
Definition String (u : UUID) : string :=
  let h := hex 32 u in
  substring 0 8 h ++ "-" ++ substring 8 4 h ++ "-" ++ substring 12 4 h
    ++ "-" ++ substring 16 4 h ++ "-" ++ substring 20 12 h.

(** [xvalues]: the value of a hexadecimal digit, either case. *)
Definition xvalue (c : ascii) : option N :=
  let n := N_of_ascii c in
  if ((48 <=? n) && (n <=? 57))%N then Some (n - 48)%N
  else if ((65 <=? n) && (n <=? 70))%N then Some (n - 55)%N
  else if ((97 <=? n) && (n <=? 102))%N then Some (n - 87)%N
  else None.

Fixpoint unhex (s : string) (acc : N) : option N :=
  match s with
  | EmptyString => Some acc
  | String.String c rest =>
      match xvalue c with
      | Some d => unhex rest (acc * 16 + d)%N
      | None => None
      end
  end.

Definition lower (c : ascii) : ascii :=
  let n := N_of_ascii c in
  if ((65 <=? n) && (n <=? 90))%N then ascii_of_N (n + 32) else c.

Fixpoint EqualFold (s t : string) : bool :=
  match s, t with
  | EmptyString, EmptyString => true
  | String.String a s', String.String b t' =>
      Ascii.eqb (lower a) (lower b) && EqualFold s' t'
  | _, _ => false
  end.

Definition byte_at (s : string) (i : nat) : ascii :=
  match String.get i s with Some c => c | None => "000"%char end.

(** The 36-byte form; bytes after the 36th are not examined. *)
Definition parse36 (s : string) : option UUID :=
  if negb (Ascii.eqb (byte_at s 8) "-" && Ascii.eqb (byte_at s 13) "-"
           && Ascii.eqb (byte_at s 18) "-" && Ascii.eqb (byte_at s 23) "-")
  then None
  else unhex (substring 0 8 s ++ substring 9 4 s ++ substring 14 4 s
                ++ substring 19 4 s ++ substring 24 12 s) 0%N.

(** [uuid.Parse]: the standard form, the urn form, the braced form and
    the raw 32-digit form. *)
Definition Parse (s : string) : option UUID :=
  let n := String.length s in
  if Nat.eqb n 36 then parse36 s
  else if Nat.eqb n 45 then
    if EqualFold (substring 0 9 s) "urn:uuid:"
    then parse36 (substring 9 36 s) else None
  else if Nat.eqb n 38 then parse36 (substring 1 37 s)
  else if Nat.eqb n 32 then unhex s 0%N
  else None.

End uuid.

(** ** golang-jwt, kept symbolic *)
Module jwt.

Inductive SigningMethod : Type :=
  | HS256 | HS384 | HS512
  | OtherMethod (alg : string).

(** The type assertion of [token.Method] to the HMAC family. *)
Definition is_HMAC (m : SigningMethod) : bool :=
  match m with OtherMethod _ => false | _ => true end.

(** A well-formed compact token: its header's method, its claim set as
    [jwt.MapClaims] reads it back, and the key under which its signature
    verifies. *)
Record Token : Type := {
  Method : SigningMethod;
  Claims : gmap string any;
  SignedWith : string
}.

(** What travels as a token string: a compact token, or any other text. *)
Inductive TokenString : Type :=
  | Raw (s : string)
  | Compact (t : Token).

#[global] Instance SigningMethod_eq_dec : EqDecision SigningMethod.
Proof. solve_decision. Defined.

#[global] Instance Token_eq_dec : EqDecision Token.
Proof. solve_decision. Defined.

#[global] Instance TokenString_eq_dec : EqDecision TokenString.
Proof. solve_decision. Defined.

(** [==] on token strings. *)
Definition eqb (a b : TokenString) : bool := bool_decide (a = b).

Definition is_empty (t : TokenString) : bool :=
  match t with Raw s => String.eqb s "" | Compact _ => false end.

(** [MapClaims.parseNumericDate]: absent and zero both read as "no date";
    a value that is not a number is an error. *)
Definition parseNumericDate (m : gmap string any) (key : string)
  : result (option Z) :=
  match m !! key with
  | None => Ok None
  | Some (Num z) => if (z =? 0)%Z then Ok None else Ok (Some z)
  | Some _ => Err (key ++ " is invalid")
  end.

(** The default validator: [exp] and [nbf] are checked when present. *)
Definition validate (now : Z) (m : gmap string any) : result unit :=
  match parseNumericDate m "exp" with
  | Err e => Err ("token has invalid claims: " ++ e)
  | Ok (Some exp) =>
      if (now <? exp)%Z then
        match parseNumericDate m "nbf" with
        | Err e => Err ("token has invalid claims: " ++ e)
        | Ok (Some nbf) =>
            if (nbf <=? now)%Z then Ok tt
            else Err "token has invalid claims: token is not valid yet"
        | Ok None => Ok tt
        end
      else Err "token has invalid claims: token is expired"
  | Ok None =>
      match parseNumericDate m "nbf" with
      | Err e => Err ("token has invalid claims: " ++ e)
      | Ok (Some nbf) =>
          if (nbf <=? now)%Z then Ok tt
          else Err "token has invalid claims: token is not valid yet"
      | Ok None => Ok tt
      end
  end.

(** [jwt.Parse(tokenStr, keyFunc)] at time [now]. *)
Definition Parse (now : Z) (tokenStr : TokenString)
    (keyFunc : Token -> result string) : result (gmap string any) :=
  match tokenStr with
  | Raw _ => Err "token is malformed"
  | Compact t =>
      match keyFunc t with
      | Err e =>
          Err ("token is unverifiable: error while executing keyfunc: " ++ e)
      | Ok key =>
          if negb (String.eqb (SignedWith t) key)
          then Err "token signature is invalid: signature is invalid"
          else match validate now (Claims t) with
               | Err e => Err e
               | Ok _ => Ok (Claims t)
               end
      end
  end.

End jwt.

Arguments jwt.eqb : simpl never.

(** ** The models of pkg/db/models *)

(** [gorm.DeletedAt]: [Some t] when [Valid], the time of the soft delete. *)
Definition DeletedAt : Type := option Z.

(** Modelled from the spec: the Customer model (identity, name, soft-delete
    marker, timestamps), with the field names the handlers use. *)
Module Customer.
Record t : Type := {
  ID : uuid.UUID;
  Name : string;
  CreatedAt : Z;
  UpdatedAt : Z;
  DeletedAt : DeletedAt
}.
Definition zero : t :=
  {| ID := uuid.Nil; Name := ""; CreatedAt := 0; UpdatedAt := 0;
     DeletedAt := None |}.
End Customer.

(** Modelled from the spec: the Site model; [Customer] is the association
    GORM fills on [Preload]. *)
Module Site.
Record t : Type := {
  ID : uuid.UUID;
  Name : string;
  CustomerID : uuid.UUID;
  Customer : Customer.t;
  CreatedAt : Z;
  UpdatedAt : Z;
  DeletedAt : DeletedAt
}.
Definition zero : t :=
  {| ID := uuid.Nil; Name := ""; CustomerID := uuid.Nil;
     Customer := Customer.zero; CreatedAt := 0; UpdatedAt := 0;
     DeletedAt := None |}.
End Site.

(** Modelled from the spec: the Device model; [Site] is the association
    GORM fills on [Preload]. *)
Module Device.
Record t : Type := {
  ID : uuid.UUID;
  SiteID : uuid.UUID;
  Site : Site.t;
  Gateway : string;
  Controller : string;
  ControllerSerialNumber : string;
  DeviceType : string;
  DeviceName : string;
  DeviceSerialNumber : string;
  BuildingURL : string;
  AuthToken : string;
  CreatedAt : Z;
  UpdatedAt : Z;
  DeletedAt : DeletedAt
}.
End Device.

(** Modelled from the spec: the AuthToken model (identity, owning Customer,
    action scope, token string, timestamps; no soft-delete marker). *)
Module AuthToken.
Record t : Type := {
  ID : uuid.UUID;
  CustomerID : uuid.UUID;
  Customer : Customer.t;
  Action : string;
  Token : jwt.TokenString;
  CreatedAt : Z;
  UpdatedAt : Z
}.
Definition zero : t :=
  {| ID := uuid.Nil; CustomerID := uuid.Nil; Customer := Customer.zero;
     Action := ""; Token := jwt.Raw ""; CreatedAt := 0; UpdatedAt := 0 |}.
End AuthToken.

(** The four tables the handlers query. *)
Record Database : Type := {
  customers : list Customer.t;
  sites : list Site.t;
  devices : list Device.t;
  auth_tokens : list AuthToken.t
}.

(** ** GORM, as the handlers use it

    A query fails only with [ErrRecordNotFound] and an insert only on a
    primary key already present; other failures of the database engine are
    outside the model. *)
Module gorm.

Definition ErrRecordNotFound : string := "record not found".

(** The default scope of a model with a [DeletedAt] column:
    [deleted_at IS NULL]. *)
Definition not_deleted (d : DeletedAt) : bool :=
  match d with None => true | Some _ => false end.

(** [col = ?] on a uuid column with a string argument: the argument is
    read as a UUID; text that is not one matches no row. *)
Definition uuid_is (col : uuid.UUID) (arg : string) : bool :=
  match uuid.Parse arg with
  | Some u => N.eqb col u
  | None => false
  end.

(** The same with an [interface{}] argument. *)
Definition uuid_is_any (col : uuid.UUID) (arg : any) : bool :=
  match arg with Str s => uuid_is col s | _ => false end.

Definition string_is_any (col : string) (arg : any) : bool :=
  match arg with Str s => String.eqb col s | _ => false end.

Section Table.
Context {R : Type} (pk : R -> uuid.UUID).

(** [First]: [WHERE cond ORDER BY pk LIMIT 1]. *)
Fixpoint First (cond : R -> bool) (rows : list R) : option R :=
  match rows with
  | [] => None
  | r :: rest =>
      let best := First cond rest in
      if cond r then
        match best with
        | Some b => if (pk b <? pk r)%N then Some b else Some r
        | None => Some r
        end
      else best
  end.

(** [UPDATE ... WHERE cond]: every matching row is rewritten. *)
Definition Update (cond : R -> bool) (f : R -> R) (rows : list R)
  : list R :=
  map (fun r => if cond r then f r else r) rows.

(** [Save] of a value whose primary key is set: the row with that key is
    overwritten, and the value is inserted when there is none. *)
Definition Save (x : R) (rows : list R) : list R :=
  if existsb (fun r => N.eqb (pk r) (pk x)) rows
  then Update (fun r => N.eqb (pk r) (pk x)) (fun _ => x) rows
  else rows ++ [x].

(** [Create]: the primary key is unique in every table, so an insert
    under a key already present fails. *)
Definition Create (x : R) (rows : list R) : result (list R) :=
  if existsb (fun r => N.eqb (pk r) (pk x)) rows
  then Err "duplicate key value violates unique constraint"
  else Ok (rows ++ [x])%list.
End Table.

End gorm.

(** ** Request and response shapes of the handlers package *)

Module CustomerResponse.
Record t : Type := { ID : uuid.UUID; Name : string }.
End CustomerResponse.

Module CustomerRequest.
Record t : Type := { Name : string }.
End CustomerRequest.

Module SiteResponse.
Record t : Type := {
  ID : uuid.UUID; Name : string;
  CustomerID : uuid.UUID; CustomerName : string
}.
End SiteResponse.

Module SiteRequest.
Record t : Type := { Name : string }.
End SiteRequest.

Module DeviceRequest.
Record t : Type := {
  Gateway : string;
  Controller : string;
  ControllerSerialNumber : string;
  DeviceType : string;
  DeviceName : string;
  DeviceSerialNumber : string;
  BuildingURL : string;
  AuthToken : string
}.
End DeviceRequest.

Module DeviceResponse.
Record t : Type := {
  ID : uuid.UUID;
  CustomerID : uuid.UUID;
  CustomerName : string;
  SiteID : uuid.UUID;
  SiteName : string;
  Gateway : string;
  Controller : string;
  ControllerSerialNumber : string;
  DeviceType : string;
  DeviceName : string;
  DeviceSerialNumber : string;
  BuildingURL : string;
  AuthToken : string
}.
End DeviceResponse.

(** The request body as the route's [BindJSON] decodes it. *)
Inductive RequestBody : Type :=
  | BadBody (err : string)
  | CustomerBody (b : CustomerRequest.t)
  | SiteBody (b : SiteRequest.t)
  | DeviceBody (b : DeviceRequest.t)
  | GenerateTokenBody (CustomerID Action : string)
  | AuthenticateBody (Token : jwt.TokenString).

(** The values the handlers pass as [data any]. *)
Inductive Payload : Type :=
  | PString (s : string)
  | PToken (t : jwt.TokenString)
  | PCustomer (r : CustomerResponse.t)
  | PSite (r : SiteResponse.t)
  | PDevice (r : DeviceResponse.t)
  | PAuthToken (r : AuthToken.t).

(** [serverutils.Response]; [Data] is [None] for a nil interface. *)
Record Response : Type := {
  Status : Z;
  Message : string;
  Data : option Payload;
  Error : string
}.

(** What [c.JSON] is given: the envelope, or a [gin.H] map; a panic
    recovered by gin has no body. *)
Inductive ResponseBody : Type :=
  | Envelope (r : Response)
  | H (fields : list (string * string))
  | NoBody.

(** The keys of the JSON object sent, after [omitempty]. *)
Definition json_keys (b : ResponseBody) : list string :=
  match b with
  | Envelope r =>
      ["status"]
        ++ (if String.eqb (Message r) "" then [] else ["message"])
        ++ (match Data r with None => [] | Some _ => ["data"] end)
        ++ (if String.eqb (Error r) "" then [] else ["error"])
  | H fields => map fst fields
  | NoBody => []
  end.

(** The value of the body's [status] field, when it has one. *)
Definition json_status (b : ResponseBody) : option Z :=
  match b with
  | Envelope r => Some (Status r)
  | H _ => None
  | NoBody => None
  end.

(** ** gin *)
Module gin.

Record Context : Type := {
  Params : gmap string string;
  Headers : gmap string string;
  Cookies : gmap string jwt.TokenString;
  Body : RequestBody;
  Keys : gmap string any;
  Written : list (Z * ResponseBody);
  Aborted : bool;
  SetCookies : list (string * jwt.TokenString)
}.

Definition Param (c : Context) (key : string) : string :=
  default "" (Params c !! key).

Definition GetHeader (c : Context) (key : string) : string :=
  default "" (Headers c !! key).

Definition Cookie (c : Context) (name : string) : result jwt.TokenString :=
  match Cookies c !! name with
  | Some v => Ok v
  | None => Err "http: named cookie not present"
  end.

(** [c.GetString]: the empty string when the key is absent or does not
    hold a string. *)
Definition GetString (c : Context) (key : string) : string :=
  match Keys c !! key with
  | Some (Str s) => s
  | _ => ""
  end.

(** [c.Set] *)
Definition Set_ (c : Context) (key : string) (v : any) : Context :=
  {| Params := Params c; Headers := Headers c; Cookies := Cookies c;
     Body := Body c; Keys := <[key := v]> (Keys c);
     Written := Written c; Aborted := Aborted c;
     SetCookies := SetCookies c |}.

Definition JSON (c : Context) (code : Z) (obj : ResponseBody) : Context :=
  {| Params := Params c; Headers := Headers c; Cookies := Cookies c;
     Body := Body c; Keys := Keys c;
     Written := Written c ++ [(code, obj)]; Aborted := Aborted c;
     SetCookies := SetCookies c |}.

Definition Abort (c : Context) : Context :=
  {| Params := Params c; Headers := Headers c; Cookies := Cookies c;
     Body := Body c; Keys := Keys c;
     Written := Written c; Aborted := true;
     SetCookies := SetCookies c |}.

Definition SetCookie (c : Context) (name : string) (v : jwt.TokenString)
  : Context :=
  {| Params := Params c; Headers := Headers c; Cookies := Cookies c;
     Body := Body c; Keys := Keys c;
     Written := Written c; Aborted := Aborted c;
     SetCookies := SetCookies c ++ [(name, v)] |}.

(** [gin.Recovery] on a panic of a handler: [AbortWithStatus(500)]. *)
Definition Recovered (c : Context) : Context :=
  Abort (JSON c 500 NoBody).

(** A request as it reaches the first handler. *)
Definition request (params headers : gmap string string)
    (cookies : gmap string jwt.TokenString) (body : RequestBody) : Context :=
  {| Params := params; Headers := headers; Cookies := cookies;
     Body := body; Keys := ∅; Written := []; Aborted := false;
     SetCookies := [] |}.

End gin.

(** ** The process-wide state *)

Inductive LogEntry : Type :=
  | LogError (msg err : string)
  | LogRequest (warn : bool) (statusCode : Z).

Inductive Printed : Type :=
  | PrintID (id : string)
  | PrintSite (s : Site.t).

Record World : Type := {
  DB : result Database;          (* devicesdb.GetDB() *)
  JwtSecret : string;            (* DEVICES_SERVER_JWT_SECRET *)
  Now : Z;                       (* time.Now().Unix() *)
  roles : list string;           (* var roles, declared outside src/ *)
  actions : list string;         (* var actions, declared outside src/ *)
  Rand : nat -> uuid.UUID;       (* the source of uuid.New() *)
  RandPos : nat;
  Log : list LogEntry;
  Stdout : list Printed
}.

Definition with_DB (w : World) (db : Database) : World :=
  {| DB := Ok db; JwtSecret := JwtSecret w; Now := Now w; roles := roles w;
     actions := actions w; Rand := Rand w; RandPos := RandPos w;
     Log := Log w; Stdout := Stdout w |}.

(** The same process with another outcome of [devicesdb.GetDB()]. *)
Definition with_GetDB (w : World) (d : result Database) : World :=
  {| DB := d; JwtSecret := JwtSecret w; Now := Now w; roles := roles w;
     actions := actions w; Rand := Rand w; RandPos := RandPos w;
     Log := Log w; Stdout := Stdout w |}.

Definition with_Log (w : World) (e : LogEntry) : World :=
  {| DB := DB w; JwtSecret := JwtSecret w; Now := Now w; roles := roles w;
     actions := actions w; Rand := Rand w; RandPos := RandPos w;
     Log := Log w ++ [e]; Stdout := Stdout w |}.

Definition Println (w : World) (p : Printed) : World :=
  {| DB := DB w; JwtSecret := JwtSecret w; Now := Now w; roles := roles w;
     actions := actions w; Rand := Rand w; RandPos := RandPos w;
     Log := Log w; Stdout := Stdout w ++ [p] |}.

(** [uuid.New()]: the next value of the random source.

    Modelled from the spec: the models of pkg/db/models are not among the
    sources; a row is given its UUID when it is created, and the creates
    below draw it here. *)
Definition uuid_New (w : World) : uuid.UUID * World :=
  (Rand w (RandPos w),
   {| DB := DB w; JwtSecret := JwtSecret w; Now := Now w; roles := roles w;
      actions := actions w; Rand := Rand w; RandPos := S (RandPos w);
      Log := Log w; Stdout := Stdout w |}).

Definition with_customers (db : Database) (l : list Customer.t) : Database :=
  {| customers := l; sites := sites db; devices := devices db;
     auth_tokens := auth_tokens db |}.

Definition with_sites (db : Database) (l : list Site.t) : Database :=
  {| customers := customers db; sites := l; devices := devices db;
     auth_tokens := auth_tokens db |}.

Definition with_devices (db : Database) (l : list Device.t) : Database :=
  {| customers := customers db; sites := sites db; devices := l;
     auth_tokens := auth_tokens db |}.

Definition with_auth_tokens (db : Database) (l : list AuthToken.t)
  : Database :=
  {| customers := customers db; sites := sites db; devices := devices db;
     auth_tokens := l |}.

(** A handler runs on the request's context and on the process state. *)
Definition HandlerFunc : Type := gin.Context -> World -> gin.Context * World.

(** ** internal/server/utils *)
Module serverutils.

(** [Claims], with the one registered claim the code ever sets. *)
Record Claims : Type := {
  UserID : string;
  Username : string;
  Role : string;
  Action : string;
  Issuer : string;
  IssuedAt : Z;
  ExpiresAt : option Z
}.

(** The claim set as it is serialised and read back as [jwt.MapClaims]:
    the registered claims are [omitempty]. *)
Definition MapClaims (cl : Claims) : gmap string any :=
  let m : gmap string any :=
    <["user_id" := Str (UserID cl)]>
    (<["user_name" := Str (Username cl)]>
    (<["role" := Str (Role cl)]>
    (<["action" := Str (Action cl)]>
    (<["issuer" := Str (Issuer cl)]>
    (<["issued_at" := Num (IssuedAt cl)]> ∅))))) in
  match ExpiresAt cl with
  | Some e => <["exp" := Num e]> m
  | None => m
  end.

Definition WriteJSON (c : gin.Context) (status : Z) (message : string)
    (data : option Payload) : gin.Context :=
  let response :=
    {| Status := status; Message := message; Data := data; Error := "" |} in
  gin.JSON c status (Envelope response).

Definition WriteError (c : gin.Context) (w : World) (status : Z)
    (message errMsg : string) : gin.Context * World :=
  let response :=
    {| Status := status; Message := message; Data := None;
       Error := errMsg |} in
  (gin.JSON c status (Envelope response),
   with_Log w (LogError (Message response) errMsg)).

Definition GenerateID (w : World) : string * World :=
  let (u, w) := uuid_New w in (uuid.String u, w).

Definition IsValidUUID (s : string) : bool :=
  match uuid.Parse s with
  | None => false
  | Some _ => true
  end.

(** The character class [[a-zA-Z0-9_ ]]. *)
Definition in_class (ch : ascii) : bool :=
  let n := N_of_ascii ch in
  ((97 <=? n) && (n <=? 122) || (65 <=? n) && (n <=? 90)
   || (48 <=? n) && (n <=? 57) || (n =? 95) || (n =? 32))%N.

(** [^[a-zA-Z0-9_ ]{3,20}$] *)
Definition IsValidString (s : string) : bool :=
  (3 <=? String.length s)%nat && (String.length s <=? 20)%nat
  && forallb in_class (list_ascii_of_string s).

Definition IsValidRole (w : World) (role : string) : bool :=
  existsb (fun r => String.eqb r role) (roles w).

Definition IsValidAction (w : World) (action : string) : bool :=
  existsb (fun a => String.eqb a action) (actions w).

(** [token.SignedString(key)] for the HMAC methods; with a byte-slice key
    the library's signer does not fail. *)
Definition SignedString (m : jwt.SigningMethod) (cl : Claims)
    (key : string) : result jwt.TokenString :=
  Ok (jwt.Compact
        {| jwt.Method := m; jwt.Claims := MapClaims cl;
           jwt.SignedWith := key |}).

Definition GenerateJWT (w : World) (userID username role action : string)
    (expire : bool) : result jwt.TokenString :=
  if negb (IsValidUUID userID) then Err "invalid user ID"
  else if negb (IsValidString username) then Err "invalid username"
  else if negb (IsValidRole w role) then Err "invalid role"
  else if negb (IsValidAction w action) then Err "invalid action"
  else
    let claims :=
      {| UserID := userID; Username := username; Role := role;
         Action := action; Issuer := "Rubicon BMS"; IssuedAt := Now w;
         ExpiresAt :=
           if expire then Some (Now w + 24 * 3600 * 30)%Z else None |} in
    let JwtSecret := JwtSecret w in
    if String.eqb JwtSecret "" then Err "DEVICES_SERVER_JWT_SECRET is not set"
    else SignedString jwt.HS256 claims JwtSecret.

(** A successful [jwt.Parse] of a token string into [MapClaims] yields a
    valid token, so the final "invalid token" return is not reached. *)
Definition ValidateJWT (w : World) (tokenStr : jwt.TokenString)
  : result (gmap string any) :=
  jwt.Parse (Now w) tokenStr
    (fun token =>
       if negb (jwt.is_HMAC (jwt.Method token))
       then Err "invalid signing method"
       else
         let JWTSecret := JwtSecret w in
         if String.eqb JWTSecret ""
         then Err "DEVICES_SERVER_JWT_SECRET is not set"
         else Ok JWTSecret).

Definition GetDBInstance (c : gin.Context) (w : World)
  : option Database * (gin.Context * World) :=
  match DB w with
  | Err e => (None, WriteError c w 500 "Database error" e)
  | Ok bmsDB => (Some bmsDB, (c, w))
  end.

End serverutils.

(** ** internal/server: the middleware *)
Module server.

(** [c.Writer.Status()]: the code of the first write, 200 before any. *)
Definition Status (c : gin.Context) : Z :=
  match gin.Written c with
  | (code, _) :: _ => code
  | [] => 200
  end.

(** The handlers of a route run in order until one aborts. *)
Fixpoint run (hs : list HandlerFunc) (c : gin.Context) (w : World)
  : gin.Context * World :=
  match hs with
  | [] => (c, w)
  | h :: rest =>
      let (c', w') := h c w in
      if gin.Aborted c' then (c', w') else run rest c' w'
  end.

Definition loggingMiddleware (next : list HandlerFunc) : HandlerFunc :=
  fun c w =>
    let (c, w) := run next c w in
    let statusCode := Status c in
    (c, with_Log w (LogRequest (400 <=? statusCode)%Z statusCode)).

Definition AdminMiddleware (adminSecret : string) : HandlerFunc :=
  fun c w =>
    let secret := gin.GetHeader c "Admin-Secret" in
    if negb (String.eqb secret adminSecret) then
      (gin.Abort
         (gin.JSON c 401
            (H [("error", "Unauthorized");
                ("message", "Invalid admin secret")])),
       w)
    else (c, w).

Definition AdminOnlyMiddleware : HandlerFunc :=
  fun c w =>
    let role := gin.GetString c "role" in
    if negb (String.eqb role "admin") then
      let (c, w) :=
        serverutils.WriteError c w 403 "Unauthorized"
          "Only admins can perform this action" in
      (gin.Abort c, w)
    else (c, w).

(** The three [c.Set] calls that end [AuthMiddleware]. *)
Definition bind_claims (c : gin.Context) (claims : gmap string any)
  : gin.Context :=
  let c := gin.Set_ c "customer_id" (index claims "user_id") in
  let c := gin.Set_ c "role" (index claims "role") in
  gin.Set_ c "action" (index claims "action").

(** The condition ["customer_id = ? and action = ?"] on the claims
    [user_id] and [action]. *)
Definition token_query (claims : gmap string any) (r : AuthToken.t)
  : bool :=
  gorm.uuid_is_any (AuthToken.CustomerID r) (index claims "user_id")
  && gorm.string_is_any (AuthToken.Action r) (index claims "action").

Definition AuthMiddleware : HandlerFunc :=
  fun c w =>
    match gin.Cookie c "Authorization" with
    | Err _ =>
        let (c, w) :=
          serverutils.WriteError c w 401 "Unauthorized"
            "Please authenticate first" in
        (gin.Abort c, w)
    | Ok tokenString =>
        match serverutils.ValidateJWT w tokenString with
        | Err _ =>
            let (c, w) :=
              serverutils.WriteError c w 401 "Unauthorized"
                "Invalid token" in
            (gin.Abort c, w)
        | Ok claims =>
            match DB w with
            | Err e =>
                let (c, w) :=
                  serverutils.WriteError c w 500
                    "Failed to get database instance" e in
                (gin.Abort c, w)
            | Ok bmsDB =>
                match index claims "role" with
                | Str role =>
                    if negb (String.eqb role "admin") then
                      let token :=
                        default AuthToken.zero
                          (gorm.First AuthToken.ID (token_query claims)
                             (auth_tokens bmsDB)) in
                      if jwt.is_empty (AuthToken.Token token) then
                        let (c, w) :=
                          serverutils.WriteError c w 401 "Unauthorized"
                            "Token not found" in
                        (gin.Abort c, w)
                      else (bind_claims c claims, w)
                    else (bind_claims c claims, w)
                | _ => (gin.Recovered c, w)
                end
            end
        end
    end.

End server.

(** ** internal/server/handlers *)
Module handlers.

Import serverutils.

(** [errors.Is(err, gorm.ErrRecordNotFound)] *)
Definition is_not_found (e : string) : bool :=
  String.eqb e gorm.ErrRecordNotFound.

Definition found {R : Type} (o : option R) : result R :=
  match o with
  | Some r => Ok r
  | None => Err gorm.ErrRecordNotFound
  end.

(** [Preload("Customer")] on a site; the association query carries the
    scope of the statement it belongs to. *)
Definition preload_Customer (unscoped : bool) (db : Database) (s : Site.t)
  : Site.t :=
  match gorm.First Customer.ID
          (fun c => N.eqb (Customer.ID c) (Site.CustomerID s)
                    && (unscoped || gorm.not_deleted (Customer.DeletedAt c)))
          (customers db) with
  | Some c =>
      {| Site.ID := Site.ID s; Site.Name := Site.Name s;
         Site.CustomerID := Site.CustomerID s; Site.Customer := c;
         Site.CreatedAt := Site.CreatedAt s;
         Site.UpdatedAt := Site.UpdatedAt s;
         Site.DeletedAt := Site.DeletedAt s |}
  | None => s
  end.

(** [Preload("Site.Customer")] on a device. *)
Definition preload_Site_Customer (unscoped : bool) (db : Database)
    (d : Device.t) : Device.t :=
  match gorm.First Site.ID
          (fun s => N.eqb (Site.ID s) (Device.SiteID d)
                    && (unscoped || gorm.not_deleted (Site.DeletedAt s)))
          (sites db) with
  | Some s =>
      {| Device.ID := Device.ID d; Device.SiteID := Device.SiteID d;
         Device.Site := preload_Customer unscoped db s;
         Device.Gateway := Device.Gateway d;
         Device.Controller := Device.Controller d;
         Device.ControllerSerialNumber := Device.ControllerSerialNumber d;
         Device.DeviceType := Device.DeviceType d;
         Device.DeviceName := Device.DeviceName d;
         Device.DeviceSerialNumber := Device.DeviceSerialNumber d;
         Device.BuildingURL := Device.BuildingURL d;
         Device.AuthToken := Device.AuthToken d;
         Device.CreatedAt := Device.CreatedAt d;
         Device.UpdatedAt := Device.UpdatedAt d;
         Device.DeletedAt := Device.DeletedAt d |}
  | None => d
  end.

(** *** The fetch helpers

    A fetch fails with [ErrRecordNotFound] only, so the branches the
    handlers keep for other errors are written out but not reached. *)

Definition FetchCustomerByID (bmsDB : Database) (id : string)
  : result Customer.t :=
  found (gorm.First Customer.ID
           (fun c => gorm.uuid_is (Customer.ID c) id
                     && gorm.not_deleted (Customer.DeletedAt c))
           (customers bmsDB)).

Definition FetchCustomerByName (bmsDB : Database) (name : string)
  : result Customer.t :=
  found (gorm.First Customer.ID
           (fun c => String.eqb (Customer.Name c) name)
           (customers bmsDB)).

Definition FetchSiteByID (bmsDB : Database) (id : string) : result Site.t :=
  match gorm.First Site.ID
          (fun s => gorm.uuid_is (Site.ID s) id
                    && gorm.not_deleted (Site.DeletedAt s))
          (sites bmsDB) with
  | Some s => Ok (preload_Customer false bmsDB s)
  | None => Err gorm.ErrRecordNotFound
  end.

Definition FetchSiteByName (bmsDB : Database) (name : string)
  : result Site.t :=
  found (gorm.First Site.ID
           (fun s => String.eqb (Site.Name s) name)
           (sites bmsDB)).

(** [Debug()] only logs the statement; [Unscoped()] drops the default
    scope, for the device and for the associations loaded with it. *)
Definition FetchDeviceBySerialNumber (bmsDB : Database)
    (serialNumber : string) : result Device.t :=
  match gorm.First Device.ID
          (fun d => String.eqb (Device.DeviceSerialNumber d) serialNumber)
          (devices bmsDB) with
  | Some d => Ok (preload_Site_Customer true bmsDB d)
  | None => Err gorm.ErrRecordNotFound
  end.

(** *** Customers *)

(** [c.BindJSON] failing aborts the context before the handler answers. *)
Definition bind_error (b : RequestBody) : string :=
  match b with
  | BadBody err => err
  | _ => "json: cannot unmarshal the request body"
  end.

Definition BindJSON_Customer (c : gin.Context)
  : result CustomerRequest.t * gin.Context :=
  match gin.Body c with
  | CustomerBody b => (Ok b, c)
  | b => (Err (bind_error b), gin.Abort c)
  end.

Definition restored_Customer (now : Z) (customer : Customer.t)
  : Customer.t :=
  {| Customer.ID := Customer.ID customer;
     Customer.Name := Customer.Name customer;
     Customer.CreatedAt := now; Customer.UpdatedAt := now;
     Customer.DeletedAt := None |}.

Definition CustomerCreate : HandlerFunc :=
  fun c w =>
    match BindJSON_Customer c with
    | (Err _, c) =>
        WriteError c w 400 "Invalid request body" "Name field is required"
    | (Ok body, c) =>
    if String.eqb (CustomerRequest.Name body) "" then
      WriteError c w 400 "Invalid request body" "Name field is required"
    else
    match GetDBInstance c w with
    | (None, cw) => cw
    | (Some bmsDB, (c, w)) =>
    match FetchCustomerByName bmsDB (CustomerRequest.Name body) with
    | Err e =>
        if negb (is_not_found e) then
          WriteError c w 500 "Failed to fetch customer" e
        else
          (* Create new customer *)
          let (id, w) := uuid_New w in
          let newCustomer :=
            {| Customer.ID := id;
               Customer.Name := CustomerRequest.Name body;
               Customer.CreatedAt := Now w; Customer.UpdatedAt := Now w;
               Customer.DeletedAt := None |} in
          match gorm.Create Customer.ID newCustomer (customers bmsDB) with
          | Err e => WriteError c w 500 "Failed to create customer" e
          | Ok rows =>
              let w := with_DB w (with_customers bmsDB rows) in
              (WriteJSON c 201 "Customer created"
                 (Some (PCustomer
                          {| CustomerResponse.ID := Customer.ID newCustomer;
                             CustomerResponse.Name :=
                               Customer.Name newCustomer |})),
               w)
          end
    | Ok customer =>
        (* Restore soft-deleted customer *)
        if negb (gorm.not_deleted (Customer.DeletedAt customer)) then
          let now := Now w in
          let customer := restored_Customer now customer in
          let w :=
            with_DB w
              (with_customers bmsDB
                 (gorm.Save Customer.ID customer (customers bmsDB))) in
          (WriteJSON c 200 "Customer restored"
             (Some (PCustomer
                      {| CustomerResponse.ID := Customer.ID customer;
                         CustomerResponse.Name := Customer.Name customer |})),
           w)
        else
          WriteError c w 400 "Customer already exists"
            "A customer with this name already exists"
    end end end.

Definition CustomerFetchByID : HandlerFunc :=
  fun c w =>
    let id := gin.Param c "customer_id" in
    let w := Println w (PrintID id) in
    if negb (IsValidUUID id) then
      WriteError c w 400 "Invalid customer ID" "Invalid UUID format"
    else
    let role := gin.GetString c "role" in
    let requesterID := gin.GetString c "customer_id" in
    if negb (String.eqb role "admin") && negb (String.eqb requesterID id)
    then WriteError c w 403 "Forbidden" "Unauthorized access"
    else
    match GetDBInstance c w with
    | (None, cw) => cw
    | (Some bmsDB, (c, w)) =>
    match FetchCustomerByID bmsDB id with
    | Err e =>
        if is_not_found e then
          WriteError c w 404 "Customer not found"
            "No customer found with the given ID"
        else WriteError c w 500 "Failed to fetch customer" e
    | Ok customer =>
        (WriteJSON c 200 "Customer fetched"
           (Some (PCustomer
                    {| CustomerResponse.ID := Customer.ID customer;
                       CustomerResponse.Name := Customer.Name customer |})),
         w)
    end end.

Definition deleted_Customer (now : Z) (r : Customer.t) : Customer.t :=
  {| Customer.ID := Customer.ID r; Customer.Name := Customer.Name r;
     Customer.CreatedAt := Customer.CreatedAt r;
     Customer.UpdatedAt := Customer.UpdatedAt r;
     Customer.DeletedAt := Some now |}.

Definition CustomerDelete : HandlerFunc :=
  fun c w =>
    let role := gin.GetString c "role" in
    if negb (String.eqb role "admin") then
      WriteError c w 403 "Forbidden" "Unauthorized access"
    else
    let id := gin.Param c "customer_id" in
    if negb (IsValidUUID id) then
      WriteError c w 400 "Invalid customer ID" "Invalid UUID format"
    else
    match GetDBInstance c w with
    | (None, cw) => cw
    | (Some bmsDB, (c, w)) =>
        (* Delete the customer from the database *)
        let w :=
          with_DB w
            (with_customers bmsDB
               (gorm.Update
                  (fun r => gorm.uuid_is (Customer.ID r) id
                            && gorm.not_deleted (Customer.DeletedAt r))
                  (deleted_Customer (Now w)) (customers bmsDB))) in
        (WriteJSON c 200 "Customer deleted" None, w)
    end.


(** *** Sites *)

Definition BindJSON_Site (c : gin.Context)
  : result SiteRequest.t * gin.Context :=
  match gin.Body c with
  | SiteBody b => (Ok b, c)
  | b => (Err (bind_error b), gin.Abort c)
  end.

Definition restored_Site (now : Z) (site : Site.t) : Site.t :=
  {| Site.ID := Site.ID site; Site.Name := Site.Name site;
     Site.CustomerID := Site.CustomerID site;
     Site.Customer := Site.Customer site;
     Site.CreatedAt := now; Site.UpdatedAt := now;
     Site.DeletedAt := None |}.

Definition deleted_Site (now : Z) (r : Site.t) : Site.t :=
  {| Site.ID := Site.ID r; Site.Name := Site.Name r;
     Site.CustomerID := Site.CustomerID r; Site.Customer := Site.Customer r;
     Site.CreatedAt := Site.CreatedAt r; Site.UpdatedAt := Site.UpdatedAt r;
     Site.DeletedAt := Some now |}.

Definition SiteCreate : HandlerFunc :=
  fun c w =>
    let customerID := gin.Param c "customer_id" in
    if negb (IsValidUUID customerID) then
      WriteError c w 400 "Invalid customer ID" "Invalid UUID format"
    else
    match BindJSON_Site c with
    | (Err _, c) =>
        WriteError c w 400 "Invalid request body" "Name field is required"
    | (Ok body, c) =>
    if String.eqb (SiteRequest.Name body) "" then
      WriteError c w 400 "Invalid request body" "Name field is required"
    else
    match GetDBInstance c w with
    | (None, cw) => cw
    | (Some bmsDB, (c, w)) =>
    match FetchCustomerByID bmsDB customerID with
    | Err e =>
        if is_not_found e then
          WriteError c w 404 "Customer not found"
            "No customer found with the given ID"
        else WriteError c w 500 "Failed to fetch customer" e
    | Ok customer =>
    match FetchSiteByName bmsDB (SiteRequest.Name body) with
    | Err e =>
        if negb (is_not_found e) then
          WriteError c w 500 "Failed to fetch site" e
        else
          (* Create new site *)
          let (id, w) := uuid_New w in
          let newSite :=
            {| Site.ID := id; Site.Name := SiteRequest.Name body;
               Site.CustomerID := Customer.ID customer;
               Site.Customer := Customer.zero;
               Site.CreatedAt := Now w; Site.UpdatedAt := Now w;
               Site.DeletedAt := None |} in
          match gorm.Create Site.ID newSite (sites bmsDB) with
          | Err e => WriteError c w 500 "Failed to create site" e
          | Ok rows =>
              let w := with_DB w (with_sites bmsDB rows) in
              (WriteJSON c 200 "Site created"
                 (Some (PSite
                          {| SiteResponse.ID := Site.ID newSite;
                             SiteResponse.Name := Site.Name newSite;
                             SiteResponse.CustomerID := Customer.ID customer;
                             SiteResponse.CustomerName :=
                               Customer.Name customer |})),
               w)
          end
    | Ok site =>
        if negb (gorm.not_deleted (Site.DeletedAt site)) then
          (* Restore the site *)
          let now := Now w in
          let site := restored_Site now site in
          let w :=
            with_DB w
              (with_sites bmsDB (gorm.Save Site.ID site (sites bmsDB))) in
          (WriteJSON c 200 "Site restored"
             (Some (PSite
                      {| SiteResponse.ID := Site.ID site;
                         SiteResponse.Name := Site.Name site;
                         SiteResponse.CustomerID := Customer.ID customer;
                         SiteResponse.CustomerName :=
                           Customer.Name customer |})),
           w)
        else
          WriteError c w 400 "Site already exists"
            "A site with this name already exists"
    end end end end.

Definition SiteFetchByID : HandlerFunc :=
  fun c w =>
    let role := gin.GetString c "role" in
    let requesterID := gin.GetString c "user_id" in
    let siteID := gin.Param c "site_id" in
    if negb (IsValidUUID siteID) then
      WriteError c w 400 "Invalid site ID" "Invalid UUID format"
    else
    match GetDBInstance c w with
    | (None, cw) => cw
    | (Some bmsDB, (c, w)) =>
    match FetchSiteByID bmsDB siteID with
    | Err e =>
        if is_not_found e then
          WriteError c w 404 "Site not found"
            "No site found with the given ID"
        else WriteError c w 500 "Failed to fetch site" e
    | Ok site =>
    match FetchCustomerByID bmsDB (uuid.String (Site.CustomerID site)) with
    | Err e =>
        if is_not_found e then
          WriteError c w 404 "Customer not found"
            "No customer found with the given ID"
        else WriteError c w 500 "Failed to fetch customer" e
    | Ok customer =>
        (* Check if the requester is an admin or the site owner *)
        if negb (String.eqb role "admin")
           && negb (String.eqb requesterID
                      (uuid.String (Customer.ID customer)))
        then
          WriteError c w 403 "Forbidden"
            "You are not authorized to access this site"
        else
          (WriteJSON c 200 "Site fetched"
             (Some (PSite
                      {| SiteResponse.ID := Site.ID site;
                         SiteResponse.Name := Site.Name site;
                         SiteResponse.CustomerID := Customer.ID customer;
                         SiteResponse.CustomerName :=
                           Customer.Name customer |})),
           w)
    end end end.

Definition SiteDelete : HandlerFunc :=
  fun c w =>
    let siteID := gin.Param c "site_id" in
    if negb (IsValidUUID siteID) then
      WriteError c w 400 "Invalid site ID" "Invalid UUID format"
    else
    match GetDBInstance c w with
    | (None, cw) => cw
    | (Some bmsDB, (c, w)) =>
    match FetchSiteByID bmsDB siteID with
    | Err e =>
        if is_not_found e then
          WriteError c w 404 "Site not found"
            "No site found with the given ID"
        else (gin.Recovered c, w)
    | Ok site =>
        let w :=
          with_DB w
            (with_sites bmsDB
               (gorm.Update
                  (fun r => N.eqb (Site.ID r) (Site.ID site)
                            && gorm.not_deleted (Site.DeletedAt r))
                  (deleted_Site (Now w)) (sites bmsDB))) in
        (WriteJSON c 200 "Site deleted" None, w)
    end end.

(** *** Devices *)

Definition BindJSON_Device (c : gin.Context)
  : result DeviceRequest.t * gin.Context :=
  match gin.Body c with
  | DeviceBody b => (Ok b, c)
  | b => (Err (bind_error b), gin.Abort c)
  end.

(** The three columns the restore selects. *)
Definition restored_Device (now : Z) (r : Device.t) : Device.t :=
  {| Device.ID := Device.ID r; Device.SiteID := Device.SiteID r;
     Device.Site := Device.Site r; Device.Gateway := Device.Gateway r;
     Device.Controller := Device.Controller r;
     Device.ControllerSerialNumber := Device.ControllerSerialNumber r;
     Device.DeviceType := Device.DeviceType r;
     Device.DeviceName := Device.DeviceName r;
     Device.DeviceSerialNumber := Device.DeviceSerialNumber r;
     Device.BuildingURL := Device.BuildingURL r;
     Device.AuthToken := Device.AuthToken r;
     Device.CreatedAt := now; Device.UpdatedAt := now;
     Device.DeletedAt := None |}.

Definition deleted_Device (now : Z) (r : Device.t) : Device.t :=
  {| Device.ID := Device.ID r; Device.SiteID := Device.SiteID r;
     Device.Site := Device.Site r; Device.Gateway := Device.Gateway r;
     Device.Controller := Device.Controller r;
     Device.ControllerSerialNumber := Device.ControllerSerialNumber r;
     Device.DeviceType := Device.DeviceType r;
     Device.DeviceName := Device.DeviceName r;
     Device.DeviceSerialNumber := Device.DeviceSerialNumber r;
     Device.BuildingURL := Device.BuildingURL r;
     Device.AuthToken := Device.AuthToken r;
     Device.CreatedAt := Device.CreatedAt r;
     Device.UpdatedAt := Device.UpdatedAt r;
     Device.DeletedAt := Some now |}.

Definition response_of_Device (id customerID : uuid.UUID)
    (customerName : string) (siteID : uuid.UUID) (siteName : string)
    (d : Device.t) : DeviceResponse.t :=
  {| DeviceResponse.ID := id;
     DeviceResponse.CustomerID := customerID;
     DeviceResponse.CustomerName := customerName;
     DeviceResponse.SiteID := siteID;
     DeviceResponse.SiteName := siteName;
     DeviceResponse.Gateway := Device.Gateway d;
     DeviceResponse.Controller := Device.Controller d;
     DeviceResponse.ControllerSerialNumber :=
       Device.ControllerSerialNumber d;
     DeviceResponse.DeviceType := Device.DeviceType d;
     DeviceResponse.DeviceName := Device.DeviceName d;
     DeviceResponse.DeviceSerialNumber := Device.DeviceSerialNumber d;
     DeviceResponse.BuildingURL := Device.BuildingURL d;
     DeviceResponse.AuthToken := Device.AuthToken d |}.

Definition DeviceCreate : HandlerFunc :=
  fun c w =>
    match BindJSON_Device c with
    | (Err _, c) =>
        WriteError c w 400 "Invalid request body" "Invalid JSON format"
    | (Ok body, c) =>
    let customerID := gin.Param c "customer_id" in
    let siteID := gin.Param c "site_id" in
    if negb (IsValidUUID customerID) then
      WriteError c w 400 "Invalid customer ID" "Invalid UUID format"
    else
    if negb (IsValidUUID siteID) then
      WriteError c w 400 "Invalid site ID" "Invalid UUID format"
    else
    match GetDBInstance c w with
    | (None, cw) => cw
    | (Some bmsDB, (c, w)) =>
    match FetchCustomerByID bmsDB customerID with
    | Err e =>
        if is_not_found e then
          WriteError c w 404 "Customer not found"
            "No customer found with the given ID"
        else WriteError c w 500 "Database error" e
    | Ok customer =>
    match FetchSiteByID bmsDB siteID with
    | Err e =>
        if is_not_found e then
          WriteError c w 404 "Site not found"
            "No site found with the given ID"
        else WriteError c w 500 "Database error" e
    | Ok site =>
    (* Check if the customer owns the site *)
    if negb (N.eqb (Site.CustomerID site) (Customer.ID customer)) then
      WriteError c w 403 "Forbidden"
        "There is no site with the given ID for the given customer"
    else
    match FetchDeviceBySerialNumber bmsDB
            (DeviceRequest.DeviceSerialNumber body) with
    | Err e =>
        if negb (is_not_found e) then
          WriteError c w 500 "Database error" e
        else
          (* Create new device *)
          let (id, w) := uuid_New w in
          let newDevice :=
            {| Device.ID := id; Device.SiteID := Site.ID site;
               Device.Site := Site.zero;
               Device.Gateway := DeviceRequest.Gateway body;
               Device.Controller := DeviceRequest.Controller body;
               Device.ControllerSerialNumber :=
                 DeviceRequest.ControllerSerialNumber body;
               Device.DeviceType := DeviceRequest.DeviceType body;
               Device.DeviceName := DeviceRequest.DeviceName body;
               Device.DeviceSerialNumber :=
                 DeviceRequest.DeviceSerialNumber body;
               Device.BuildingURL := DeviceRequest.BuildingURL body;
               Device.AuthToken := DeviceRequest.AuthToken body;
               Device.CreatedAt := Now w; Device.UpdatedAt := Now w;
               Device.DeletedAt := None |} in
          match gorm.Create Device.ID newDevice (devices bmsDB) with
          | Err e => WriteError c w 500 "Failed to create device" e
          | Ok rows =>
              let w := with_DB w (with_devices bmsDB rows) in
              (WriteJSON c 200 "Device created"
                 (Some (PDevice
                          (response_of_Device (Device.ID newDevice)
                             (Customer.ID customer) (Customer.Name customer)
                             (Site.ID site) (Site.Name site) newDevice))),
               w)
          end
    | Ok device =>
        (* Restore soft-deleted device *)
        if negb (gorm.not_deleted (Device.DeletedAt device)) then
          let now := Now w in
          let device := restored_Device now device in
          let w := Println w (PrintSite (Device.Site device)) in
          let w :=
            with_DB w
              (with_devices bmsDB
                 (gorm.Update
                    (fun r => N.eqb (Device.ID r) (Device.ID device))
                    (restored_Device now) (devices bmsDB))) in
          (WriteJSON c 200 "Device restored"
             (Some (PDevice
                      (response_of_Device (Device.ID device)
                         (Customer.ID customer) (Customer.Name customer)
                         (Site.ID site) (Site.Name site) device))),
           w)
        else
          WriteError c w 400 "Device already exists"
            "A device with this serial number already exists"
    end end end end end.

Definition DeviceFetchBySerialNumber : HandlerFunc :=
  fun c w =>
    let role := gin.GetString c "role" in
    let requesterID := gin.GetString c "user_id" in
    let serialNumber := gin.Param c "device_serial_number" in
    match GetDBInstance c w with
    | (None, cw) => cw
    | (Some bmsDB, (c, w)) =>
    match FetchDeviceBySerialNumber bmsDB serialNumber with
    | Err e =>
        if is_not_found e then
          WriteError c w 404 "Device not found"
            "No device found with the given serial number"
        else (gin.Recovered c, w)
    | Ok device =>
        if negb (String.eqb role "admin")
           && negb (String.eqb
                      (uuid.String
                         (Customer.ID (Site.Customer (Device.Site device))))
                      requesterID)
        then
          WriteError c w 403 "Forbidden"
            "You are not authorized to access this customer's devices"
        else
          (WriteJSON c 200 "Device fetched"
             (Some (PDevice
                      (response_of_Device (Device.ID device)
                         (Customer.ID (Site.Customer (Device.Site device)))
                         (Customer.Name (Site.Customer (Device.Site device)))
                         (Site.ID (Device.Site device))
                         (Site.Name (Device.Site device)) device))),
           w)
    end end.

Definition DeviceDelete : HandlerFunc :=
  fun c w =>
    let serialNumber := gin.Param c "device_serial_number" in
    match GetDBInstance c w with
    | (None, cw) => cw
    | (Some bmsDB, (c, w)) =>
    match FetchDeviceBySerialNumber bmsDB serialNumber with
    | Err e =>
        if is_not_found e then
          WriteError c w 404 "Device not found"
            "No device found with the given serial number"
        else (gin.Recovered c, w)
    | Ok device =>
        (* Soft-delete the device *)
        let w :=
          with_DB w
            (with_devices bmsDB
               (gorm.Update
                  (fun r => N.eqb (Device.ID r) (Device.ID device)
                            && gorm.not_deleted (Device.DeletedAt r))
                  (deleted_Device (Now w)) (devices bmsDB))) in
        (WriteJSON c 200 "Device deleted" None, w)
    end end.

(** *** Token issuance and login *)

Definition GenerateAdminTokenHandler : HandlerFunc :=
  fun c w =>
    let (userID, w) := GenerateID w in
    match GenerateJWT w userID "Admin" "admin" "ADMIN" false with
    | Err e => WriteError c w 500 "Failed to generate token" e
    | Ok token =>
        (WriteJSON c 200 "Token generated successfully"
           (Some (PToken token)), w)
    end.

Definition GenerateTokenHandler : HandlerFunc :=
  fun c w =>
    match gin.Body c with
    | GenerateTokenBody bodyCustomerID bodyAction =>
    if String.eqb bodyCustomerID "" then
      WriteError c w 400 "Invalid request body"
        "Customer ID field is required"
    else
    if negb (IsValidUUID bodyCustomerID) then
      WriteError c w 400 "Invalid request body" "Invalid Customer ID"
    else
    if String.eqb bodyAction "" then
      WriteError c w 400 "Invalid request body" "Action field is required"
    else
    if negb (IsValidAction w bodyAction) then
      WriteError c w 400 "Invalid request body" "Action not allowed"
    else
    match DB w with
    | Err e => WriteError c w 500 "Failed to get database instance" e
    | Ok bmsDB =>
    (* Check if the customer exists *)
    match FetchCustomerByID bmsDB bodyCustomerID with
    | Err e =>
        if is_not_found e then
          WriteError c w 404 "Customer not found" "Customer does not exist"
        else WriteError c w 500 "Database error" e
    | Ok customer =>
    match GenerateJWT w bodyCustomerID (Customer.Name customer) "user"
            bodyAction false with
    | Err e => WriteError c w 500 "Failed to generate token" e
    | Ok token =>
        let (id, w) := uuid_New w in
        let authToken :=
          {| AuthToken.ID := id;
             AuthToken.CustomerID := Customer.ID customer;
             AuthToken.Customer := Customer.zero;
             AuthToken.Action := bodyAction;
             AuthToken.Token := token;
             AuthToken.CreatedAt := Now w; AuthToken.UpdatedAt := Now w |} in
        match gorm.Create AuthToken.ID authToken (auth_tokens bmsDB) with
        | Err e => WriteError c w 500 "Failed to save token" e
        | Ok rows =>
        let bmsDB := with_auth_tokens bmsDB rows in
        let w := with_DB w bmsDB in
        (* Preload the Customer details *)
        match gorm.First AuthToken.ID
                (fun r => N.eqb (AuthToken.ID r) (AuthToken.ID authToken))
                (auth_tokens bmsDB) with
        | None =>
            WriteError c w 500 "Failed to fetch token details"
              gorm.ErrRecordNotFound
        | Some r =>
            let authToken :=
              {| AuthToken.ID := AuthToken.ID r;
                 AuthToken.CustomerID := AuthToken.CustomerID r;
                 AuthToken.Customer :=
                   default (AuthToken.Customer r)
                     (gorm.First Customer.ID
                        (fun cu =>
                           N.eqb (Customer.ID cu) (AuthToken.CustomerID r)
                           && gorm.not_deleted (Customer.DeletedAt cu))
                        (customers bmsDB));
                 AuthToken.Action := AuthToken.Action r;
                 AuthToken.Token := AuthToken.Token r;
                 AuthToken.CreatedAt := AuthToken.CreatedAt r;
                 AuthToken.UpdatedAt := AuthToken.UpdatedAt r |} in
            (WriteJSON c 200 "Token generated successfully"
               (Some (PAuthToken authToken)), w)
        end end
    end end end
    | b =>
        WriteError (gin.Abort c) w 400 "Invalid request body" (bind_error b)
    end.

Definition AuthenticateHandler : HandlerFunc :=
  fun c w =>
    match gin.Body c with
    | AuthenticateBody bodyToken =>
    if jwt.is_empty bodyToken then
      WriteError c w 400 "Invalid request body" "Token field is required"
    else
    match ValidateJWT w bodyToken with
    | Err e => WriteError c w 401 "Invalid token" e
    | Ok claims =>
    match DB w with
    | Err e => WriteError c w 500 "Failed to get database instance" e
    | Ok bmsDB =>
    match index claims "role" with
    | Str role =>
        let login c :=
          WriteJSON (gin.SetCookie c "Authorization" bodyToken) 200
            "Token validated" None in
        if negb (String.eqb role "admin") then
          (* See if the token exists in the database *)
          let token :=
            default AuthToken.zero
              (gorm.First AuthToken.ID
                 (fun r => jwt.eqb (AuthToken.Token r) bodyToken)
                 (auth_tokens bmsDB)) in
          if jwt.is_empty (AuthToken.Token token) then
            WriteError c w 401 "Invalid token" "Token not found"
          else (login c, w)
        else (login c, w)
    | _ => (gin.Recovered c, w)
    end end end
    | b =>
        WriteError (gin.Abort c) w 400 "Invalid request body" (bind_error b)
    end.

End handlers.

(** ** The route table of [setupRoutes]

    The routes whose handlers are embedded above, each with the middleware
    [setupRoutes] puts in front of it. *)
Module routes.

Inductive Route : Type :=
  | POST_admin_generate_admin_token
  | POST_admin_generate_token
  | POST_authenticate
  | POST_customers
  | GET_customers_id
  | DELETE_customers_id
  | POST_customers_id_sites
  | GET_sites_id
  | DELETE_sites_id
  | POST_customers_id_sites_id_devices
  | GET_devices_serial
  | DELETE_devices_serial.

Definition chain (adminSecret : string) (r : Route) : list HandlerFunc :=
  match r with
  | POST_admin_generate_admin_token =>
      [server.AdminMiddleware adminSecret;
       handlers.GenerateAdminTokenHandler]
  | POST_admin_generate_token =>
      [server.AdminMiddleware adminSecret; handlers.GenerateTokenHandler]
  | POST_authenticate => [handlers.AuthenticateHandler]
  | POST_customers =>
      [server.AuthMiddleware; server.AdminOnlyMiddleware;
       handlers.CustomerCreate]
  | GET_customers_id => [server.AuthMiddleware; handlers.CustomerFetchByID]
  | DELETE_customers_id =>
      [server.AuthMiddleware; server.AdminOnlyMiddleware;
       handlers.CustomerDelete]
  | POST_customers_id_sites =>
      [server.AuthMiddleware; server.AdminOnlyMiddleware;
       handlers.SiteCreate]
  | GET_sites_id => [server.AuthMiddleware; handlers.SiteFetchByID]
  | DELETE_sites_id =>
      [server.AuthMiddleware; server.AdminOnlyMiddleware;
       handlers.SiteDelete]
  | POST_customers_id_sites_id_devices =>
      [server.AuthMiddleware; server.AdminOnlyMiddleware;
       handlers.DeviceCreate]
  | GET_devices_serial =>
      [server.AuthMiddleware; handlers.DeviceFetchBySerialNumber]
  | DELETE_devices_serial =>
      [server.AuthMiddleware; server.AdminOnlyMiddleware;
       handlers.DeviceDelete]
  end.

(** A request served: the logging middleware around the route's chain. *)
Definition serve (adminSecret : string) (r : Route) : HandlerFunc :=
  server.loggingMiddleware (chain adminSecret r).

End routes.

(** ** Operations on the database from outside the server *)

(** No handler deletes an AuthToken row; an operator does, with
    [DELETE FROM auth_tokens WHERE customer_id = ? AND action = ?]. *)
Definition revoke (claims : gmap string any) (db : Database) : Database :=
  with_auth_tokens db
    (List.filter (fun r => negb (server.token_query claims r))
       (auth_tokens db)).

(** ** A small deployment, used for the concrete runs below *)
Module fixture.

(** 550e8400-e29b-41d4-a716-446655440000 and its two successors. *)
Definition acme_id : uuid.UUID := 113059749145936325402354257176981405696%N.
Definition plant_id : uuid.UUID := (acme_id + 1)%N.
Definition meter_id : uuid.UUID := (acme_id + 2)%N.
Definition other_id : uuid.UUID := (acme_id + 3)%N.

Definition acme : Customer.t :=
  {| Customer.ID := acme_id; Customer.Name := "Acme Co";
     Customer.CreatedAt := 100; Customer.UpdatedAt := 100;
     Customer.DeletedAt := None |}.

Definition plant : Site.t :=
  {| Site.ID := plant_id; Site.Name := "Plant 1";
     Site.CustomerID := acme_id; Site.Customer := Customer.zero;
     Site.CreatedAt := 110; Site.UpdatedAt := 110;
     Site.DeletedAt := None |}.

Definition meter : Device.t :=
  {| Device.ID := meter_id; Device.SiteID := plant_id;
     Device.Site := Site.zero; Device.Gateway := "gw";
     Device.Controller := "ctl"; Device.ControllerSerialNumber := "C-1";
     Device.DeviceType := "meter"; Device.DeviceName := "Meter 1";
     Device.DeviceSerialNumber := "SN-001"; Device.BuildingURL := "";
     Device.AuthToken := ""; Device.CreatedAt := 120;
     Device.UpdatedAt := 120; Device.DeletedAt := None |}.

Definition empty_db : Database :=
  {| customers := []; sites := []; devices := []; auth_tokens := [] |}.

Definition world_of (db : Database) (now : Z) : World :=
  {| DB := Ok db; JwtSecret := "s3cret"; Now := now;
     roles := ["admin"; "user"]; actions := ["ADMIN"; "READ"];
     Rand := fun n => (other_id + 1 + N.of_nat n)%N; RandPos := 0;
     Log := []; Stdout := [] |}.

(** The token [POST /admin/generate-token] issues to Acme at time [now]. *)
Definition acme_token (now : Z) : jwt.TokenString :=
  jwt.Compact
    {| jwt.Method := jwt.HS256;
       jwt.Claims :=
         serverutils.MapClaims
           {| serverutils.UserID := uuid.String acme_id;
              serverutils.Username := "Acme Co";
              serverutils.Role := "user"; serverutils.Action := "READ";
              serverutils.Issuer := "Rubicon BMS";
              serverutils.IssuedAt := now;
              serverutils.ExpiresAt := None |};
       jwt.SignedWith := "s3cret" |}.

Definition acme_auth (now : Z) : AuthToken.t :=
  {| AuthToken.ID := other_id; AuthToken.CustomerID := acme_id;
     AuthToken.Customer := Customer.zero; AuthToken.Action := "READ";
     AuthToken.Token := acme_token now;
     AuthToken.CreatedAt := now; AuthToken.UpdatedAt := now |}.

(** Acme owns one site with one device, and holds one token. *)
Definition db : Database :=
  {| customers := [acme]; sites := [plant]; devices := [meter];
     auth_tokens := [acme_auth 200] |}.

Definition world : World := world_of db 1000.

(** A context as [AuthMiddleware] leaves it for Acme's user session. *)
Definition acme_session (params : gmap string string) : gin.Context :=
  server.bind_claims (gin.request params ∅ ∅ (BadBody "EOF"))
    (<["user_id" := Str (uuid.String acme_id)]>
       (<["role" := Str "user"]> (<["action" := Str "READ"]> ∅))).

(** Acme asks for another customer's record. *)
Definition acme_asks_other : gin.Context :=
  acme_session {["customer_id" := uuid.String other_id]}.

(** A request carrying Acme's token of time 200 as its session cookie. *)
Definition with_cookie (params : gmap string string) : gin.Context :=
  gin.request params ∅ {["Authorization" := acme_token 200]}
    (BadBody "EOF").

Definition acme_claims : gmap string any :=
  match acme_token 200 with
  | jwt.Compact t => jwt.Claims t
  | jwt.Raw _ => ∅
  end.

(** The database after Acme's token of time 200 was superseded by one
    issued at time 300. *)
Definition db_superseded : Database :=
  with_auth_tokens db [acme_auth 300].

Definition login_request : gin.Context :=
  gin.request ∅ ∅ ∅ (AuthenticateBody (acme_token 200)).

(** A request to an issuance endpoint with the right admin secret. *)
Definition admin_request (body : RequestBody) : gin.Context :=
  gin.request ∅ {["Admin-Secret" := "adm"]} ∅ body.

(** The admin token issued in [world]: its subject is the first value of
    the random source. *)
Definition admin_token : jwt.TokenString :=
  jwt.Compact
    {| jwt.Method := jwt.HS256;
       jwt.Claims :=
         serverutils.MapClaims
           {| serverutils.UserID := uuid.String (other_id + 1)%N;
              serverutils.Username := "Admin";
              serverutils.Role := "admin"; serverutils.Action := "ADMIN";
              serverutils.Issuer := "Rubicon BMS";
              serverutils.IssuedAt := 1000;
              serverutils.ExpiresAt := None |};
       jwt.SignedWith := "s3cret" |}.

(** An admin session, as [AuthMiddleware] leaves it. *)
Definition admin_session (params : gmap string string)
    (body : RequestBody) : gin.Context :=
  server.bind_claims (gin.request params ∅ ∅ body)
    (<["user_id" := Str (uuid.String (other_id + 1)%N)]>
       (<["role" := Str "admin"]> (<["action" := Str "ADMIN"]> ∅))).

(** The database after the device was soft-deleted at time 500. *)
Definition db_meter_deleted : Database :=
  with_devices db [handlers.deleted_Device 500 meter].

(** An admin's [POST /customers] for Acme, and a process with an empty
    database. *)
Definition create_acme : gin.Context :=
  admin_session ∅ (CustomerBody {| CustomerRequest.Name := "Acme Co" |}).

Definition world0 : World := world_of empty_db 1000.

(** The scenario of the specification: Acme is created in the empty
    database, then deleted by an admin. *)
Definition world_created : World :=
  snd (handlers.CustomerCreate create_acme world0).

Definition delete_acme : gin.Context :=
  admin_session {["customer_id" := uuid.String (other_id + 1)%N]}
    (BadBody "EOF").

Definition world_deleted : World :=
  snd (handlers.CustomerDelete delete_acme world_created).

Definition db_deleted : Database :=
  match DB world_deleted with
  | Ok d => d
  | Err _ => empty_db
  end.

Definition acme_deleted : Customer.t :=
  {| Customer.ID := (other_id + 1)%N; Customer.Name := "Acme Co";
     Customer.CreatedAt := 1000; Customer.UpdatedAt := 1000;
     Customer.DeletedAt := Some 1000%Z |}.

(** The site and the device of [db], each soft-deleted at time 500, and the
    admin's creates that name them again. *)
Definition db_plant_deleted : Database :=
  with_sites db [handlers.deleted_Site 500 plant].

Definition create_plant : gin.Context :=
  admin_session {["customer_id" := uuid.String acme_id]}
    (SiteBody {| SiteRequest.Name := "Plant 1" |}).

Definition meter_body : DeviceRequest.t :=
  {| DeviceRequest.Gateway := "gw"; DeviceRequest.Controller := "ctl";
     DeviceRequest.ControllerSerialNumber := "C-1";
     DeviceRequest.DeviceType := "meter";
     DeviceRequest.DeviceName := "Meter 1";
     DeviceRequest.DeviceSerialNumber := "SN-001";
     DeviceRequest.BuildingURL := ""; DeviceRequest.AuthToken := "" |}.

Definition create_meter : gin.Context :=
  admin_session
    (<["customer_id" := uuid.String acme_id]>
       {["site_id" := uuid.String plant_id]})
    (DeviceBody meter_body).

(** Acme, holding its token of time 200 as session cookie, asks for its
    own site and for its own device. *)
Definition acme_gets_plant : gin.Context :=
  with_cookie {["site_id" := uuid.String plant_id]}.

Definition acme_gets_meter : gin.Context :=
  with_cookie {["device_serial_number" := "SN-001"]}.

(** A request to an issuance endpoint without the admin secret. *)
Definition no_secret : gin.Context :=
  gin.request ∅ ∅ ∅ (BadBody "EOF").

(** A request carrying the admin token as its session cookie. *)
Definition as_admin (params : gmap string string) (body : RequestBody)
  : gin.Context :=
  gin.request params ∅ {["Authorization" := admin_token]} body.

End fixture.


(** ** The responses and the predicates the properties are stated with *)

(** The refusal of [CustomerFetchByID]. *)
Definition forbidden_customer : Response :=
  {| Status := 403; Message := "Forbidden"; Data := None;
     Error := "Unauthorized access" |}.

(** The refusal of [AuthMiddleware] when no row backs the session. *)
Definition token_not_found : Response :=
  {| Status := 401; Message := "Unauthorized"; Data := None;
     Error := "Token not found" |}.

(** The answers of [AuthenticateHandler]. *)
Definition token_validated : Response :=
  {| Status := 200; Message := "Token validated"; Data := None;
     Error := "" |}.

Definition login_token_not_found : Response :=
  {| Status := 401; Message := "Invalid token"; Data := None;
     Error := "Token not found" |}.

(** The validator's message for a token past its [exp]. *)
Definition expired : string := "token has invalid claims: token is expired".

(** The success envelope of the two issuance endpoints. *)
Definition token_generated (p : Payload) : Response :=
  {| Status := 200; Message := "Token generated successfully";
     Data := Some p; Error := "" |}.

(** The success envelope of [DeviceFetchBySerialNumber]. *)
Definition device_fetched (d : Device.t) : Response :=
  {| Status := 200; Message := "Device fetched";
     Data :=
       Some (PDevice
               (handlers.response_of_Device (Device.ID d)
                  (Customer.ID (Site.Customer (Device.Site d)))
                  (Customer.Name (Site.Customer (Device.Site d)))
                  (Site.ID (Device.Site d)) (Site.Name (Device.Site d)) d));
     Error := "" |}.

(** The answers of [CustomerCreate]. *)
Definition customer_exists : Response :=
  {| Status := 400; Message := "Customer already exists"; Data := None;
     Error := "A customer with this name already exists" |}.

Definition customer_created (id : uuid.UUID) (name : string) : Response :=
  {| Status := 201; Message := "Customer created";
     Data := Some (PCustomer {| CustomerResponse.ID := id;
                                CustomerResponse.Name := name |});
     Error := "" |}.

(** The success envelope of a restore. *)
Definition restored (message : string) (p : Payload) : Response :=
  {| Status := 200; Message := message; Data := Some p; Error := "" |}.

(** The refusals of [SiteFetchByID] and [DeviceFetchBySerialNumber]. *)
Definition forbidden_site : Response :=
  {| Status := 403; Message := "Forbidden"; Data := None;
     Error := "You are not authorized to access this site" |}.

Definition forbidden_device : Response :=
  {| Status := 403; Message := "Forbidden"; Data := None;
     Error := "You are not authorized to access this customer's devices" |}.

(** The body [AdminMiddleware] answers with. *)
Definition invalid_admin_secret : ResponseBody :=
  H [("error", "Unauthorized"); ("message", "Invalid admin secret")].


(** Every stored token string is non-empty. *)
Definition tokens_not_empty (db : Database) : Prop :=
  forall r, In r (auth_tokens db) ->
            jwt.is_empty (AuthToken.Token r) = false.

(** ** A further handler of customers.go *)
Module updates.

Import serverutils.

(** [Update("name", ...)]: the name column, and the update time GORM
    stamps. *)
Definition renamed_Customer (now : Z) (name : string) (r : Customer.t)
  : Customer.t :=
  {| Customer.ID := Customer.ID r; Customer.Name := name;
     Customer.CreatedAt := Customer.CreatedAt r; Customer.UpdatedAt := now;
     Customer.DeletedAt := Customer.DeletedAt r |}.

Definition CustomerUpdate : HandlerFunc :=
  fun c w =>
    let role := gin.GetString c "role" in
    if negb (String.eqb role "admin") then
      WriteError c w 403 "Forbidden" "Unauthorized access"
    else
    let id := gin.Param c "customer_id" in
    if negb (IsValidUUID id) then
      WriteError c w 400 "Invalid customer ID" "Invalid UUID format"
    else
    match handlers.BindJSON_Customer c with
    | (Err _, c) =>
        WriteError c w 400 "Invalid request body" "Name field is required"
    | (Ok body, c) =>
    if String.eqb (CustomerRequest.Name body) "" then
      WriteError c w 400 "Invalid request body" "Name field is required"
    else
    match GetDBInstance c w with
    | (None, cw) => cw
    | (Some bmsDB, (c, w)) =>
    match handlers.FetchCustomerByID bmsDB id with
    | Err e =>
        if handlers.is_not_found e then
          WriteError c w 404 "Customer not found"
            "No customer found with the given ID"
        else WriteError c w 500 "Failed to fetch customer" e
    | Ok customer =>
        let w :=
          with_DB w
            (with_customers bmsDB
               (gorm.Update
                  (fun r => N.eqb (Customer.ID r) (Customer.ID customer)
                            && gorm.not_deleted (Customer.DeletedAt r))
                  (renamed_Customer (Now w) (CustomerRequest.Name body))
                  (customers bmsDB))) in
        (WriteJSON c 200 "Customer updated"
           (Some (PCustomer
                    {| CustomerResponse.ID := Customer.ID customer;
                       CustomerResponse.Name :=
                         CustomerRequest.Name body |})),
         w)
    end end end.

(** [PUT /customers/:customer_id] as [setupRoutes] registers it. *)
Definition PUT_customers_id : list HandlerFunc :=
  [server.AuthMiddleware; server.AdminOnlyMiddleware; CustomerUpdate].

End updates.

(** ** Further predicates and sample data *)

(** A write is the envelope carrying its own HTTP code, or the bare 500 of
    a recovered panic. *)
Definition enveloped (code : Z) (b : ResponseBody) : Prop :=
  json_status b = Some code \/ (b = NoBody /\ code = 500%Z).

(** Thirty days, in seconds: the lifetime [GenerateJWT] gives a token it is
    asked to expire. *)
Definition thirty_days : Z := 24 * 3600 * 30.

(** ** Further responses *)

(** The 500 of the two issuance endpoints, with the error of [GenerateJWT]. *)
Definition generate_failed (e : string) : Response :=
  {| Status := 500; Message := "Failed to generate token"; Data := None;
     Error := e |}.

Definition invalid_username : Response :=
  generate_failed "invalid username".

(** A handler appends exactly one write, and that write is enveloped. *)
Definition writes_once (h : HandlerFunc) : Prop :=
  forall c w, exists code body,
    gin.Written (fst (h c w)) = (gin.Written c ++ [(code, body)])%list
    /\ enveloped code body.

(** The answers of [CustomerDelete] and [CustomerUpdate]. *)
Definition customer_deleted : Response :=
  {| Status := 200; Message := "Customer deleted"; Data := None;
     Error := "" |}.

Definition customer_updated (id : uuid.UUID) (name : string) : Response :=
  {| Status := 200; Message := "Customer updated";
     Data := Some (PCustomer {| CustomerResponse.ID := id;
                                CustomerResponse.Name := name |});
     Error := "" |}.

Definition customer_not_found : Response :=
  {| Status := 404; Message := "Customer not found"; Data := None;
     Error := "No customer found with the given ID" |}.

(** The conflicts of [SiteCreate] and [DeviceCreate]. *)
Definition site_exists : Response :=
  {| Status := 400; Message := "Site already exists"; Data := None;
     Error := "A site with this name already exists" |}.

Definition device_exists : Response :=
  {| Status := 400; Message := "Device already exists"; Data := None;
     Error := "A device with this serial number already exists" |}.

(** The answers of [DeviceDelete] and [SiteDelete]. *)
Definition device_deleted : Response :=
  {| Status := 200; Message := "Device deleted"; Data := None; Error := "" |}.

Definition site_deleted : Response :=
  {| Status := 200; Message := "Site deleted"; Data := None; Error := "" |}.

Definition site_not_found : Response :=
  {| Status := 404; Message := "Site not found"; Data := None;
     Error := "No site found with the given ID" |}.

(** The refusal and the success envelope of [DeviceCreate]. *)
Definition site_of_another_customer : Response :=
  {| Status := 403; Message := "Forbidden"; Data := None;
     Error := "There is no site with the given ID for the given customer" |}.

Definition device_created (resp : DeviceResponse.t) : Response :=
  {| Status := 200; Message := "Device created"; Data := Some (PDevice resp);
     Error := "" |}.

(** The success envelope of [CustomerFetchByID]. *)
Definition customer_fetched (cu : Customer.t) : Response :=
  {| Status := 200; Message := "Customer fetched";
     Data := Some (PCustomer {| CustomerResponse.ID := Customer.ID cu;
                                CustomerResponse.Name := Customer.Name cu |});
     Error := "" |}.

Module sample.

(** A customer whose name [CustomerCreate] accepts and the name pattern of
    [GenerateJWT] does not. *)
Definition hyphen : Customer.t :=
  {| Customer.ID := fixture.other_id; Customer.Name := "Acme-Co";
     Customer.CreatedAt := 100; Customer.UpdatedAt := 100;
     Customer.DeletedAt := None |}.

Definition db_hyphen : Database :=
  with_customers fixture.empty_db [hyphen].

Definition token_for (id action : string) : gin.Context :=
  fixture.admin_request (GenerateTokenBody id action).

(** An admin's rename of Acme. *)
Definition rename_acme : gin.Context :=
  fixture.admin_session {["customer_id" := uuid.String fixture.acme_id]}
    (CustomerBody {| CustomerRequest.Name := "Acme Ltd" |}).

Definition delete_acme : gin.Context :=
  fixture.admin_session {["customer_id" := uuid.String fixture.acme_id]}
    (BadBody "EOF").

Definition delete_meter : gin.Context :=
  fixture.admin_session {["device_serial_number" := "SN-001"]}
    (BadBody "EOF").

(** A second customer, and an admin creating under it a site and a device
    whose natural keys Acme's already carry. *)
Definition globex : Customer.t :=
  {| Customer.ID := fixture.other_id; Customer.Name := "Globex";
     Customer.CreatedAt := 130; Customer.UpdatedAt := 130;
     Customer.DeletedAt := None |}.

Definition db_two : Database :=
  with_customers fixture.db [fixture.acme; globex].

Definition globex_plant : gin.Context :=
  fixture.admin_session {["customer_id" := uuid.String fixture.other_id]}
    (SiteBody {| SiteRequest.Name := "Plant 1" |}).

Definition globex_meter : gin.Context :=
  fixture.admin_session
    (<["customer_id" := uuid.String fixture.other_id]>
       {["site_id" := uuid.String fixture.plant_id]})
    (DeviceBody fixture.meter_body).

(** An admin's delete of Acme's site, and a create of a second device
    under it. *)
Definition delete_plant : gin.Context :=
  fixture.admin_session {["site_id" := uuid.String fixture.plant_id]}
    (BadBody "EOF").

Definition meter2_body : DeviceRequest.t :=
  {| DeviceRequest.Gateway := "gw"; DeviceRequest.Controller := "ctl";
     DeviceRequest.ControllerSerialNumber := "C-1";
     DeviceRequest.DeviceType := "meter";
     DeviceRequest.DeviceName := "Meter 2";
     DeviceRequest.DeviceSerialNumber := "SN-002";
     DeviceRequest.BuildingURL := ""; DeviceRequest.AuthToken := "" |}.

Definition create_meter2 : gin.Context :=
  fixture.admin_session
    (<["customer_id" := uuid.String fixture.acme_id]>
       {["site_id" := uuid.String fixture.plant_id]})
    (DeviceBody meter2_body).

(** The token [GenerateJWT] issues to Acme at time 1000 when asked to
    expire it. *)
Definition expiring : jwt.TokenString :=
  jwt.Compact
    {| jwt.Method := jwt.HS256;
       jwt.Claims :=
         serverutils.MapClaims
           {| serverutils.UserID := uuid.String fixture.acme_id;
              serverutils.Username := "Acme Co";
              serverutils.Role := "user"; serverutils.Action := "READ";
              serverutils.Issuer := "Rubicon BMS";
              serverutils.IssuedAt := 1000;
              serverutils.ExpiresAt := Some (1000 + thirty_days)%Z |};
       jwt.SignedWith := "s3cret" |}.


(** The row [GenerateTokenHandler] stores for Acme in [fixture.world]. *)
Definition issued : AuthToken.t :=
  {| AuthToken.ID := (fixture.other_id + 1)%N;
     AuthToken.CustomerID := fixture.acme_id;
     AuthToken.Customer := fixture.acme; AuthToken.Action := "READ";
     AuthToken.Token := fixture.acme_token 1000;
     AuthToken.CreatedAt := 1000; AuthToken.UpdatedAt := 1000 |}.

End sample.

(** * Properties *)

(** ** google/uuid *)

Example uuid_String_ex :
  uuid.String 113059749145936325402354257176981405696%N
  = "550e8400-e29b-41d4-a716-446655440000".
Proof. vm_compute. reflexivity. Qed.

Example uuid_Parse_ex :
  uuid.Parse "550E8400-e29b-41d4-a716-446655440000"
  = Some 113059749145936325402354257176981405696%N.
Proof. vm_compute. reflexivity. Qed.

Example uuid_Parse_forms :
  uuid.Parse "urn:UUID:550e8400-e29b-41d4-a716-446655440000"
    = Some fixture.acme_id
  /\ uuid.Parse "{550e8400-e29b-41d4-a716-446655440000}"
     = Some fixture.acme_id
  /\ uuid.Parse "550e8400e29b41d4a716446655440000" = Some fixture.acme_id
  /\ uuid.Parse "550e8400-e29b-41d4-a716-44665544000" = None
  /\ uuid.Parse "550e8400-e29b-41d4-a716-44665544000g" = None.
Proof. vm_compute. repeat split; reflexivity. Qed.

Example IsValidString_ex :
  serverutils.IsValidString "Acme Co" = true
  /\ serverutils.IsValidString "ab" = false
  /\ serverutils.IsValidString "Acme-Co" = false
  /\ serverutils.IsValidString "abcdefghijklmnopqrst" = true
  /\ serverutils.IsValidString "abcdefghijklmnopqrstu" = false.
Proof. vm_compute. repeat split; reflexivity. Qed.

Lemma uuid_String_not_empty (u : uuid.UUID) : uuid.String u <> "".
Proof.
  unfold uuid.String.
  destruct (substring 0 8 (uuid.hex 32 u)); simpl; discriminate.
Qed.

(** ** [First] *)
Section FirstFacts.
Context {R : Type} (pk : R -> uuid.UUID).

Lemma First_In (cond : R -> bool) (rows : list R) (r : R) :
  gorm.First pk cond rows = Some r -> In r rows /\ cond r = true.
Proof.
  revert r. induction rows as [|x rest IH]; simpl; intros r Hr.
  - discriminate.
  - destruct (cond x) eqn:Hx.
    + destruct (gorm.First pk cond rest) as [b|] eqn:Hb.
      * destruct (pk b <? pk x)%N; inversion Hr; subst.
        -- destruct (IH r eq_refl) as [Hin Hc]. split; [right|]; assumption.
        -- split; [left; reflexivity | assumption].
      * inversion Hr; subst. split; [left; reflexivity | assumption].
    + destruct (IH r Hr) as [Hin Hc]. split; [right|]; assumption.
Qed.

Lemma First_None (cond : R -> bool) (rows : list R) :
  gorm.First pk cond rows = None <->
  (forall r, In r rows -> cond r = false).
Proof.
  induction rows as [|x rest IH]; simpl.
  - split; [intros _ r [] | reflexivity].
  - destruct (cond x) eqn:Hx.
    + split.
      * destruct (gorm.First pk cond rest) as [b|];
          [destruct (pk b <? pk x)%N|]; discriminate.
      * intros Hall. rewrite (Hall x) in Hx; [discriminate | now left].
    + rewrite IH. split.
      * intros Hall r [<-|Hin]; [assumption | now apply Hall].
      * intros Hall r Hin. apply Hall. now right.
Qed.

Lemma First_found (cond : R -> bool) (rows : list R) (r : R) :
  In r rows -> cond r = true ->
  exists r', gorm.First pk cond rows = Some r'.
Proof.
  intros Hin Hc.
  destruct (gorm.First pk cond rows) as [r'|] eqn:HF; [eauto|].
  rewrite First_None in HF. rewrite (HF r Hin) in Hc. discriminate.
Qed.

(** When one row only satisfies the condition, [First] returns it. *)
Lemma First_unique (cond : R -> bool) (rows : list R) (r : R) :
  In r rows -> cond r = true ->
  (forall r', In r' rows -> cond r' = true -> r' = r) ->
  gorm.First pk cond rows = Some r.
Proof.
  intros Hin Hc Huniq.
  destruct (First_found cond rows r Hin Hc) as [r' HF].
  destruct (First_In _ _ _ HF) as [Hin' Hc'].
  rewrite HF. f_equal. now apply Huniq.
Qed.
End FirstFacts.

(** ** Small facts used below *)

Lemma eqb_false_of_neq (a b : string) : a <> b -> String.eqb a b = false.
Proof. intros H. now apply String.eqb_neq. Qed.

Lemma existsb_eqb_In (l : list string) (x : string) :
  existsb (fun y => String.eqb y x) l = true <-> In x l.
Proof.
  rewrite existsb_exists. split.
  - intros [y [Hin Heq]]. apply String.eqb_eq in Heq. now subst.
  - intros Hin. exists x. split; [assumption | apply String.eqb_refl].
Qed.

Lemma existsb_eqb_not_In (l : list string) (x : string) :
  existsb (fun y => String.eqb y x) l = false <-> ~ In x l.
Proof.
  rewrite <- existsb_eqb_In. destruct (existsb _ l); split; intros H;
    try reflexivity; try discriminate; try (now intros H'); now elim H.
Qed.

(** ** Token issuance *)

(** C7. [GenerateJWT] returns an error, and no token, exactly when the
    subject id does not parse as a UUID, or the display name does not match
    the name pattern, or the role is not among [roles], or the action is not
    among [actions], or the signing secret is the empty string; on every
    other input it returns a token signed under the secret with HS256 that
    carries the four values it was given. *)
Theorem C7_GenerateJWT_fails_exactly_on_bad_input
    (w : World) (userID username role action : string) (expire : bool) :
  let bad :=
    uuid.Parse userID = None
    \/ serverutils.IsValidString username = false
    \/ ~ In role (roles w)
    \/ ~ In action (actions w)
    \/ JwtSecret w = "" in
  ((exists e,
      serverutils.GenerateJWT w userID username role action expire = Err e)
   <-> bad)
  /\ (~ bad ->
      exists t,
        serverutils.GenerateJWT w userID username role action expire
          = Ok (jwt.Compact t)
        /\ jwt.Method t = jwt.HS256
        /\ jwt.SignedWith t = JwtSecret w
        /\ jwt.Claims t !! "user_id" = Some (Str userID)
        /\ jwt.Claims t !! "user_name" = Some (Str username)
        /\ jwt.Claims t !! "role" = Some (Str role)
        /\ jwt.Claims t !! "action" = Some (Str action)).
Proof.
  intros bad. unfold bad, serverutils.GenerateJWT, serverutils.IsValidUUID,
    serverutils.IsValidRole, serverutils.IsValidAction,
    serverutils.SignedString.
  destruct (uuid.Parse userID) as [u|] eqn:HU; simpl.
  2:{ split; [split; [intros _; now left | intros _; eauto] |].
      intros Hn. elim Hn. now left. }
  destruct (serverutils.IsValidString username) eqn:HS; simpl.
  2:{ split; [split; [intros _; right; now left | intros _; eauto] |].
      intros Hn. elim Hn. right. now left. }
  destruct (existsb (fun r => String.eqb r role) (roles w)) eqn:HR; simpl.
  2:{ apply existsb_eqb_not_In in HR.
      split; [split; [intros _; right; right; now left | intros _; eauto] |].
      intros Hn. elim Hn. right. right. now left. }
  destruct (existsb (fun a => String.eqb a action) (actions w)) eqn:HA; simpl.
  2:{ apply existsb_eqb_not_In in HA.
      split; [split; [intros _; do 3 right; now left | intros _; eauto] |].
      intros Hn. elim Hn. do 3 right. now left. }
  apply existsb_eqb_In in HR, HA.
  destruct (String.eqb (JwtSecret w) "") eqn:HK.
  { apply String.eqb_eq in HK.
    split; [split; [intros _; do 4 right; assumption | intros _; eauto] |].
    intros Hn. elim Hn. do 4 right. assumption. }
  apply String.eqb_neq in HK.
  split.
  - split.
    + intros [e He]. discriminate.
    + intros [H|[H|[H|[H|H]]]]; try discriminate; contradiction.
  - intros _. eexists. split; [reflexivity|].
    simpl. unfold serverutils.MapClaims; simpl.
    destruct expire; repeat split; reflexivity.
Qed.

(** ** Fetching a customer *)

(** C5. A caller whose bound role is not admin and who asks
    [GET /customers/:customer_id] for a well-formed id other than its bound
    subject id is answered 403, and the context the handler leaves is the
    same whatever [GetDB] returns: the check is decided before the database
    is consulted, and the database is left as it was. *)
Theorem C5_customer_fetch_forbidden_before_lookup
    (c : gin.Context) (w : World) (d1 d2 : result Database) :
  serverutils.IsValidUUID (gin.Param c "customer_id") = true ->
  gin.GetString c "role" <> "admin" ->
  gin.GetString c "customer_id" <> gin.Param c "customer_id" ->
  gin.Written (fst (handlers.CustomerFetchByID c (with_GetDB w d1)))
    = (gin.Written c ++ [(403%Z, Envelope forbidden_customer)])%list
  /\ fst (handlers.CustomerFetchByID c (with_GetDB w d1))
     = fst (handlers.CustomerFetchByID c (with_GetDB w d2))
  /\ DB (snd (handlers.CustomerFetchByID c (with_GetDB w d1))) = d1.
Proof.
  intros Hid Hrole Hreq.
  unfold handlers.CustomerFetchByID.
  rewrite Hid. simpl negb at 1. cbv iota.
  rewrite (eqb_false_of_neq _ _ Hrole), (eqb_false_of_neq _ _ Hreq).
  simpl. repeat split; reflexivity.
Qed.

Lemma C5_witness :
  gin.Written
    (fst (handlers.CustomerFetchByID fixture.acme_asks_other
            (with_GetDB fixture.world (Ok fixture.db))))
    = (gin.Written fixture.acme_asks_other
         ++ [(403%Z, Envelope forbidden_customer)])%list
  /\ fst (handlers.CustomerFetchByID fixture.acme_asks_other
            (with_GetDB fixture.world (Ok fixture.db)))
     = fst (handlers.CustomerFetchByID fixture.acme_asks_other
              (with_GetDB fixture.world (Ok fixture.empty_db)))
  /\ DB (snd (handlers.CustomerFetchByID fixture.acme_asks_other
                (with_GetDB fixture.world (Ok fixture.db))))
     = Ok fixture.db.
Proof.
  apply (C5_customer_fetch_forbidden_before_lookup fixture.acme_asks_other
           fixture.world (Ok fixture.db) (Ok fixture.empty_db)).
  - vm_compute. reflexivity.
  - vm_compute. discriminate.
  - vm_compute. discriminate.
Defined.

(** ** The session middleware *)

Lemma ValidateJWT_with_DB (w : World) (db : Database) (t : jwt.TokenString) :
  serverutils.ValidateJWT (with_DB w db) t = serverutils.ValidateJWT w t.
Proof. reflexivity. Qed.

(** What [AuthMiddleware] does with a validly signed token whose role is a
    string other than admin: it looks for the backing row. *)
Lemma AuthMiddleware_user (c : gin.Context) (w : World)
    (tokenString : jwt.TokenString) (claims : gmap string any)
    (role : string) (db : Database) :
  gin.Cookie c "Authorization" = Ok tokenString ->
  serverutils.ValidateJWT w tokenString = Ok claims ->
  index claims "role" = Str role -> role <> "admin" ->
  DB w = Ok db ->
  server.AuthMiddleware c w
  = if jwt.is_empty
         (AuthToken.Token
            (default AuthToken.zero
               (gorm.First AuthToken.ID (server.token_query claims)
                  (auth_tokens db))))
    then (gin.Abort (gin.JSON c 401 (Envelope token_not_found)),
          with_Log w (LogError "Unauthorized" "Token not found"))
    else (server.bind_claims c claims, w).
Proof.
  intros Hc Hv Hr Hna Hdb. unfold server.AuthMiddleware.
  rewrite Hc, Hv, Hdb, Hr, (eqb_false_of_neq _ _ Hna). simpl.
  destruct (jwt.is_empty _); reflexivity.
Qed.

(** C2. A request with a validly signed session token whose role is not
    admin, when no AuthToken row matches the token's subject and action, is
    answered 401 by the middleware, the chain is aborted and the handlers
    after the middleware do not run; in particular this is what happens once
    the backing rows have been deleted, although the token still
    validates. *)
Theorem C2_session_needs_a_persisted_token
    (c : gin.Context) (w : World) (tokenString : jwt.TokenString)
    (claims : gmap string any) (role : string) (next : list HandlerFunc) :
  gin.Cookie c "Authorization" = Ok tokenString ->
  serverutils.ValidateJWT w tokenString = Ok claims ->
  index claims "role" = Str role -> role <> "admin" ->
  (forall db,
     (forall r, In r (auth_tokens db) -> server.token_query claims r = false) ->
     server.run (server.AuthMiddleware :: next) c (with_DB w db)
     = (gin.Abort (gin.JSON c 401 (Envelope token_not_found)),
        with_Log (with_DB w db) (LogError "Unauthorized" "Token not found")))
  /\ (forall db,
        serverutils.ValidateJWT (with_DB w (revoke claims db)) tokenString
          = Ok claims
        /\ server.run (server.AuthMiddleware :: next) c
             (with_DB w (revoke claims db))
           = (gin.Abort (gin.JSON c 401 (Envelope token_not_found)),
              with_Log (with_DB w (revoke claims db))
                (LogError "Unauthorized" "Token not found"))).
Proof.
  intros Hc Hv Hr Hna.
  assert (Hmain : forall db,
    (forall r, In r (auth_tokens db) -> server.token_query claims r = false) ->
    server.run (server.AuthMiddleware :: next) c (with_DB w db)
    = (gin.Abort (gin.JSON c 401 (Envelope token_not_found)),
       with_Log (with_DB w db) (LogError "Unauthorized" "Token not found"))).
  { intros db Hnone. simpl.
    rewrite (AuthMiddleware_user c (with_DB w db) tokenString claims role db);
      try assumption; try reflexivity.
    apply (First_None AuthToken.ID) in Hnone. rewrite Hnone. reflexivity. }
  split; [exact Hmain|].
  intros db. split; [rewrite ValidateJWT_with_DB; assumption|].
  apply Hmain. intros r Hin. unfold revoke in Hin. simpl in Hin.
  apply filter_In in Hin. destruct Hin as [_ Hq].
  now apply negb_true_iff in Hq.
Qed.

Lemma C2_witness :
  serverutils.ValidateJWT
    (with_DB fixture.world (revoke fixture.acme_claims fixture.db))
    (fixture.acme_token 200) = Ok fixture.acme_claims
  /\ server.run [server.AuthMiddleware; handlers.CustomerFetchByID]
       (fixture.with_cookie ∅)
       (with_DB fixture.world (revoke fixture.acme_claims fixture.db))
     = (gin.Abort
          (gin.JSON (fixture.with_cookie ∅) 401 (Envelope token_not_found)),
        with_Log
          (with_DB fixture.world (revoke fixture.acme_claims fixture.db))
          (LogError "Unauthorized" "Token not found")).
Proof.
  apply (proj2 (C2_session_needs_a_persisted_token (fixture.with_cookie ∅)
                  fixture.world (fixture.acme_token 200) fixture.acme_claims
                  "user" [handlers.CustomerFetchByID]
                  ltac:(vm_compute; reflexivity)
                  ltac:(vm_compute; reflexivity)
                  ltac:(vm_compute; reflexivity)
                  ltac:(vm_compute; discriminate))).
Defined.

Lemma validated_token_not_empty (w : World) (t : jwt.TokenString)
    (claims : gmap string any) :
  serverutils.ValidateJWT w t = Ok claims -> jwt.is_empty t = false.
Proof.
  destruct t as [s|tok]; [discriminate | reflexivity].
Qed.

(** C9. For a validly signed token whose role is not admin, the session
    middleware lets the request through as soon as some persisted AuthToken
    row matches the token's subject and action, whatever token string that
    row stores; [POST /authenticate] with the same token answers 200 when a
    persisted row stores exactly the presented token string and 401 when
    none does.  The rows are those the server writes: their token strings
    are not empty. *)
Theorem C9_session_check_ignores_the_stored_token
    (c : gin.Context) (w : World) (tokenString : jwt.TokenString)
    (claims : gmap string any) (role : string) (db : Database)
    (r : AuthToken.t) :
  gin.Cookie c "Authorization" = Ok tokenString ->
  serverutils.ValidateJWT w tokenString = Ok claims ->
  index claims "role" = Str role -> role <> "admin" ->
  DB w = Ok db ->
  In r (auth_tokens db) -> server.token_query claims r = true ->
  (forall r', In r' (auth_tokens db) ->
              jwt.is_empty (AuthToken.Token r') = false) ->
  server.AuthMiddleware c w = (server.bind_claims c claims, w)
  /\ (forall c', gin.Body c' = AuthenticateBody tokenString ->
        ((exists r', In r' (auth_tokens db)
                     /\ AuthToken.Token r' = tokenString) ->
         handlers.AuthenticateHandler c' w
         = (gin.JSON (gin.SetCookie c' "Authorization" tokenString) 200
              (Envelope token_validated), w))
        /\ ((forall r', In r' (auth_tokens db) ->
                        AuthToken.Token r' <> tokenString) ->
            handlers.AuthenticateHandler c' w
            = (gin.JSON c' 401 (Envelope login_token_not_found),
               with_Log w (LogError "Invalid token" "Token not found")))).
Proof.
  intros Hc Hv Hr Hna Hdb Hin Hq Hne. split.
  - rewrite (AuthMiddleware_user c w tokenString claims role db);
      try assumption.
    destruct (First_found AuthToken.ID _ _ _ Hin Hq) as [r' HF].
    rewrite HF. simpl.
    destruct (First_In _ _ _ _ HF) as [Hin' _].
    now rewrite (Hne r' Hin').
  - intros c' Hbody. unfold handlers.AuthenticateHandler.
    rewrite Hbody, (validated_token_not_empty _ _ _ Hv), Hv, Hdb, Hr,
      (eqb_false_of_neq _ _ Hna).
    simpl. split.
    + intros [r' [Hin' Htok]].
      assert (Hcond : jwt.eqb (AuthToken.Token r') tokenString = true)
        by (unfold jwt.eqb; now apply bool_decide_eq_true).
      destruct (First_found AuthToken.ID
                  (fun r0 => jwt.eqb (AuthToken.Token r0) tokenString)
                  (auth_tokens db) r' Hin' Hcond) as [r'' HF].
      rewrite HF. simpl.
      destruct (First_In _ _ _ _ HF) as [_ Hc''].
      unfold jwt.eqb in Hc''. apply bool_decide_eq_true in Hc''.
      rewrite Hc'', (validated_token_not_empty _ _ _ Hv). reflexivity.
    + intros Hnone.
      assert (HF : gorm.First AuthToken.ID
                     (fun r0 => jwt.eqb (AuthToken.Token r0) tokenString)
                     (auth_tokens db) = None).
      { apply First_None. intros r0 Hin0. unfold jwt.eqb.
        apply bool_decide_eq_false. now apply Hnone. }
      rewrite HF. reflexivity.
Qed.

Lemma C9_witness :
  server.AuthMiddleware (fixture.with_cookie ∅)
    (fixture.world_of fixture.db_superseded 1000)
  = (server.bind_claims (fixture.with_cookie ∅) fixture.acme_claims,
     fixture.world_of fixture.db_superseded 1000)
  /\ handlers.AuthenticateHandler fixture.login_request
       (fixture.world_of fixture.db_superseded 1000)
     = (gin.JSON fixture.login_request 401 (Envelope login_token_not_found),
        with_Log (fixture.world_of fixture.db_superseded 1000)
          (LogError "Invalid token" "Token not found")).
Proof.
  pose proof
    (C9_session_check_ignores_the_stored_token (fixture.with_cookie ∅)
       (fixture.world_of fixture.db_superseded 1000) (fixture.acme_token 200)
       fixture.acme_claims "user" fixture.db_superseded
       (fixture.acme_auth 300)
       ltac:(vm_compute; reflexivity)
       ltac:(vm_compute; reflexivity)
       ltac:(vm_compute; reflexivity)
       ltac:(vm_compute; discriminate)
       ltac:(vm_compute; reflexivity)
       ltac:(left; reflexivity)
       ltac:(vm_compute; reflexivity)
       ltac:(intros r' [<-|[]]; reflexivity)) as [Hmw Hlogin].
  split; [exact Hmw|].
  apply (proj2 (Hlogin fixture.login_request eq_refl)).
  intros r' [<-|[]]. vm_compute. discriminate.
Defined.

(** ** Issued tokens carry no expiry *)

Lemma First_after_Create {R : Type} (pk : R -> uuid.UUID) (x : R)
    (rows rows' : list R) :
  gorm.Create pk x rows = Ok rows' ->
  gorm.First pk (fun r => N.eqb (pk r) (pk x)) rows' = Some x.
Proof.
  unfold gorm.Create.
  destruct (existsb (fun r => N.eqb (pk r) (pk x)) rows) eqn:Hex;
    [discriminate|].
  intros Heq. inversion Heq; subst. clear Heq.
  apply First_unique.
  - apply in_or_app. right. now left.
  - apply N.eqb_refl.
  - intros r' Hin Hc. apply in_app_or in Hin. destruct Hin as [Hin|[<-|[]]].
    + assert (Ht : existsb (fun r => N.eqb (pk r) (pk x)) rows = true)
        by (apply existsb_exists; eauto).
      rewrite Ht in Hex. discriminate.
    + reflexivity.
Qed.

Lemma GenerateJWT_without_expiry (w : World)
    (userID username role action : string) (t : jwt.TokenString) :
  serverutils.GenerateJWT w userID username role action false = Ok t ->
  exists tok,
    t = jwt.Compact tok
    /\ jwt.Method tok = jwt.HS256
    /\ jwt.SignedWith tok = JwtSecret w
    /\ JwtSecret w <> ""
    /\ jwt.Claims tok !! "exp" = None
    /\ jwt.Claims tok !! "nbf" = None.
Proof.
  unfold serverutils.GenerateJWT, serverutils.SignedString.
  destruct (negb (serverutils.IsValidUUID userID)); [discriminate|].
  destruct (negb (serverutils.IsValidString username)); [discriminate|].
  destruct (negb (serverutils.IsValidRole w role)); [discriminate|].
  destruct (negb (serverutils.IsValidAction w action)); [discriminate|].
  destruct (String.eqb (JwtSecret w) "") eqn:HK; [discriminate|].
  apply String.eqb_neq in HK.
  intros Heq. inversion Heq; subst. eexists. split; [reflexivity|].
  repeat split; try reflexivity. assumption.
Qed.

(** A token without [exp] and [nbf], signed with HMAC under a non-empty
    key, validates at every time in every process that holds the key. *)
Lemma ValidateJWT_without_expiry (tok : jwt.Token) (w2 : World) :
  jwt.is_HMAC (jwt.Method tok) = true ->
  jwt.SignedWith tok = JwtSecret w2 -> JwtSecret w2 <> "" ->
  jwt.Claims tok !! "exp" = None -> jwt.Claims tok !! "nbf" = None ->
  serverutils.ValidateJWT w2 (jwt.Compact tok) = Ok (jwt.Claims tok).
Proof.
  intros Hm Hs Hk Hexp Hnbf.
  unfold serverutils.ValidateJWT, jwt.Parse, jwt.validate,
    jwt.parseNumericDate.
  rewrite Hm. simpl. rewrite (eqb_false_of_neq _ _ Hk), Hs.
  rewrite String.eqb_refl, Hexp, Hnbf. reflexivity.
Qed.

(** Such a token is not rejected as expired, whatever the process. *)
Lemma ValidateJWT_never_expired (tok : jwt.Token) (w2 : World) :
  jwt.Claims tok !! "exp" = None -> jwt.Claims tok !! "nbf" = None ->
  serverutils.ValidateJWT w2 (jwt.Compact tok) <> Err expired.
Proof.
  intros Hexp Hnbf.
  unfold serverutils.ValidateJWT, jwt.Parse, jwt.validate,
    jwt.parseNumericDate, expired.
  rewrite Hexp, Hnbf.
  destruct (negb (jwt.is_HMAC (jwt.Method tok))); [simpl; discriminate|].
  destruct (String.eqb (JwtSecret w2) ""); [simpl; discriminate|].
  destruct (negb (String.eqb (jwt.SignedWith tok) (JwtSecret w2)));
    discriminate.
Qed.

(** The token a 200 answer of an issuance endpoint carries comes from
    [GenerateJWT] called with [expire = false]. *)
Lemma admin_token_from_GenerateJWT (c : gin.Context) (w : World)
    (t : jwt.TokenString) :
  gin.Written c = [] ->
  In (200%Z, Envelope (token_generated (PToken t)))
     (gin.Written (fst (handlers.GenerateAdminTokenHandler c w))) ->
  exists w1 userID,
    JwtSecret w1 = JwtSecret w
    /\ serverutils.GenerateJWT w1 userID "Admin" "admin" "ADMIN" false = Ok t.
Proof.
  intros Hc. unfold handlers.GenerateAdminTokenHandler,
    serverutils.GenerateID, uuid_New.
  match goal with
  | |- context [serverutils.GenerateJWT ?w1 ?u _ _ _ _] =>
      destruct (serverutils.GenerateJWT w1 u "Admin" "admin" "ADMIN" false)
        as [tok|e] eqn:HG; simpl; rewrite Hc; simpl;
      intros [Heq|[]]; inversion Heq; subst;
      exists w1, u; split; [reflexivity | assumption]
  end.
Qed.

Lemma user_token_from_GenerateJWT (c : gin.Context) (w : World)
    (a : AuthToken.t) :
  gin.Written c = [] ->
  In (200%Z, Envelope (token_generated (PAuthToken a)))
     (gin.Written (fst (handlers.GenerateTokenHandler c w))) ->
  exists userID username action,
    serverutils.GenerateJWT w userID username "user" action false
    = Ok (AuthToken.Token a).
Proof.
  intros Hc. unfold handlers.GenerateTokenHandler.
  destruct (gin.Body c) as [err|b|b|b|bodyCustomerID bodyAction|tk];
    try (simpl; rewrite Hc; simpl; intros [Heq|[]]; discriminate Heq).
  destruct (String.eqb bodyCustomerID "");
    [simpl; rewrite Hc; intros [Heq|[]]; discriminate Heq|].
  destruct (negb (serverutils.IsValidUUID bodyCustomerID));
    [simpl; rewrite Hc; intros [Heq|[]]; discriminate Heq|].
  destruct (String.eqb bodyAction "");
    [simpl; rewrite Hc; intros [Heq|[]]; discriminate Heq|].
  destruct (negb (serverutils.IsValidAction w bodyAction));
    [simpl; rewrite Hc; intros [Heq|[]]; discriminate Heq|].
  destruct (DB w) as [bmsDB|e];
    [|simpl; rewrite Hc; intros [Heq|[]]; discriminate Heq].
  destruct (handlers.FetchCustomerByID bmsDB bodyCustomerID)
    as [customer|e].
  2:{ destruct (handlers.is_not_found e); simpl; rewrite Hc;
      intros [Heq|[]]; discriminate Heq. }
  destruct (serverutils.GenerateJWT w bodyCustomerID
              (Customer.Name customer) "user" bodyAction false)
    as [token|e] eqn:HG;
    [|simpl; rewrite Hc; intros [Heq|[]]; discriminate Heq].
  unfold uuid_New.
  match goal with
  | |- context [gorm.Create AuthToken.ID ?x ?rows] =>
      destruct (gorm.Create AuthToken.ID x rows) as [rows'|e] eqn:HC;
        [|simpl; rewrite Hc; intros [Heq|[]]; discriminate Heq];
      pose proof (First_after_Create AuthToken.ID x rows rows' HC) as HF
  end.
  simpl in HF. simpl. rewrite HF. simpl. rewrite Hc. simpl.
  intros [Heq|[]]. inversion Heq; subst. simpl.
  exists bodyCustomerID, (Customer.Name customer), bodyAction. assumption.
Qed.

(** C10. A token that [POST /admin/generate-admin-token] or
    [POST /admin/generate-token] returns with status 200 was made by
    [GenerateJWT] with the expiry flag false: it has no [exp] claim, no
    process rejects it as expired at any time, and every process holding the
    same signing secret accepts it whatever its clock shows. *)
Theorem C10_issued_tokens_carry_no_expiry
    (adminSecret : string) (c : gin.Context) (w : World)
    (t : jwt.TokenString) :
  gin.Written c = [] ->
  (In (200%Z, Envelope (token_generated (PToken t)))
      (gin.Written
         (fst (routes.serve adminSecret routes.POST_admin_generate_admin_token
                 c w)))
   \/ exists a,
        AuthToken.Token a = t
        /\ In (200%Z, Envelope (token_generated (PAuthToken a)))
             (gin.Written
                (fst (routes.serve adminSecret routes.POST_admin_generate_token
                        c w)))) ->
  exists tok,
    t = jwt.Compact tok
    /\ (exists w1 userID username role action,
          serverutils.GenerateJWT w1 userID username role action false = Ok t)
    /\ jwt.Claims tok !! "exp" = None
    /\ (forall w2, serverutils.ValidateJWT w2 t <> Err expired)
    /\ (forall w2, JwtSecret w2 = JwtSecret w ->
          serverutils.ValidateJWT w2 t = Ok (jwt.Claims tok)).
Proof.
  intros Hc Hissued.
  assert (Hgen : exists w1 userID username role action,
            JwtSecret w1 = JwtSecret w
            /\ serverutils.GenerateJWT w1 userID username role action false
               = Ok t).
  { unfold routes.serve, server.loggingMiddleware, routes.chain, server.run,
      server.AdminMiddleware in Hissued.
    destruct (negb (String.eqb (gin.GetHeader c "Admin-Secret") adminSecret)).
    - simpl in Hissued. rewrite Hc in Hissued. simpl in Hissued.
      destruct Hissued as [[H|[]]|[a [_ [H|[]]]]]; discriminate H.
    - destruct (gin.Aborted c).
      { simpl in Hissued. rewrite Hc in Hissued.
        destruct Hissued as [[]|[a [_ []]]]. }
      destruct Hissued as [H|[a [Ha H]]].
      + assert (Hin : In (200%Z, Envelope (token_generated (PToken t)))
                         (gin.Written
                            (fst (handlers.GenerateAdminTokenHandler c w)))).
        { destruct (handlers.GenerateAdminTokenHandler c w) as [c1 w1].
          simpl in H |- *. destruct (gin.Aborted c1); exact H. }
        destruct (admin_token_from_GenerateJWT c w t Hc Hin)
          as [w1' [u [Hk HG]]].
        exists w1', u, "Admin", "admin", "ADMIN". split; assumption.
      + assert (Hin : In (200%Z, Envelope (token_generated (PAuthToken a)))
                         (gin.Written
                            (fst (handlers.GenerateTokenHandler c w)))).
        { destruct (handlers.GenerateTokenHandler c w) as [c1 w1].
          simpl in H |- *. destruct (gin.Aborted c1); exact H. }
        destruct (user_token_from_GenerateJWT c w a Hc Hin)
          as [u [n [act HG]]].
        exists w, u, n, "user", act. subst t. split; [reflexivity|assumption]. }
  destruct Hgen as [w1 [u [n [r [act [Hk HG]]]]]].
  destruct (GenerateJWT_without_expiry _ _ _ _ _ _ HG)
    as [tok [-> [Hm [Hs [Hne [Hexp Hnbf]]]]]].
  exists tok. split; [reflexivity|]. split; [eauto 6|].
  split; [assumption|]. split.
  - intros w2. now apply ValidateJWT_never_expired.
  - intros w2 Hk2. apply ValidateJWT_without_expiry; try assumption.
    + rewrite Hm. reflexivity.
    + congruence.
    + congruence.
Qed.

Lemma C10_witness :
  exists tok,
    fixture.admin_token = jwt.Compact tok
    /\ (exists w1 userID username role action,
          serverutils.GenerateJWT w1 userID username role action false
          = Ok fixture.admin_token)
    /\ jwt.Claims tok !! "exp" = None
    /\ (forall w2,
          serverutils.ValidateJWT w2 fixture.admin_token <> Err expired)
    /\ (forall w2, JwtSecret w2 = JwtSecret fixture.world ->
          serverutils.ValidateJWT w2 fixture.admin_token
          = Ok (jwt.Claims tok)).
Proof.
  apply (C10_issued_tokens_carry_no_expiry "adm"
           (fixture.admin_request (BadBody "EOF")) fixture.world
           fixture.admin_token).
  - reflexivity.
  - left. vm_compute. left. reflexivity.
Defined.

(** ** Lookups and the soft-delete marker *)

Lemma preload_Site_Customer_columns (u : bool) (db : Database)
    (d : Device.t) :
  Device.ID (handlers.preload_Site_Customer u db d) = Device.ID d
  /\ Device.DeviceSerialNumber (handlers.preload_Site_Customer u db d)
     = Device.DeviceSerialNumber d
  /\ Device.DeletedAt (handlers.preload_Site_Customer u db d)
     = Device.DeletedAt d.
Proof.
  unfold handlers.preload_Site_Customer.
  destruct (gorm.First Site.ID _ (sites db)); repeat split; reflexivity.
Qed.

Lemma preload_Customer_DeletedAt (u : bool) (db : Database) (s : Site.t) :
  Site.DeletedAt (handlers.preload_Customer u db s) = Site.DeletedAt s.
Proof.
  unfold handlers.preload_Customer.
  destruct (gorm.First Customer.ID _ (customers db)); reflexivity.
Qed.

(** C6. The lookup behind [GET /devices/:device_serial_number] does not
    look at the delete marker: for a device row, soft-deleted or not, whose
    serial number no other row carries, the lookup by that serial number
    returns that row (with its site and customer loaded) and an admin's GET
    answers 200 with it.  The fetch of a customer or a site by id does look
    at the marker: it never returns a soft-deleted row, and reports "record
    not found" when every row under the id is soft-deleted. *)
Theorem C6_device_lookup_ignores_the_delete_marker
    (db : Database) (d : Device.t) :
  In d (devices db) ->
  (forall d', In d' (devices db) ->
     Device.DeviceSerialNumber d' = Device.DeviceSerialNumber d -> d' = d) ->
  handlers.FetchDeviceBySerialNumber db (Device.DeviceSerialNumber d)
    = Ok (handlers.preload_Site_Customer true db d)
  /\ Device.ID (handlers.preload_Site_Customer true db d) = Device.ID d
  /\ Device.DeletedAt (handlers.preload_Site_Customer true db d)
     = Device.DeletedAt d
  /\ (forall c w,
        DB w = Ok db ->
        gin.Param c "device_serial_number" = Device.DeviceSerialNumber d ->
        gin.GetString c "role" = "admin" ->
        handlers.DeviceFetchBySerialNumber c w
        = (gin.JSON c 200
             (Envelope
                (device_fetched (handlers.preload_Site_Customer true db d))),
           w))
  /\ (forall id cu, handlers.FetchCustomerByID db id = Ok cu ->
        Customer.DeletedAt cu = None)
  /\ (forall id s, handlers.FetchSiteByID db id = Ok s ->
        Site.DeletedAt s = None)
  /\ (forall id,
        (forall cu, In cu (customers db) ->
           gorm.uuid_is (Customer.ID cu) id = true ->
           Customer.DeletedAt cu <> None) ->
        handlers.FetchCustomerByID db id = Err gorm.ErrRecordNotFound)
  /\ (forall id,
        (forall s, In s (sites db) -> gorm.uuid_is (Site.ID s) id = true ->
           Site.DeletedAt s <> None) ->
        handlers.FetchSiteByID db id = Err gorm.ErrRecordNotFound).
Proof.
  intros Hin Huniq.
  assert (HF : gorm.First Device.ID
                 (fun d0 => String.eqb (Device.DeviceSerialNumber d0)
                              (Device.DeviceSerialNumber d))
                 (devices db) = Some d).
  { apply First_unique; [assumption | apply String.eqb_refl |].
    intros d' Hin' Hc. apply String.eqb_eq in Hc. now apply Huniq. }
  assert (HL : handlers.FetchDeviceBySerialNumber db
                 (Device.DeviceSerialNumber d)
               = Ok (handlers.preload_Site_Customer true db d)).
  { unfold handlers.FetchDeviceBySerialNumber. now rewrite HF. }
  destruct (preload_Site_Customer_columns true db d) as [Hid [_ Hdel]].
  split; [exact HL|]. split; [exact Hid|]. split; [exact Hdel|].
  split; [|split; [|split; [|split]]].
  - intros c w Hdb Hp Hrole. unfold handlers.DeviceFetchBySerialNumber,
      serverutils.GetDBInstance.
    rewrite Hdb, Hp, HL, Hrole. reflexivity.
  - intros id cu. unfold handlers.FetchCustomerByID, handlers.found.
    destruct (gorm.First Customer.ID _ (customers db)) as [r|] eqn:HC;
      [|discriminate].
    intros Heq. inversion Heq; subst.
    destruct (First_In _ _ _ _ HC) as [_ Hc].
    apply andb_true_iff in Hc. destruct Hc as [_ Hnd].
    destruct (Customer.DeletedAt cu); [discriminate | reflexivity].
  - intros id s. unfold handlers.FetchSiteByID.
    destruct (gorm.First Site.ID _ (sites db)) as [r|] eqn:HS;
      [|discriminate].
    intros Heq. inversion Heq; subst.
    rewrite preload_Customer_DeletedAt.
    destruct (First_In _ _ _ _ HS) as [_ Hc].
    apply andb_true_iff in Hc. destruct Hc as [_ Hnd].
    destruct (Site.DeletedAt r); [discriminate | reflexivity].
  - intros id Hall. unfold handlers.FetchCustomerByID, handlers.found.
    assert (HN : gorm.First Customer.ID
                   (fun c0 => gorm.uuid_is (Customer.ID c0) id
                              && gorm.not_deleted (Customer.DeletedAt c0))
                   (customers db) = None).
    { apply First_None. intros r Hr.
      destruct (gorm.uuid_is (Customer.ID r) id) eqn:Hm; [|reflexivity].
      specialize (Hall r Hr Hm).
      destruct (Customer.DeletedAt r); [reflexivity | contradiction]. }
    now rewrite HN.
  - intros id Hall. unfold handlers.FetchSiteByID.
    assert (HN : gorm.First Site.ID
                   (fun s0 => gorm.uuid_is (Site.ID s0) id
                              && gorm.not_deleted (Site.DeletedAt s0))
                   (sites db) = None).
    { apply First_None. intros r Hr.
      destruct (gorm.uuid_is (Site.ID r) id) eqn:Hm; [|reflexivity].
      specialize (Hall r Hr Hm).
      destruct (Site.DeletedAt r); [reflexivity | contradiction]. }
    now rewrite HN.
Qed.

Lemma C6_witness :
  handlers.FetchDeviceBySerialNumber fixture.db_meter_deleted "SN-001"
  = Ok (handlers.preload_Site_Customer true fixture.db_meter_deleted
          (handlers.deleted_Device 500 fixture.meter))
  /\ Device.DeletedAt
       (handlers.preload_Site_Customer true fixture.db_meter_deleted
          (handlers.deleted_Device 500 fixture.meter)) = Some 500%Z.
Proof.
  pose proof
    (C6_device_lookup_ignores_the_delete_marker fixture.db_meter_deleted
       (handlers.deleted_Device 500 fixture.meter)
       ltac:(left; reflexivity)
       ltac:(intros d' [<-|[]] _; reflexivity)) as [HL [_ [Hdel _]]].
  split; [exact HL | exact Hdel].
Defined.

(** ** Creating a customer under a name already taken *)

Lemma CustomerCreate_found (c : gin.Context) (w : World) (db : Database)
    (name : string) (cu : Customer.t) :
  gin.Body c = CustomerBody {| CustomerRequest.Name := name |} ->
  name <> "" -> DB w = Ok db ->
  gorm.First Customer.ID (fun r => String.eqb (Customer.Name r) name)
    (customers db) = Some cu ->
  handlers.CustomerCreate c w
  = if negb (gorm.not_deleted (Customer.DeletedAt cu)) then
      (gin.JSON c 200
         (Envelope
            {| Status := 200; Message := "Customer restored";
               Data := Some (PCustomer
                               {| CustomerResponse.ID := Customer.ID cu;
                                  CustomerResponse.Name := Customer.Name cu |});
               Error := "" |}),
       with_DB w
         (with_customers db
            (gorm.Save Customer.ID (handlers.restored_Customer (Now w) cu)
               (customers db))))
    else (gin.JSON c 400 (Envelope customer_exists),
          with_Log w
            (LogError "Customer already exists"
               "A customer with this name already exists")).
Proof.
  intros Hb Hn Hdb HF.
  unfold handlers.CustomerCreate, handlers.BindJSON_Customer,
    serverutils.GetDBInstance, handlers.FetchCustomerByName, handlers.found.
  rewrite Hb. simpl. rewrite (eqb_false_of_neq _ _ Hn), Hdb, HF.
  destruct (negb (gorm.not_deleted (Customer.DeletedAt cu))); reflexivity.
Qed.

(** C4. With a customer of that name present and not soft-deleted, the
    name identifying one row, [CustomerCreate] answers 400 "Customer already
    exists" and leaves the database as it is.  And from a database where the
    name is free (and so is the identifier drawn), the first create answers
    201 and a second create of the same name, with no delete in between,
    answers that 400. *)
Theorem C4_second_create_conflicts
    (c : gin.Context) (w : World) (db : Database) (name : string) :
  gin.Body c = CustomerBody {| CustomerRequest.Name := name |} ->
  name <> "" -> DB w = Ok db ->
  (forall cu,
     In cu (customers db) -> Customer.Name cu = name ->
     Customer.DeletedAt cu = None ->
     (forall cu', In cu' (customers db) -> Customer.Name cu' = name ->
                  cu' = cu) ->
     handlers.CustomerCreate c w
     = (gin.JSON c 400 (Envelope customer_exists),
        with_Log w
          (LogError "Customer already exists"
             "A customer with this name already exists"))
     /\ DB (snd (handlers.CustomerCreate c w)) = Ok db)
  /\ ((forall cu, In cu (customers db) ->
         Customer.Name cu <> name
         /\ Customer.ID cu <> Rand w (RandPos w)) ->
      gin.Written (fst (handlers.CustomerCreate c w))
      = (gin.Written c
           ++ [(201%Z, Envelope (customer_created (Rand w (RandPos w)) name))])%list
      /\ forall c2 w2,
           gin.Body c2 = CustomerBody {| CustomerRequest.Name := name |} ->
           DB w2 = DB (snd (handlers.CustomerCreate c w)) ->
           handlers.CustomerCreate c2 w2
           = (gin.JSON c2 400 (Envelope customer_exists),
              with_Log w2
                (LogError "Customer already exists"
                   "A customer with this name already exists"))
           /\ DB (snd (handlers.CustomerCreate c2 w2)) = DB w2).
Proof.
  intros Hb Hn Hdb. split.
  - intros cu Hin Hname Hlive Huniq.
    assert (HF : gorm.First Customer.ID
                   (fun r => String.eqb (Customer.Name r) name)
                   (customers db) = Some cu).
    { apply First_unique; [assumption | now apply String.eqb_eq |].
      intros cu' Hin' Hc. apply String.eqb_eq in Hc. now apply Huniq. }
    rewrite (CustomerCreate_found c w db name cu Hb Hn Hdb HF).
    rewrite Hlive. simpl. split; [reflexivity | assumption].
  - intros Hfree.
    assert (HN : gorm.First Customer.ID
                   (fun r => String.eqb (Customer.Name r) name)
                   (customers db) = None).
    { apply First_None. intros r Hr. apply String.eqb_neq.
      now destruct (Hfree r Hr). }
    assert (HE : existsb
                   (fun r => N.eqb (Customer.ID r) (Rand w (RandPos w)))
                   (customers db) = false).
    { destruct (existsb _ (customers db)) eqn:HE; [|reflexivity].
      apply existsb_exists in HE. destruct HE as [r [Hr Heq]].
      apply N.eqb_eq in Heq. destruct (Hfree r Hr) as [_ Hid]. contradiction. }
    set (new := {| Customer.ID := Rand w (RandPos w); Customer.Name := name;
                   Customer.CreatedAt := Now w; Customer.UpdatedAt := Now w;
                   Customer.DeletedAt := None |}).
    assert (HR : handlers.CustomerCreate c w
                 = (gin.JSON c 201
                      (Envelope (customer_created (Rand w (RandPos w)) name)),
                    with_DB (snd (uuid_New w))
                      (with_customers db (customers db ++ [new])%list))).
    { unfold handlers.CustomerCreate, handlers.BindJSON_Customer,
        serverutils.GetDBInstance, handlers.FetchCustomerByName,
        handlers.found.
      rewrite Hb. simpl. rewrite (eqb_false_of_neq _ _ Hn), Hdb, HN. simpl.
      unfold gorm.Create. simpl. rewrite HE. reflexivity. }
    rewrite HR. simpl. split; [reflexivity|].
    intros c2 w2 Hb2 Hdb2.
    assert (HF : gorm.First Customer.ID
                   (fun r => String.eqb (Customer.Name r) name)
                   (customers db ++ [new])%list = Some new).
    { apply First_unique.
      - apply in_or_app. right. now left.
      - apply String.eqb_refl.
      - intros r Hr Hc. apply String.eqb_eq in Hc.
        apply in_app_or in Hr. destruct Hr as [Hr|[<-|[]]]; [|reflexivity].
        destruct (Hfree r Hr) as [Hne _]. contradiction. }
    rewrite (CustomerCreate_found c2 w2
               (with_customers db (customers db ++ [new])%list) name new
               Hb2 Hn Hdb2 HF).
    simpl. split; reflexivity.
Qed.

Lemma C4_witness :
  (handlers.CustomerCreate fixture.create_acme fixture.world
   = (gin.JSON fixture.create_acme 400 (Envelope customer_exists),
      with_Log fixture.world
        (LogError "Customer already exists"
           "A customer with this name already exists")))
  /\ gin.Written (fst (handlers.CustomerCreate fixture.create_acme
                         fixture.world0))
     = (gin.Written fixture.create_acme
          ++ [(201%Z,
               Envelope
                 (customer_created
                    (Rand fixture.world0 (RandPos fixture.world0))
                    "Acme Co"))])%list
  /\ handlers.CustomerCreate fixture.create_acme
       (snd (handlers.CustomerCreate fixture.create_acme fixture.world0))
     = (gin.JSON fixture.create_acme 400 (Envelope customer_exists),
        with_Log
          (snd (handlers.CustomerCreate fixture.create_acme fixture.world0))
          (LogError "Customer already exists"
             "A customer with this name already exists")).
Proof.
  split; [|split].
  - apply (proj1 (C4_second_create_conflicts fixture.create_acme
                    fixture.world fixture.db "Acme Co"
                    ltac:(vm_compute; reflexivity)
                    ltac:(vm_compute; discriminate)
                    ltac:(vm_compute; reflexivity)) fixture.acme).
    + left. reflexivity.
    + reflexivity.
    + reflexivity.
    + intros cu' [<-|[]] _. reflexivity.
  - apply (proj2 (C4_second_create_conflicts fixture.create_acme
                    fixture.world0 fixture.empty_db "Acme Co"
                    ltac:(vm_compute; reflexivity)
                    ltac:(vm_compute; discriminate)
                    ltac:(vm_compute; reflexivity))).
    intros cu [].
  - apply (proj2 (C4_second_create_conflicts fixture.create_acme
                    fixture.world0 fixture.empty_db "Acme Co"
                    ltac:(vm_compute; reflexivity)
                    ltac:(vm_compute; discriminate)
                    ltac:(vm_compute; reflexivity))).
    + intros cu [].
    + vm_compute. reflexivity.
    + reflexivity.
Defined.

(** ** Restore on create *)

Lemma Update_length {R : Type} (cond : R -> bool) (f : R -> R)
    (rows : list R) :
  length (gorm.Update cond f rows) = length rows.
Proof. unfold gorm.Update. apply length_map. Qed.

Lemma Update_In {R : Type} (cond : R -> bool) (f : R -> R) (rows : list R)
    (r : R) :
  In r rows -> cond r = true -> In (f r) (gorm.Update cond f rows).
Proof.
  intros Hin Hc. unfold gorm.Update. apply in_map_iff. exists r.
  rewrite Hc. split; [reflexivity | assumption].
Qed.

Lemma Save_existing {R : Type} (pk : R -> uuid.UUID) (x : R) (rows : list R)
    (r : R) :
  In r rows -> pk r = pk x ->
  gorm.Save pk x rows
  = gorm.Update (fun r0 => N.eqb (pk r0) (pk x)) (fun _ => x) rows.
Proof.
  intros Hin Hpk. unfold gorm.Save.
  assert (HE : existsb (fun r0 => N.eqb (pk r0) (pk x)) rows = true).
  { apply existsb_exists. exists r. split; [assumption|].
    rewrite Hpk. apply N.eqb_refl. }
  now rewrite HE.
Qed.

(** C3. A create whose natural key is that of a soft-deleted row (the key
    identifying one row of the table, the request being otherwise valid: a
    non-empty name, parents that exist and belong together) answers 200 with
    the "restored" message and the identifier of that row; it draws no new
    identifier and adds no row, and the row is left with its delete marker
    cleared and CreatedAt and UpdatedAt set to the current time. *)
Theorem C3_create_restores_the_soft_deleted_row :
  (forall c w db cu t,
     gin.Body c
       = CustomerBody {| CustomerRequest.Name := Customer.Name cu |} ->
     Customer.Name cu <> "" -> DB w = Ok db ->
     In cu (customers db) -> Customer.DeletedAt cu = Some t ->
     (forall cu', In cu' (customers db) ->
        Customer.Name cu' = Customer.Name cu -> cu' = cu) ->
     exists w' db',
       handlers.CustomerCreate c w
       = (gin.JSON c 200
            (Envelope
               (restored "Customer restored"
                  (PCustomer
                     {| CustomerResponse.ID := Customer.ID cu;
                        CustomerResponse.Name := Customer.Name cu |}))), w')
       /\ DB w' = Ok db' /\ RandPos w' = RandPos w
       /\ length (customers db') = length (customers db)
       /\ In {| Customer.ID := Customer.ID cu;
                Customer.Name := Customer.Name cu;
                Customer.CreatedAt := Now w; Customer.UpdatedAt := Now w;
                Customer.DeletedAt := None |} (customers db'))
  /\ (forall c w db customer s t,
        serverutils.IsValidUUID (gin.Param c "customer_id") = true ->
        gin.Body c = SiteBody {| SiteRequest.Name := Site.Name s |} ->
        Site.Name s <> "" -> DB w = Ok db ->
        handlers.FetchCustomerByID db (gin.Param c "customer_id")
          = Ok customer ->
        In s (sites db) -> Site.DeletedAt s = Some t ->
        (forall s', In s' (sites db) -> Site.Name s' = Site.Name s ->
                    s' = s) ->
        exists w' db',
          handlers.SiteCreate c w
          = (gin.JSON c 200
               (Envelope
                  (restored "Site restored"
                     (PSite
                        {| SiteResponse.ID := Site.ID s;
                           SiteResponse.Name := Site.Name s;
                           SiteResponse.CustomerID := Customer.ID customer;
                           SiteResponse.CustomerName :=
                             Customer.Name customer |}))), w')
          /\ DB w' = Ok db' /\ RandPos w' = RandPos w
          /\ length (sites db') = length (sites db)
          /\ In {| Site.ID := Site.ID s; Site.Name := Site.Name s;
                   Site.CustomerID := Site.CustomerID s;
                   Site.Customer := Site.Customer s;
                   Site.CreatedAt := Now w; Site.UpdatedAt := Now w;
                   Site.DeletedAt := None |} (sites db'))
  /\ (forall c w db body customer site d t,
        gin.Body c = DeviceBody body ->
        DeviceRequest.DeviceSerialNumber body = Device.DeviceSerialNumber d ->
        serverutils.IsValidUUID (gin.Param c "customer_id") = true ->
        serverutils.IsValidUUID (gin.Param c "site_id") = true ->
        DB w = Ok db ->
        handlers.FetchCustomerByID db (gin.Param c "customer_id")
          = Ok customer ->
        handlers.FetchSiteByID db (gin.Param c "site_id") = Ok site ->
        Site.CustomerID site = Customer.ID customer ->
        In d (devices db) -> Device.DeletedAt d = Some t ->
        (forall d', In d' (devices db) ->
           Device.DeviceSerialNumber d' = Device.DeviceSerialNumber d ->
           d' = d) ->
        exists w' db' resp d',
          handlers.DeviceCreate c w
          = (gin.JSON c 200
               (Envelope (restored "Device restored" (PDevice resp))), w')
          /\ DeviceResponse.ID resp = Device.ID d
          /\ DeviceResponse.DeviceSerialNumber resp
             = Device.DeviceSerialNumber d
          /\ DB w' = Ok db' /\ RandPos w' = RandPos w
          /\ length (devices db') = length (devices db)
          /\ In d' (devices db')
          /\ Device.ID d' = Device.ID d
          /\ Device.DeviceSerialNumber d' = Device.DeviceSerialNumber d
          /\ Device.DeletedAt d' = None
          /\ Device.CreatedAt d' = Now w /\ Device.UpdatedAt d' = Now w).
Proof.
  split; [|split].
  - intros c w db cu t Hb Hn Hdb Hin Hdel Huniq.
    assert (HF : gorm.First Customer.ID
                   (fun r => String.eqb (Customer.Name r) (Customer.Name cu))
                   (customers db) = Some cu).
    { apply First_unique; [assumption | apply String.eqb_refl |].
      intros cu' Hin' Hc. apply String.eqb_eq in Hc. now apply Huniq. }
    rewrite (CustomerCreate_found c w db _ cu Hb Hn Hdb HF).
    rewrite Hdel. cbn [negb gorm.not_deleted].
    rewrite (Save_existing Customer.ID
               (handlers.restored_Customer (Now w) cu) _ cu Hin eq_refl).
    eexists. eexists. split; [reflexivity|].
    split; [reflexivity|]. split; [reflexivity|]. simpl. split.
    + apply Update_length.
    + apply (Update_In _ (fun _ => handlers.restored_Customer (Now w) cu)
               (customers db) cu Hin).
      apply N.eqb_refl.
  - intros c w db customer s t Hid Hb Hn Hdb HC Hin Hdel Huniq.
    assert (HF : gorm.First Site.ID
                   (fun r => String.eqb (Site.Name r) (Site.Name s))
                   (sites db) = Some s).
    { apply First_unique; [assumption | apply String.eqb_refl |].
      intros s' Hin' Hc. apply String.eqb_eq in Hc. now apply Huniq. }
    unfold handlers.SiteCreate, handlers.BindJSON_Site,
      serverutils.GetDBInstance, handlers.FetchSiteByName, handlers.found.
    rewrite Hid, Hb. simpl. rewrite (eqb_false_of_neq _ _ Hn), Hdb, HC, HF.
    rewrite Hdel. cbn [negb gorm.not_deleted].
    rewrite (Save_existing Site.ID
               (handlers.restored_Site (Now w) s) _ s Hin eq_refl).
    eexists. eexists. split; [reflexivity|].
    split; [reflexivity|]. split; [reflexivity|]. simpl. split.
    + apply Update_length.
    + apply (Update_In _ (fun _ => handlers.restored_Site (Now w) s)
               (sites db) s Hin).
      apply N.eqb_refl.
  - intros c w db body customer site d t Hb Hsn Hcid Hsid Hdb HC HS Hown
      Hin Hdel Huniq.
    assert (HF : gorm.First Device.ID
                   (fun r => String.eqb (Device.DeviceSerialNumber r)
                               (DeviceRequest.DeviceSerialNumber body))
                   (devices db) = Some d).
    { rewrite Hsn.
      apply First_unique; [assumption | apply String.eqb_refl |].
      intros d' Hin' Hc. apply String.eqb_eq in Hc. now apply Huniq. }
    destruct (preload_Site_Customer_columns true db d)
      as [Hpid [Hpsn Hpdel]].
    unfold handlers.DeviceCreate, handlers.BindJSON_Device,
      serverutils.GetDBInstance, handlers.FetchDeviceBySerialNumber.
    rewrite Hb. simpl. rewrite Hcid, Hsid. simpl.
    rewrite Hdb, HC, HS, Hown, N.eqb_refl. simpl. rewrite HF.
    rewrite Hpdel, Hdel. simpl. rewrite Hpid.
    eexists. eexists. eexists. exists (handlers.restored_Device (Now w) d).
    split; [reflexivity|]. simpl.
    split; [first [reflexivity | exact Hpid]|].
    split; [first [reflexivity | exact Hpsn]|].
    split; [reflexivity|]. split; [reflexivity|]. split.
    + apply Update_length.
    + split; [|repeat split; reflexivity].
      apply (Update_In _ (handlers.restored_Device (Now w)) (devices db) d
               Hin).
      apply N.eqb_refl.
Qed.

Lemma C3_witness :
  (exists w',
     handlers.CustomerCreate fixture.create_acme fixture.world_deleted
     = (gin.JSON fixture.create_acme 200
          (Envelope
             (restored "Customer restored"
                (PCustomer
                   {| CustomerResponse.ID := Customer.ID fixture.acme_deleted;
                      CustomerResponse.Name := "Acme Co" |}))), w')
     /\ RandPos w' = RandPos fixture.world_deleted)
  /\ (exists w',
        handlers.SiteCreate fixture.create_plant
          (fixture.world_of fixture.db_plant_deleted 1000)
        = (gin.JSON fixture.create_plant 200
             (Envelope
                (restored "Site restored"
                   (PSite
                      {| SiteResponse.ID := fixture.plant_id;
                         SiteResponse.Name := "Plant 1";
                         SiteResponse.CustomerID := fixture.acme_id;
                         SiteResponse.CustomerName := "Acme Co" |}))), w'))
  /\ (exists w' resp,
        handlers.DeviceCreate fixture.create_meter
          (fixture.world_of fixture.db_meter_deleted 1000)
        = (gin.JSON fixture.create_meter 200
             (Envelope (restored "Device restored" (PDevice resp))), w')
        /\ DeviceResponse.ID resp = fixture.meter_id).
Proof.
  destruct C3_create_restores_the_soft_deleted_row as [HC [HS HD]].
  split; [|split].
  - destruct (HC fixture.create_acme fixture.world_deleted fixture.db_deleted
                fixture.acme_deleted 1000%Z
                ltac:(vm_compute; reflexivity)
                ltac:(vm_compute; discriminate)
                ltac:(vm_compute; reflexivity)
                ltac:(vm_compute; left; reflexivity)
                ltac:(reflexivity)
                ltac:(intros cu' Hin _; vm_compute in Hin;
                      destruct Hin as [<-|[]]; reflexivity))
      as [w' [db' [HR [_ [HP _]]]]].
    exists w'. split; [exact HR | exact HP].
  - destruct (HS fixture.create_plant
                (fixture.world_of fixture.db_plant_deleted 1000)
                fixture.db_plant_deleted fixture.acme
                (handlers.deleted_Site 500 fixture.plant) 500%Z
                ltac:(vm_compute; reflexivity)
                ltac:(vm_compute; reflexivity)
                ltac:(vm_compute; discriminate)
                ltac:(vm_compute; reflexivity)
                ltac:(vm_compute; reflexivity)
                ltac:(left; reflexivity)
                ltac:(reflexivity)
                ltac:(intros s' [<-|[]] _; reflexivity))
      as [w' [db' [HR _]]].
    exists w'. exact HR.
  - destruct (HD fixture.create_meter
                (fixture.world_of fixture.db_meter_deleted 1000)
                fixture.db_meter_deleted fixture.meter_body fixture.acme
                (handlers.preload_Customer false fixture.db_meter_deleted
                   fixture.plant)
                (handlers.deleted_Device 500 fixture.meter) 500%Z
                ltac:(vm_compute; reflexivity)
                ltac:(reflexivity)
                ltac:(vm_compute; reflexivity)
                ltac:(vm_compute; reflexivity)
                ltac:(vm_compute; reflexivity)
                ltac:(vm_compute; reflexivity)
                ltac:(vm_compute; reflexivity)
                ltac:(reflexivity)
                ltac:(left; reflexivity)
                ltac:(reflexivity)
                ltac:(intros d' [<-|[]] _; reflexivity))
      as [w' [db' [resp [d' [HR [Hid _]]]]]].
    exists w', resp. split; [exact HR | exact Hid].
Defined.

(** ** Ownership on the single-resource fetches *)

(** [AuthMiddleware] binds [customer_id], [role] and [action]; it does not
    bind [user_id], the key [SiteFetchByID] and [DeviceFetchBySerialNumber]
    read. *)
Lemma bind_claims_user_id (c : gin.Context) (claims : gmap string any) :
  gin.Keys c !! "user_id" = None ->
  gin.GetString (server.bind_claims c claims) "user_id" = "".
Proof.
  intros Hk. unfold gin.GetString, server.bind_claims, gin.Set_. simpl.
  rewrite !lookup_insert_ne by discriminate. now rewrite Hk.
Qed.

(** With the requester id read as the empty string, a caller whose role is
    not admin never gets a 200 from the site fetch. *)
Lemma SiteFetchByID_refuses_users (c : gin.Context) (w : World)
    (body : ResponseBody) :
  gin.GetString c "user_id" = "" -> gin.GetString c "role" <> "admin" ->
  gin.Written c = [] ->
  ~ In (200%Z, body) (gin.Written (fst (handlers.SiteFetchByID c w))).
Proof.
  intros Hu Hr Hw. unfold handlers.SiteFetchByID, serverutils.GetDBInstance.
  rewrite Hu, (eqb_false_of_neq _ _ Hr).
  destruct (negb (serverutils.IsValidUUID (gin.Param c "site_id")));
    [simpl; rewrite Hw; intros [H|[]]; discriminate H|].
  destruct (DB w) as [db|e];
    [|simpl; rewrite Hw; intros [H|[]]; discriminate H].
  destruct (handlers.FetchSiteByID db (gin.Param c "site_id")) as [site|e].
  2:{ destruct (handlers.is_not_found e); simpl; rewrite Hw;
      intros [H|[]]; discriminate H. }
  destruct (handlers.FetchCustomerByID db _) as [customer|e].
  2:{ destruct (handlers.is_not_found e); simpl; rewrite Hw;
      intros [H|[]]; discriminate H. }
  assert (HS : String.eqb "" (uuid.String (Customer.ID customer)) = false).
  { apply String.eqb_neq. intros Heq.
    now apply (uuid_String_not_empty (Customer.ID customer)). }
  rewrite HS. simpl. rewrite Hw. intros [H|[]]; discriminate H.
Qed.

Lemma DeviceFetchBySerialNumber_refuses_users (c : gin.Context) (w : World)
    (body : ResponseBody) :
  gin.GetString c "user_id" = "" -> gin.GetString c "role" <> "admin" ->
  gin.Written c = [] ->
  ~ In (200%Z, body)
      (gin.Written (fst (handlers.DeviceFetchBySerialNumber c w))).
Proof.
  intros Hu Hr Hw.
  unfold handlers.DeviceFetchBySerialNumber, serverutils.GetDBInstance.
  rewrite Hu, (eqb_false_of_neq _ _ Hr).
  destruct (DB w) as [db|e];
    [|simpl; rewrite Hw; intros [H|[]]; discriminate H].
  destruct (handlers.FetchDeviceBySerialNumber db _) as [device|e].
  2:{ destruct (handlers.is_not_found e); simpl; rewrite Hw;
      intros [H|[]]; discriminate H. }
  assert (HS : String.eqb
                 (uuid.String
                    (Customer.ID (Site.Customer (Device.Site device)))) ""
               = false).
  { apply String.eqb_neq. apply uuid_String_not_empty. }
  rewrite HS. simpl. rewrite Hw. intros [H|[]]; discriminate H.
Qed.

(** C1. Acme owns the site and the device of the fixture and holds a live
    user token; its [GET /sites/:site_id] and its
    [GET /devices/:device_serial_number] are both answered 403, although the
    subject bound by the middleware is the owner's id. *)
Theorem C1_owner_is_refused_its_own_site_and_device :
  gin.GetString (fst (server.AuthMiddleware fixture.acme_gets_plant
                        fixture.world)) "customer_id"
    = uuid.String (Site.CustomerID fixture.plant)
  /\ gin.Written (fst (routes.serve "adm" routes.GET_sites_id
                         fixture.acme_gets_plant fixture.world))
     = [(403%Z, Envelope forbidden_site)]
  /\ gin.Written (fst (routes.serve "adm" routes.GET_devices_serial
                         fixture.acme_gets_meter fixture.world))
     = [(403%Z, Envelope forbidden_device)].
Proof. vm_compute. repeat split; reflexivity. Qed.

(** ** The response envelope *)

Lemma WriteJSON_envelope (c : gin.Context) (status : Z) (message : string)
    (data : option Payload) :
  exists b,
    gin.Written (serverutils.WriteJSON c status message data)
      = (gin.Written c ++ [(status, b)])%list
    /\ json_status b = Some status /\ ~ In "error" (json_keys b).
Proof.
  eexists. split; [reflexivity|]. split; [reflexivity|].
  simpl. destruct (String.eqb message ""), data; simpl;
    intros H; repeat (destruct H as [H|H]; [discriminate H|]); exact H.
Qed.

Lemma WriteError_envelope (c : gin.Context) (w : World) (status : Z)
    (message errMsg : string) :
  exists b,
    gin.Written (fst (serverutils.WriteError c w status message errMsg))
      = (gin.Written c ++ [(status, b)])%list
    /\ json_status b = Some status /\ ~ In "data" (json_keys b)
    /\ Log (snd (serverutils.WriteError c w status message errMsg))
       = (Log w ++ [LogError message errMsg])%list.
Proof.
  eexists. split; [reflexivity|]. split; [reflexivity|].
  split; [|reflexivity].
  simpl. destruct (String.eqb message ""), (String.eqb errMsg ""); simpl;
    intros H; repeat (destruct H as [H|H]; [discriminate H|]); exact H.
Qed.

(** What [AdminMiddleware] answers to a wrong secret, in general. *)
Lemma AdminMiddleware_refusal (adminSecret : string) (c : gin.Context)
    (w : World) :
  gin.GetHeader c "Admin-Secret" <> adminSecret ->
  server.AdminMiddleware adminSecret c w
  = (gin.Abort (gin.JSON c 401 invalid_admin_secret), w).
Proof.
  intros Hs. unfold server.AdminMiddleware.
  now rewrite (eqb_false_of_neq _ _ Hs).
Qed.

(** C8. A request to [POST /admin/generate-admin-token] without the admin
    secret is answered 401 with a body that is not the envelope: it has no
    [status] field, its keys are [error] and [message], and the only log
    line is the request line of the logging middleware. *)
Theorem C8_admin_secret_refusal_is_not_the_envelope :
  gin.Written (fst (routes.serve "adm" routes.POST_admin_generate_admin_token
                      fixture.no_secret fixture.world))
    = [(401%Z, invalid_admin_secret)]
  /\ json_status invalid_admin_secret = None
  /\ json_keys invalid_admin_secret = ["error"; "message"]
  /\ Log (snd (routes.serve "adm" routes.POST_admin_generate_admin_token
                 fixture.no_secret fixture.world))
     = [LogRequest true 401].
Proof. vm_compute. repeat split; reflexivity. Qed.

(** ** Invariants the handlers keep

    The statements above on creates and lookups assume that a natural key
    identifies one row, and the one on sessions that stored token strings
    are not empty.  The handlers embedded here keep both. *)



Lemma GenerateTokenHandler_keeps_tokens_not_empty (c : gin.Context)
    (w : World) (db db' : Database) :
  DB w = Ok db -> tokens_not_empty db ->
  DB (snd (handlers.GenerateTokenHandler c w)) = Ok db' ->
  tokens_not_empty db'.
Proof.
  intros Hdb Hi.
  assert (Hsame : forall d, Ok db = Ok d -> tokens_not_empty d)
    by (intros d Heq; inversion Heq; subst; exact Hi).
  unfold handlers.GenerateTokenHandler.
  destruct (gin.Body c) as [err|b|b|b|bodyCustomerID bodyAction|tk];
    try (simpl; rewrite Hdb; apply Hsame).
  destruct (String.eqb bodyCustomerID "");
    [simpl; rewrite Hdb; apply Hsame|].
  destruct (negb (serverutils.IsValidUUID bodyCustomerID));
    [simpl; rewrite Hdb; apply Hsame|].
  destruct (String.eqb bodyAction "");
    [simpl; rewrite Hdb; apply Hsame|].
  destruct (negb (serverutils.IsValidAction w bodyAction));
    [simpl; rewrite Hdb; apply Hsame|].
  rewrite Hdb.
  destruct (handlers.FetchCustomerByID db bodyCustomerID) as [customer|e].
  2:{ destruct (handlers.is_not_found e); simpl; rewrite Hdb; apply Hsame. }
  destruct (serverutils.GenerateJWT w bodyCustomerID
              (Customer.Name customer) "user" bodyAction false)
    as [token|e] eqn:HG;
    [|simpl; rewrite Hdb; apply Hsame].
  destruct (GenerateJWT_without_expiry _ _ _ _ _ _ HG) as [tok [-> _]].
  unfold uuid_New.
  match goal with
  | |- context [gorm.Create AuthToken.ID ?x ?rows] =>
      destruct (gorm.Create AuthToken.ID x rows) as [rows'|e] eqn:HC;
        [|simpl; rewrite Hdb; apply Hsame];
      pose proof (First_after_Create AuthToken.ID x rows rows' HC) as HF
  end.
  simpl in HF. simpl. rewrite HF. simpl.
  intros Heq. inversion Heq; subst db'. clear Heq.
  unfold gorm.Create in HC. simpl in HC.
  destruct (existsb _ (auth_tokens db)); [discriminate|].
  inversion HC; subst rows'.
  intros r Hr. simpl in Hr. apply in_app_or in Hr.
  destruct Hr as [Hr|[<-|[]]]; [now apply Hi | reflexivity].
Qed.

(** ** The scenario of the specification, through the routes

    An admin creates "Acme Co" in an empty database (201), deletes it (200)
    and creates it again: 200 "Customer restored" under the identifier of
    the first create, and the table still has one row. *)
Example create_delete_create :
  let created :=
    routes.serve "adm" routes.POST_customers
      (fixture.as_admin ∅
         (CustomerBody {| CustomerRequest.Name := "Acme Co" |}))
      fixture.world0 in
  let deleted :=
    routes.serve "adm" routes.DELETE_customers_id
      (fixture.as_admin
         {["customer_id" := uuid.String (fixture.other_id + 1)%N]}
         (BadBody "EOF"))
      (snd created) in
  let again :=
    routes.serve "adm" routes.POST_customers
      (fixture.as_admin ∅
         (CustomerBody {| CustomerRequest.Name := "Acme Co" |}))
      (snd deleted) in
  gin.Written (fst created)
    = [(201%Z,
        Envelope (customer_created (fixture.other_id + 1)%N "Acme Co"))]
  /\ map fst (gin.Written (fst deleted)) = [200%Z]
  /\ DB (snd deleted)
     = Ok (with_customers fixture.empty_db [fixture.acme_deleted])
  /\ gin.Written (fst again)
     = [(200%Z,
         Envelope
           (restored "Customer restored"
              (PCustomer
                 {| CustomerResponse.ID := (fixture.other_id + 1)%N;
                    CustomerResponse.Name := "Acme Co" |})))]
  /\ DB (snd again)
     = Ok (with_customers fixture.empty_db
             [handlers.restored_Customer 1000 fixture.acme_deleted]).
Proof. vm_compute. repeat split; reflexivity. Qed.

(** A superseded token: Acme's token of time 200 opens a session although
    the only stored row holds the token of time 300, and is refused by
    [POST /authenticate]. *)
Example superseded_token :
  map fst
    (gin.Written
       (fst (routes.serve "adm" routes.GET_customers_id
               (fixture.with_cookie
                  {["customer_id" := uuid.String fixture.acme_id]})
               (fixture.world_of fixture.db_superseded 1000))))
    = [200%Z]
  /\ map fst
       (gin.Written
          (fst (routes.serve "adm" routes.POST_authenticate
                  fixture.login_request
                  (fixture.world_of fixture.db_superseded 1000))))
     = [401%Z].
Proof. vm_compute. repeat split; reflexivity. Qed.

(** * Further properties of the code *)

(** ** Identifiers *)

Lemma xvalue_hexchar (d : N) :
  (d < 16)%N -> uuid.xvalue (uuid.hexchar d) = Some d.
Proof.
  intros Hd. destruct d as [|p]; [reflexivity|].
  do 4 (destruct p as [p|p|]; try reflexivity); exfalso; lia.
Qed.

Lemma unhex_app (s t : string) (acc : N) :
  uuid.unhex (s ++ t) acc
  = match uuid.unhex s acc with
    | Some a => uuid.unhex t a
    | None => None
    end.
Proof.
  revert acc. induction s as [|ch s IH]; intros acc; simpl; [reflexivity|].
  destruct (uuid.xvalue ch); [apply IH | reflexivity].
Qed.

Lemma unhex_hex (n : nat) (u acc : N) :
  uuid.unhex (uuid.hex n u) acc
  = Some (acc * 16 ^ N.of_nat n + u mod 16 ^ N.of_nat n)%N.
Proof.
  revert u acc. induction n as [|n IH]; intros u acc.
  - simpl. f_equal. rewrite N.mod_1_r. lia.
  - cbn [uuid.hex]. rewrite unhex_app, IH. cbn [uuid.unhex].
    rewrite xvalue_hexchar by (apply N.mod_lt; lia). f_equal.
    rewrite Nat2N.inj_succ, N.pow_succ_r'.
    rewrite (N.Div0.mod_mul_r u 16 (16 ^ N.of_nat n)). lia.
Qed.

Lemma length_append (s t : string) :
  String.length (s ++ t) = String.length s + String.length t.
Proof. induction s as [|ch s IH]; simpl; [reflexivity | now rewrite IH]. Qed.

Lemma length_hex (n : nat) (u : N) : String.length (uuid.hex n u) = n.
Proof.
  revert u. induction n as [|n IH]; intros u; [reflexivity|].
  cbn [uuid.hex]. rewrite length_append, IH. simpl. lia.
Qed.

Lemma Parse_dashed (h : string) :
  String.length h = 32 ->
  uuid.Parse
    (substring 0 8 h ++ "-" ++ substring 8 4 h ++ "-" ++ substring 12 4 h
       ++ "-" ++ substring 16 4 h ++ "-" ++ substring 20 12 h)
  = uuid.unhex h 0%N.
Proof.
  intros Hl.
  do 32 (destruct h as [|? h]; [discriminate Hl|]).
  destruct h; [|discriminate Hl].
  reflexivity.
Qed.

(** Parsing the string form of a UUID gives the UUID back. *)
Lemma Parse_String (u : uuid.UUID) :
  uuid.Parse (uuid.String u) = Some (u mod 2 ^ 128)%N.
Proof.
  unfold uuid.String. rewrite Parse_dashed by apply length_hex.
  rewrite unhex_hex. f_equal.
Qed.

(** X1. Whatever the random source gives, the identifier [GenerateID]
    returns passes [IsValidUUID], and it parses back to the value drawn. *)
Theorem X1_GenerateID_is_a_valid_UUID (w : World) :
  serverutils.IsValidUUID (fst (serverutils.GenerateID w)) = true
  /\ uuid.Parse (fst (serverutils.GenerateID w))
     = Some (Rand w (RandPos w) mod 2 ^ 128)%N
  /\ RandPos (snd (serverutils.GenerateID w)) = S (RandPos w).
Proof.
  unfold serverutils.GenerateID, serverutils.IsValidUUID, uuid_New.
  cbn [fst snd RandPos]. rewrite Parse_String. repeat split; reflexivity.
Qed.


(** ** Tokens *)

(** What a successful [GenerateJWT] returns. *)
Lemma GenerateJWT_Ok (w : World) (userID username role action : string)
    (expire : bool) (t : jwt.TokenString) :
  serverutils.GenerateJWT w userID username role action expire = Ok t ->
  exists tok,
    t = jwt.Compact tok
    /\ jwt.Method tok = jwt.HS256
    /\ jwt.SignedWith tok = JwtSecret w
    /\ JwtSecret w <> ""
    /\ index (jwt.Claims tok) "user_id" = Str userID
    /\ index (jwt.Claims tok) "role" = Str role
    /\ index (jwt.Claims tok) "action" = Str action
    /\ jwt.Claims tok !! "nbf" = None
    /\ jwt.Claims tok !! "exp"
       = (if expire then Some (Num (Now w + thirty_days)) else None)
    /\ serverutils.IsValidString username = true
    /\ In role (roles w) /\ In action (actions w).
Proof.
  unfold serverutils.GenerateJWT, serverutils.SignedString,
    serverutils.IsValidRole, serverutils.IsValidAction.
  destruct (negb (serverutils.IsValidUUID userID)); [discriminate|].
  destruct (serverutils.IsValidString username); [|discriminate].
  destruct (existsb _ (roles w)) eqn:HR; [|discriminate].
  destruct (existsb _ (actions w)) eqn:HA; [|discriminate].
  apply existsb_eqb_In in HR, HA. simpl negb. cbv iota.
  destruct (String.eqb (JwtSecret w) "") eqn:HK; [discriminate|].
  apply String.eqb_neq in HK.
  intros Heq. inversion Heq; subst. eexists. split; [reflexivity|].
  unfold index, serverutils.MapClaims. cbn [jwt.Method jwt.SignedWith
    jwt.Claims serverutils.ExpiresAt serverutils.UserID serverutils.Role
    serverutils.Action serverutils.Username serverutils.Issuer
    serverutils.IssuedAt].
  destruct expire; repeat split; try reflexivity; assumption.
Qed.

(** X2. [ValidateJWT] returns claims only for a compact token whose method
    is of the HMAC family, whose signature verifies under the process's
    non-empty secret and whose [exp], when present and not zero, lies in the
    future; the claims returned are the token's own. *)
Theorem X2_ValidateJWT_accepts_only_tokens_signed_with_the_secret
    (w : World) (t : jwt.TokenString) (claims : gmap string any) :
  serverutils.ValidateJWT w t = Ok claims ->
  exists tok,
    t = jwt.Compact tok
    /\ claims = jwt.Claims tok
    /\ jwt.is_HMAC (jwt.Method tok) = true
    /\ JwtSecret w <> ""
    /\ jwt.SignedWith tok = JwtSecret w
    /\ (forall e, jwt.Claims tok !! "exp" = Some (Num e) ->
          e = 0%Z \/ (Now w < e)%Z)
    /\ (forall n, jwt.Claims tok !! "nbf" = Some (Num n) ->
          n = 0%Z \/ (n <= Now w)%Z).
Proof.
  unfold serverutils.ValidateJWT, jwt.Parse.
  destruct t as [s|tok]; [discriminate|].
  destruct (negb (jwt.is_HMAC (jwt.Method tok))) eqn:Hm; [discriminate|].
  destruct (String.eqb (JwtSecret w) "") eqn:Hk; [discriminate|].
  destruct (negb (String.eqb (jwt.SignedWith tok) (JwtSecret w))) eqn:Hs;
    [discriminate|].
  apply negb_false_iff in Hm, Hs. apply String.eqb_eq in Hs.
  apply String.eqb_neq in Hk.
  destruct (jwt.validate (Now w) (jwt.Claims tok)) as [[]|e] eqn:Hv;
    [|discriminate].
  intros Heq. inversion Heq; subst. exists tok.
  repeat (split; [first [reflexivity | assumption]|]).
  unfold jwt.validate, jwt.parseNumericDate in Hv. split.
  - intros e He. rewrite He in Hv.
    destruct (e =? 0)%Z eqn:E0; [left; now apply Z.eqb_eq|].
    right. destruct (Now w <? e)%Z eqn:El; [now apply Z.ltb_lt|discriminate].
  - intros n Hn. rewrite Hn in Hv.
    destruct (n =? 0)%Z eqn:E0; [left; now apply Z.eqb_eq|].
    right.
    destruct (jwt.Claims tok !! "exp") as [[| |e|]|]; try discriminate.
    + destruct (e =? 0)%Z.
      * destruct (n <=? Now w)%Z eqn:El; [now apply Z.leb_le|discriminate].
      * destruct (Now w <? e)%Z; [|discriminate].
        destruct (n <=? Now w)%Z eqn:El; [now apply Z.leb_le|discriminate].
    + destruct (n <=? Now w)%Z eqn:El; [now apply Z.leb_le|discriminate].
Qed.

Lemma X2_witness :
  exists tok,
    fixture.acme_token 200 = jwt.Compact tok
    /\ jwt.SignedWith tok = JwtSecret fixture.world.
Proof.
  destruct (X2_ValidateJWT_accepts_only_tokens_signed_with_the_secret
              fixture.world (fixture.acme_token 200) fixture.acme_claims
              ltac:(vm_compute; reflexivity))
    as [tok [H1 [_ [_ [_ [H5 _]]]]]].
  exists tok. split; [exact H1 | exact H5].
Defined.

(** X3. A token [GenerateJWT] is asked to expire is accepted, by a process
    holding the same secret, exactly while its clock is before the issue
    time plus thirty days, and is rejected as expired from then on. *)
Theorem X3_expiring_token_lives_thirty_days
    (w : World) (userID username role action : string)
    (t : jwt.TokenString) :
  serverutils.GenerateJWT w userID username role action true = Ok t ->
  (Now w + thirty_days <> 0)%Z ->
  forall w2, JwtSecret w2 = JwtSecret w ->
    ((Now w2 < Now w + thirty_days)%Z ->
       exists claims, serverutils.ValidateJWT w2 t = Ok claims
                      /\ index claims "user_id" = Str userID)
    /\ ((Now w + thirty_days <= Now w2)%Z ->
          serverutils.ValidateJWT w2 t = Err expired).
Proof.
  intros HG Hnz w2 Hk.
  destruct (GenerateJWT_Ok _ _ _ _ _ _ _ HG)
    as [tok [-> [Hm [Hs [Hne [Hu [_ [_ [Hnbf [Hexp _]]]]]]]]]].
  unfold serverutils.ValidateJWT, jwt.Parse, jwt.validate,
    jwt.parseNumericDate.
  rewrite Hm. cbn [jwt.is_HMAC negb]. cbv iota.
  rewrite Hk, (eqb_false_of_neq _ _ Hne), Hs. rewrite String.eqb_refl.
  cbn [negb]. cbv iota. rewrite Hexp, Hnbf.
  destruct (Now w + thirty_days =? 0)%Z eqn:E0;
    [apply Z.eqb_eq in E0; contradiction|].
  split.
  - intros Hlt. apply Z.ltb_lt in Hlt. rewrite Hlt. eauto.
  - intros Hge. apply Z.ltb_ge in Hge. rewrite Hge. reflexivity.
Qed.

Lemma X3_witness :
  (exists claims,
     serverutils.ValidateJWT (fixture.world_of fixture.db 5000)
       sample.expiring = Ok claims
     /\ index claims "user_id" = Str (uuid.String fixture.acme_id))
  /\ serverutils.ValidateJWT
       (fixture.world_of fixture.db (1000 + thirty_days)) sample.expiring
     = Err expired.
Proof.
  split.
  - apply (proj1 (X3_expiring_token_lives_thirty_days fixture.world
                    (uuid.String fixture.acme_id) "Acme Co" "user" "READ"
                    sample.expiring
                    ltac:(vm_compute; reflexivity)
                    ltac:(vm_compute; discriminate)
                    (fixture.world_of fixture.db 5000) eq_refl)).
    vm_compute. reflexivity.
  - apply (proj2 (X3_expiring_token_lives_thirty_days fixture.world
                    (uuid.String fixture.acme_id) "Acme Co" "user" "READ"
                    sample.expiring
                    ltac:(vm_compute; reflexivity)
                    ltac:(vm_compute; discriminate)
                    (fixture.world_of fixture.db (1000 + thirty_days))
                    eq_refl)).
    vm_compute. discriminate.
Defined.

(** ** The issuance endpoints *)

(** X4. [GenerateAdminTokenHandler] never consults the database.  With a
    non-empty signing secret, "admin" among the roles and "ADMIN" among the
    actions it answers 200 with a token for a freshly drawn subject, role
    admin; in every other configuration it answers 500 "Failed to generate
    token". *)
Theorem X4_admin_token_issued_iff_configured (c : gin.Context) (w : World) :
  (JwtSecret w <> "" -> In "admin" (roles w) -> In "ADMIN" (actions w) ->
   exists tok,
     handlers.GenerateAdminTokenHandler c w
     = (gin.JSON c 200
          (Envelope (token_generated (PToken (jwt.Compact tok)))),
        snd (uuid_New w))
     /\ jwt.SignedWith tok = JwtSecret w
     /\ index (jwt.Claims tok) "role" = Str "admin"
     /\ index (jwt.Claims tok) "user_id"
        = Str (uuid.String (Rand w (RandPos w))))
  /\ (JwtSecret w = "" \/ ~ In "admin" (roles w) \/ ~ In "ADMIN" (actions w) ->
      exists e,
        handlers.GenerateAdminTokenHandler c w
        = (gin.JSON c 500 (Envelope (generate_failed e)),
           with_Log (snd (uuid_New w))
             (LogError "Failed to generate token" e))).
Proof.
  unfold handlers.GenerateAdminTokenHandler, serverutils.GenerateID, uuid_New.
  set (w1 := {| DB := DB w; JwtSecret := JwtSecret w; Now := Now w;
                roles := roles w; actions := actions w; Rand := Rand w;
                RandPos := S (RandPos w); Log := Log w;
                Stdout := Stdout w |}).
  cbn [snd].
  destruct (serverutils.GenerateJWT w1 (uuid.String (Rand w (RandPos w)))
              "Admin" "admin" "ADMIN" false) as [t|e] eqn:HG.
  - destruct (GenerateJWT_Ok _ _ _ _ _ _ _ HG)
      as [tok [-> [_ [Hs [Hne [Hu [Hr [_ [_ [_ [_ [HR HA]]]]]]]]]]]].
    split.
    + intros _ _ _. exists tok. repeat split; assumption.
    + intros [Hk|[Hn|Hn]]; [| |]; exfalso.
      * now apply Hne.
      * now apply Hn.
      * now apply Hn.
  - split.
    + intros Hk HR HA. exfalso.
      unfold serverutils.GenerateJWT, serverutils.IsValidUUID,
        serverutils.IsValidRole, serverutils.IsValidAction,
        serverutils.SignedString in HG.
      rewrite Parse_String in HG. cbn [negb] in HG. cbv iota in HG.
      change (serverutils.IsValidString "Admin") with true in HG.
      cbn [negb] in HG. cbv iota in HG.
      apply existsb_eqb_In in HR, HA.
      change (roles w1) with (roles w) in HG.
      change (actions w1) with (actions w) in HG.
      change (JwtSecret w1) with (JwtSecret w) in HG.
      rewrite HR, HA in HG. cbn [negb] in HG. cbv iota in HG.
      rewrite (eqb_false_of_neq _ _ Hk) in HG. discriminate.
    + intros _. exists e. reflexivity.
Qed.

Lemma X4_witness :
  exists tok,
    handlers.GenerateAdminTokenHandler fixture.no_secret fixture.world
    = (gin.JSON fixture.no_secret 200
         (Envelope (token_generated (PToken (jwt.Compact tok)))),
       snd (uuid_New fixture.world))
    /\ index (jwt.Claims tok) "role" = Str "admin".
Proof.
  destruct (proj1 (X4_admin_token_issued_iff_configured fixture.no_secret
                     fixture.world)
              ltac:(vm_compute; discriminate)
              ltac:(left; reflexivity)
              ltac:(left; reflexivity))
    as [tok [HR [_ [Hrole _]]]].
  exists tok. split; [exact HR | exact Hrole].
Defined.

(** X5. [CustomerCreate] accepts any non-empty name, but
    [GenerateTokenHandler] passes the customer's name to [GenerateJWT] as
    the display name: for a customer whose name does not match the name
    pattern it answers 500 "invalid username" and stores no token. *)
Theorem X5_no_token_for_a_customer_name_outside_the_pattern
    (c : gin.Context) (w : World) (db : Database) (id action : string)
    (customer : Customer.t) :
  gin.Body c = GenerateTokenBody id action ->
  serverutils.IsValidUUID id = true ->
  action <> "" -> In action (actions w) ->
  DB w = Ok db ->
  handlers.FetchCustomerByID db id = Ok customer ->
  serverutils.IsValidString (Customer.Name customer) = false ->
  handlers.GenerateTokenHandler c w
  = (gin.JSON c 500 (Envelope invalid_username),
     with_Log w (LogError "Failed to generate token" "invalid username")).
Proof.
  intros Hb Hid Ha Hin Hdb HC Hname.
  unfold handlers.GenerateTokenHandler. rewrite Hb.
  assert (Hne : id <> "") by (intros ->; discriminate Hid).
  rewrite (eqb_false_of_neq _ _ Hne), Hid. cbn [negb]. cbv iota.
  rewrite (eqb_false_of_neq _ _ Ha).
  unfold serverutils.IsValidAction at 1.
  apply existsb_eqb_In in Hin. rewrite Hin. cbn [negb]. cbv iota.
  rewrite Hdb, HC.
  unfold serverutils.GenerateJWT. rewrite Hid, Hname. reflexivity.
Qed.

Lemma X5_witness :
  handlers.GenerateTokenHandler
    (sample.token_for (uuid.String fixture.other_id) "READ")
    (fixture.world_of sample.db_hyphen 1000)
  = (gin.JSON (sample.token_for (uuid.String fixture.other_id) "READ") 500
       (Envelope invalid_username),
     with_Log (fixture.world_of sample.db_hyphen 1000)
       (LogError "Failed to generate token" "invalid username")).
Proof.
  apply (X5_no_token_for_a_customer_name_outside_the_pattern _ _
           sample.db_hyphen (uuid.String fixture.other_id) "READ"
           sample.hyphen).
  - reflexivity.
  - vm_compute. reflexivity.
  - discriminate.
  - right. left. reflexivity.
  - reflexivity.
  - vm_compute. reflexivity.
  - vm_compute. reflexivity.
Defined.

(** ** The session middleware, in general *)

Lemma GetString_bind_claims_role (c : gin.Context) (claims : gmap string any)
    (role : string) :
  index claims "role" = Str role ->
  gin.GetString (server.bind_claims c claims) "role" = role.
Proof.
  intros Hr. unfold gin.GetString, server.bind_claims, gin.Set_. simpl.
  rewrite lookup_insert_ne by discriminate. rewrite lookup_insert_eq.
  now rewrite Hr.
Qed.

Lemma GetString_bind_claims_customer_id (c : gin.Context)
    (claims : gmap string any) (id : string) :
  index claims "user_id" = Str id ->
  gin.GetString (server.bind_claims c claims) "customer_id" = id.
Proof.
  intros Hr. unfold gin.GetString, server.bind_claims, gin.Set_. simpl.
  rewrite !lookup_insert_ne by discriminate. rewrite lookup_insert_eq.
  now rewrite Hr.
Qed.

(** Either the middleware aborts with one write and leaves the process
    state but for the log, or it lets the request through for a token that
    validates. *)
Lemma AuthMiddleware_cases (c : gin.Context) (w : World) :
  (gin.Aborted (fst (server.AuthMiddleware c w)) = true
   /\ DB (snd (server.AuthMiddleware c w)) = DB w
   /\ exists code body,
        gin.Written (fst (server.AuthMiddleware c w))
        = (gin.Written c ++ [(code, body)])%list
        /\ enveloped code body /\ code <> 200%Z)
  \/ (exists tok claims role db,
        gin.Cookie c "Authorization" = Ok tok
        /\ serverutils.ValidateJWT w tok = Ok claims
        /\ index claims "role" = Str role
        /\ DB w = Ok db
        /\ server.AuthMiddleware c w = (server.bind_claims c claims, w)
        /\ (role <> "admin" ->
            exists r, In r (auth_tokens db)
                      /\ server.token_query claims r = true
                      /\ jwt.is_empty (AuthToken.Token r) = false)).
Proof.
  unfold server.AuthMiddleware.
  destruct (gin.Cookie c "Authorization") as [tok|e].
  2:{ left. simpl. split; [reflexivity|]. split; [reflexivity|].
      eexists. eexists. split; [reflexivity|].
      split; [left; reflexivity | discriminate]. }
  destruct (serverutils.ValidateJWT w tok) as [claims|e] eqn:Hv.
  2:{ left. simpl. split; [reflexivity|]. split; [reflexivity|].
      eexists. eexists. split; [reflexivity|].
      split; [left; reflexivity | discriminate]. }
  destruct (DB w) as [db|e] eqn:Hdb.
  2:{ left. simpl. split; [reflexivity|]. split; [assumption|].
      eexists. eexists. split; [reflexivity|].
      split; [left; reflexivity | discriminate]. }
  destruct (index claims "role") as [|role|z|b] eqn:Hr;
    try (left; simpl; split; [reflexivity|]; split; [assumption|];
         eexists; eexists; split; [reflexivity|];
         split; [right; split; reflexivity | discriminate]).
  destruct (negb (String.eqb role "admin")) eqn:Hadm.
  - destruct (gorm.First AuthToken.ID (server.token_query claims)
                (auth_tokens db)) as [r|] eqn:HF; simpl.
    + destruct (jwt.is_empty (AuthToken.Token r)) eqn:He.
      * left. simpl. split; [reflexivity|]. split; [assumption|].
        eexists. eexists. split; [reflexivity|].
        split; [left; reflexivity | discriminate].
      * right. exists tok, claims, role, db.
        repeat (split; [first [reflexivity | assumption]|]).
        intros _. exists r. destruct (First_In _ _ _ _ HF) as [Hin Hq].
        repeat split; assumption.
    + left. simpl. split; [reflexivity|]. split; [assumption|].
      eexists. eexists. split; [reflexivity|].
      split; [left; reflexivity | discriminate].
  - right. exists tok, claims, role, db.
    repeat (split; [first [reflexivity | assumption]|]).
    intros Hna. apply negb_false_iff, String.eqb_eq in Hadm. contradiction.
Qed.

(** X6. A request passes [AuthMiddleware] only with a cookie whose token
    [ValidateJWT] accepts and whose role claim is a string; for a role
    other than admin, only with a stored row for the token's subject and
    action.  When it passes, nothing has been written or logged and the
    three context keys are bound from the claims. *)
Theorem X6_session_only_with_a_validated_token (c : gin.Context) (w : World) :
  gin.Aborted (fst (server.AuthMiddleware c w)) = false ->
  exists tok claims role db,
    gin.Cookie c "Authorization" = Ok tok
    /\ serverutils.ValidateJWT w tok = Ok claims
    /\ index claims "role" = Str role
    /\ DB w = Ok db
    /\ (role <> "admin" ->
        exists r, In r (auth_tokens db)
                  /\ server.token_query claims r = true)
    /\ server.AuthMiddleware c w = (server.bind_claims c claims, w)
    /\ gin.GetString (fst (server.AuthMiddleware c w)) "role" = role
    /\ gin.Written (fst (server.AuthMiddleware c w)) = gin.Written c.
Proof.
  intros Hpass.
  destruct (AuthMiddleware_cases c w) as [[Hab _]|H].
  - rewrite Hab in Hpass. discriminate.
  - destruct H as [tok [claims [role [db [H1 [H2 [H3 [H4 [H5 H6]]]]]]]]].
    exists tok, claims, role, db.
    repeat (split; [first [assumption | reflexivity]|]).
    split.
    + intros Hna. destruct (H6 Hna) as [r [Hin [Hq _]]]. eauto.
    + split; [assumption|]. rewrite H5. cbn [fst].
      split; [now apply GetString_bind_claims_role | reflexivity].
Qed.

Lemma X6_witness :
  exists tok claims,
    gin.Cookie (fixture.with_cookie ∅) "Authorization" = Ok tok
    /\ serverutils.ValidateJWT fixture.world tok = Ok claims
    /\ server.AuthMiddleware (fixture.with_cookie ∅) fixture.world
       = (server.bind_claims (fixture.with_cookie ∅) claims, fixture.world).
Proof.
  destruct (X6_session_only_with_a_validated_token (fixture.with_cookie ∅)
              fixture.world ltac:(vm_compute; reflexivity))
    as [tok [claims [role [db [H1 [H2 [_ [_ [_ [H6 _]]]]]]]]]].
  exists tok, claims. split; [exact H1 | split; [exact H2 | exact H6]].
Defined.

(** ** Who can change the database *)

(** Case analysis on the innermost scrutinee of the goal, repeated. *)
Ltac branch1 :=
  match goal with
  | |- context [match ?x with _ => _ end] =>
      lazymatch x with
      | context [match _ with _ => _ end] => fail
      | _ => destruct x eqn:?
      end
  end.

Ltac branches := repeat branch1.

Ltac same_DB :=
  first [ reflexivity
        | cbn [snd DB with_Log with_DB Println serverutils.WriteError];
          congruence ].

Lemma WriteError_DB (c : gin.Context) (w : World) (status : Z)
    (m e : string) :
  DB (snd (serverutils.WriteError c w status m e)) = DB w.
Proof. reflexivity. Qed.

Lemma CustomerFetchByID_DB (c : gin.Context) (w : World) :
  DB (snd (handlers.CustomerFetchByID c w)) = DB w.
Proof.
  unfold handlers.CustomerFetchByID, serverutils.GetDBInstance.
  branches; same_DB.
Qed.

Lemma SiteFetchByID_DB (c : gin.Context) (w : World) :
  DB (snd (handlers.SiteFetchByID c w)) = DB w.
Proof.
  unfold handlers.SiteFetchByID, serverutils.GetDBInstance.
  branches; same_DB.
Qed.

Lemma DeviceFetchBySerialNumber_DB (c : gin.Context) (w : World) :
  DB (snd (handlers.DeviceFetchBySerialNumber c w)) = DB w.
Proof.
  unfold handlers.DeviceFetchBySerialNumber, serverutils.GetDBInstance.
  branches; same_DB.
Qed.

Lemma AuthenticateHandler_DB (c : gin.Context) (w : World) :
  DB (snd (handlers.AuthenticateHandler c w)) = DB w.
Proof.
  unfold handlers.AuthenticateHandler.
  branches; same_DB.
Qed.

Lemma GenerateAdminTokenHandler_DB (c : gin.Context) (w : World) :
  DB (snd (handlers.GenerateAdminTokenHandler c w)) = DB w.
Proof.
  unfold handlers.GenerateAdminTokenHandler, serverutils.GenerateID, uuid_New.
  branches; same_DB.
Qed.

Lemma loggingMiddleware_DB (hs : list HandlerFunc) (c : gin.Context)
    (w : World) :
  DB (snd (server.loggingMiddleware hs c w)) = DB (snd (server.run hs c w)).
Proof.
  unfold server.loggingMiddleware.
  destruct (server.run hs c w) as [c' w']. reflexivity.
Qed.

(** A chain behind [AuthMiddleware] and [AdminOnlyMiddleware] changes the
    database only for a validated admin token. *)
Lemma admin_gate (h : HandlerFunc) (c : gin.Context) (w : World) :
  DB (snd (server.run
             [server.AuthMiddleware; server.AdminOnlyMiddleware; h] c w))
    <> DB w ->
  exists tok claims,
    gin.Cookie c "Authorization" = Ok tok
    /\ serverutils.ValidateJWT w tok = Ok claims
    /\ index claims "role" = Str "admin".
Proof.
  intros Hch.
  destruct (AuthMiddleware_cases c w) as [[Hab [Hdb _]]|H].
  - exfalso. apply Hch. cbn [server.run].
    destruct (server.AuthMiddleware c w) as [c' w']. cbn [fst snd] in *.
    rewrite Hab. exact Hdb.
  - destruct H as [tok [claims [role [db [H1 [H2 [H3 [H4 [H5 _]]]]]]]]].
    destruct (String.eqb role "admin") eqn:Hr.
    { apply String.eqb_eq in Hr. subst role. eauto. }
    exfalso. apply Hch. cbn [server.run]. rewrite H5.
    destruct (gin.Aborted (server.bind_claims c claims)); [reflexivity|].
    unfold server.AdminOnlyMiddleware.
    rewrite (GetString_bind_claims_role c claims role H3), Hr.
    reflexivity.
Qed.

(** A chain of [AuthMiddleware] and a handler that only reads leaves the
    database as it is. *)
Lemma reader_gate (h : HandlerFunc) (c : gin.Context) (w : World) :
  (forall c' w', DB (snd (h c' w')) = DB w') ->
  DB (snd (server.run [server.AuthMiddleware; h] c w)) = DB w.
Proof.
  intros Hh. cbn [server.run].
  destruct (AuthMiddleware_cases c w) as [[Hab [Hdb _]]|H].
  - destruct (server.AuthMiddleware c w) as [c' w']. cbn [fst snd] in *.
    rewrite Hab. exact Hdb.
  - destruct H as [tok [claims [role [db [_ [_ [_ [_ [H5 _]]]]]]]]].
    rewrite H5.
    destruct (gin.Aborted (server.bind_claims c claims)); [reflexivity|].
    specialize (Hh (server.bind_claims c claims) w).
    destruct (h (server.bind_claims c claims) w) as [c' w'].
    cbn [fst snd] in *. destruct (gin.Aborted c'); exact Hh.
Qed.

(** X7. Serving a request changes the database only in two cases: the
    request carries a cookie whose token validates with the role admin, or
    it is a [POST /admin/generate-token] carrying the admin secret.  In
    particular no user session and no read route writes. *)
Theorem X7_only_admins_change_the_database
    (adminSecret : string) (r : routes.Route) (c : gin.Context) (w : World) :
  DB (snd (routes.serve adminSecret r c w)) <> DB w ->
  (r = routes.POST_admin_generate_token
   /\ gin.GetHeader c "Admin-Secret" = adminSecret)
  \/ (exists tok claims,
        gin.Cookie c "Authorization" = Ok tok
        /\ serverutils.ValidateJWT w tok = Ok claims
        /\ index claims "role" = Str "admin").
Proof.
  unfold routes.serve. rewrite loggingMiddleware_DB. intros Hch.
  destruct r; cbn [routes.chain] in Hch;
    try (right; exact (admin_gate _ c w Hch));
    try (exfalso; apply Hch; apply reader_gate;
         first [ apply CustomerFetchByID_DB | apply SiteFetchByID_DB
               | apply DeviceFetchBySerialNumber_DB ]).
  - exfalso. apply Hch. cbn [server.run]. unfold server.AdminMiddleware.
    destruct (negb (String.eqb (gin.GetHeader c "Admin-Secret") adminSecret));
      [reflexivity|].
    destruct (gin.Aborted c); [reflexivity|].
    pose proof (GenerateAdminTokenHandler_DB c w) as Hh.
    destruct (handlers.GenerateAdminTokenHandler c w) as [c' w'].
    cbn [fst snd] in *. destruct (gin.Aborted c'); exact Hh.
  - left. split; [reflexivity|].
    cbn [server.run] in Hch. unfold server.AdminMiddleware in Hch.
    destruct (String.eqb (gin.GetHeader c "Admin-Secret") adminSecret) eqn:E.
    + now apply String.eqb_eq.
    + exfalso. apply Hch. reflexivity.
  - exfalso. apply Hch. cbn [server.run].
    pose proof (AuthenticateHandler_DB c w) as Hh.
    destruct (handlers.AuthenticateHandler c w) as [c' w'].
    cbn [fst snd] in *. destruct (gin.Aborted c'); exact Hh.
Qed.

Lemma X7_witness :
  (routes.POST_customers = routes.POST_admin_generate_token
   /\ gin.GetHeader
        (fixture.as_admin ∅
           (CustomerBody {| CustomerRequest.Name := "Acme Co" |}))
        "Admin-Secret" = "adm")
  \/ (exists tok claims,
        gin.Cookie
          (fixture.as_admin ∅
             (CustomerBody {| CustomerRequest.Name := "Acme Co" |}))
          "Authorization" = Ok tok
        /\ serverutils.ValidateJWT fixture.world0 tok = Ok claims
        /\ index claims "role" = Str "admin").
Proof.
  apply (X7_only_admins_change_the_database "adm" routes.POST_customers
           (fixture.as_admin ∅
              (CustomerBody {| CustomerRequest.Name := "Acme Co" |}))
           fixture.world0).
  vm_compute. discriminate.
Defined.

(** ** One enveloped response per request *)

Ltac one_write :=
  branches; eexists; eexists;
  (split; [reflexivity
          | first [ left; reflexivity | right; split; reflexivity ] ]).

Lemma CustomerCreate_writes_once : writes_once handlers.CustomerCreate.
Proof.
  intros c w. unfold handlers.CustomerCreate, handlers.BindJSON_Customer,
    serverutils.GetDBInstance, uuid_New. one_write.
Qed.

Lemma CustomerFetchByID_writes_once : writes_once handlers.CustomerFetchByID.
Proof.
  intros c w. unfold handlers.CustomerFetchByID, serverutils.GetDBInstance.
  one_write.
Qed.

Lemma CustomerDelete_writes_once : writes_once handlers.CustomerDelete.
Proof.
  intros c w. unfold handlers.CustomerDelete, serverutils.GetDBInstance.
  one_write.
Qed.

Lemma CustomerUpdate_writes_once : writes_once updates.CustomerUpdate.
Proof.
  intros c w. unfold updates.CustomerUpdate, handlers.BindJSON_Customer,
    serverutils.GetDBInstance. one_write.
Qed.

Lemma SiteCreate_writes_once : writes_once handlers.SiteCreate.
Proof.
  intros c w. unfold handlers.SiteCreate, handlers.BindJSON_Site,
    serverutils.GetDBInstance, uuid_New. one_write.
Qed.

Lemma SiteFetchByID_writes_once : writes_once handlers.SiteFetchByID.
Proof.
  intros c w. unfold handlers.SiteFetchByID, serverutils.GetDBInstance.
  one_write.
Qed.

Lemma SiteDelete_writes_once : writes_once handlers.SiteDelete.
Proof.
  intros c w. unfold handlers.SiteDelete, serverutils.GetDBInstance.
  one_write.
Qed.

Lemma DeviceCreate_writes_once : writes_once handlers.DeviceCreate.
Proof.
  intros c w. unfold handlers.DeviceCreate, handlers.BindJSON_Device,
    serverutils.GetDBInstance, uuid_New. one_write.
Qed.

Lemma DeviceFetchBySerialNumber_writes_once :
  writes_once handlers.DeviceFetchBySerialNumber.
Proof.
  intros c w. unfold handlers.DeviceFetchBySerialNumber,
    serverutils.GetDBInstance. one_write.
Qed.

Lemma DeviceDelete_writes_once : writes_once handlers.DeviceDelete.
Proof.
  intros c w. unfold handlers.DeviceDelete, serverutils.GetDBInstance.
  one_write.
Qed.

Lemma AuthenticateHandler_writes_once :
  writes_once handlers.AuthenticateHandler.
Proof.
  intros c w. unfold handlers.AuthenticateHandler. one_write.
Qed.

Lemma GenerateAdminTokenHandler_writes_once :
  writes_once handlers.GenerateAdminTokenHandler.
Proof.
  intros c w. unfold handlers.GenerateAdminTokenHandler,
    serverutils.GenerateID, uuid_New. one_write.
Qed.

Lemma GenerateTokenHandler_writes_once :
  writes_once handlers.GenerateTokenHandler.
Proof.
  intros c w. unfold handlers.GenerateTokenHandler, uuid_New. one_write.
Qed.

Lemma run_last (h : HandlerFunc) (c : gin.Context) (w : World) :
  server.run [h] c w = h c w.
Proof.
  cbn [server.run]. destruct (h c w) as [c' w'].
  destruct (gin.Aborted c'); reflexivity.
Qed.

Lemma AdminOnlyMiddleware_cases (c : gin.Context) (w : World) :
  (gin.GetString c "role" = "admin"
   /\ server.AdminOnlyMiddleware c w = (c, w))
  \/ (gin.GetString c "role" <> "admin"
      /\ gin.Aborted (fst (server.AdminOnlyMiddleware c w)) = true
      /\ exists body,
           gin.Written (fst (server.AdminOnlyMiddleware c w))
           = (gin.Written c ++ [(403%Z, body)])%list
           /\ enveloped 403 body).
Proof.
  unfold server.AdminOnlyMiddleware.
  destruct (String.eqb (gin.GetString c "role") "admin") eqn:E.
  - left. apply String.eqb_eq in E. split; [assumption | reflexivity].
  - right. apply String.eqb_neq in E. split; [assumption|].
    split; [reflexivity|]. eexists. split; [reflexivity | left; reflexivity].
Qed.

Lemma session_chain_writes_once (h : HandlerFunc) (c : gin.Context)
    (w : World) :
  writes_once h -> gin.Aborted c = false ->
  exists code body,
    gin.Written (fst (server.run [server.AuthMiddleware; h] c w))
    = (gin.Written c ++ [(code, body)])%list
    /\ enveloped code body.
Proof.
  intros Hh Hc. cbn [server.run].
  destruct (AuthMiddleware_cases c w) as [[Hab [_ [code [body [HW [He _]]]]]]|H].
  - destruct (server.AuthMiddleware c w) as [c' w']. cbn [fst] in *.
    rewrite Hab. cbn [fst]. eauto.
  - destruct H as [tok [claims [role [db [_ [_ [_ [_ [H5 _]]]]]]]]].
    rewrite H5.
    change (gin.Aborted (server.bind_claims c claims)) with (gin.Aborted c).
    rewrite Hc.
    destruct (Hh (server.bind_claims c claims) w) as [code [body [HW He]]].
    destruct (h (server.bind_claims c claims) w) as [c' w'].
    cbn [fst] in *. exists code, body.
    split; [|assumption]. destruct (gin.Aborted c'); exact HW.
Qed.

Lemma admin_chain_writes_once (h : HandlerFunc) (c : gin.Context)
    (w : World) :
  writes_once h -> gin.Aborted c = false ->
  exists code body,
    gin.Written
      (fst (server.run
              [server.AuthMiddleware; server.AdminOnlyMiddleware; h] c w))
    = (gin.Written c ++ [(code, body)])%list
    /\ enveloped code body.
Proof.
  intros Hh Hc. cbn [server.run].
  destruct (AuthMiddleware_cases c w) as [[Hab [_ [code [body [HW [He _]]]]]]|H].
  - destruct (server.AuthMiddleware c w) as [c' w']. cbn [fst] in *.
    rewrite Hab. cbn [fst]. eauto.
  - destruct H as [tok [claims [role [db [_ [_ [_ [_ [H5 _]]]]]]]]].
    rewrite H5.
    change (gin.Aborted (server.bind_claims c claims)) with (gin.Aborted c).
    rewrite Hc.
    destruct (AdminOnlyMiddleware_cases (server.bind_claims c claims) w)
      as [[_ Hpass]|[_ [Hab [body [HW He]]]]].
    + rewrite Hpass.
      change (gin.Aborted (server.bind_claims c claims)) with (gin.Aborted c).
      rewrite Hc.
      destruct (Hh (server.bind_claims c claims) w) as [code [body [HW He]]].
      destruct (h (server.bind_claims c claims) w) as [c' w'].
      cbn [fst] in *. exists code, body.
      split; [|assumption]. destruct (gin.Aborted c'); exact HW.
    + destruct (server.AdminOnlyMiddleware (server.bind_claims c claims) w)
        as [c' w'].
      cbn [fst] in *. rewrite Hab. cbn [fst]. exists 403%Z, body.
      split; assumption.
Qed.

Lemma secret_chain_writes_once (adminSecret : string) (h : HandlerFunc)
    (c : gin.Context) (w : World) :
  writes_once h -> gin.Aborted c = false ->
  exists code body,
    gin.Written
      (fst (server.run [server.AdminMiddleware adminSecret; h] c w))
    = (gin.Written c ++ [(code, body)])%list
    /\ (enveloped code body
        \/ (code = 401%Z /\ body = invalid_admin_secret
            /\ gin.GetHeader c "Admin-Secret" <> adminSecret)).
Proof.
  intros Hh Hc. cbn [server.run]. unfold server.AdminMiddleware.
  destruct (String.eqb (gin.GetHeader c "Admin-Secret") adminSecret) eqn:E.
  - cbn [negb]. cbv iota. rewrite Hc.
    destruct (Hh c w) as [code [body [HW He]]].
    destruct (h c w) as [c' w']. cbn [fst] in *. exists code, body.
    split; [|left; assumption]. destruct (gin.Aborted c'); exact HW.
  - apply String.eqb_neq in E. cbn [negb]. cbv iota.
    exists 401%Z, invalid_admin_secret. split; [reflexivity|].
    right. repeat split. assumption.
Qed.

(** X8. Every request served on a fresh context gets exactly one write.
    It is the envelope whose [status] field is the HTTP code, or the bare
    500 of a recovered panic, or, on the two issuance routes when the admin
    secret is wrong, the 401 map of [AdminMiddleware].  The request line
    the logging middleware appends carries that code, as a warning from 400
    up. *)
Theorem X8_one_response_per_request
    (adminSecret : string) (r : routes.Route) (c : gin.Context) (w : World) :
  gin.Written c = [] -> gin.Aborted c = false ->
  exists code body l,
    gin.Written (fst (routes.serve adminSecret r c w)) = [(code, body)]
    /\ (enveloped code body
        \/ (code = 401%Z /\ body = invalid_admin_secret
            /\ gin.GetHeader c "Admin-Secret" <> adminSecret
            /\ (r = routes.POST_admin_generate_admin_token
                \/ r = routes.POST_admin_generate_token)))
    /\ Log (snd (routes.serve adminSecret r c w))
       = (l ++ [LogRequest (400 <=? code)%Z code])%list.
Proof.
  intros HW0 Hc.
  assert (Hlog : forall hs code body,
            gin.Written (fst (server.run hs c w)) = [(code, body)] ->
            gin.Written (fst (server.loggingMiddleware hs c w))
            = [(code, body)]
            /\ exists l, Log (snd (server.loggingMiddleware hs c w))
                         = (l ++ [LogRequest (400 <=? code)%Z code])%list).
  { intros hs code body HR. unfold server.loggingMiddleware.
    destruct (server.run hs c w) as [c' w']. cbn [fst snd] in *.
    split; [assumption|]. exists (Log w'). unfold server.Status.
    rewrite HR. reflexivity. }
  unfold routes.serve.
  assert (Hgated : forall hs,
            (exists code body,
               gin.Written (fst (server.run hs c w))
               = (gin.Written c ++ [(code, body)])%list
               /\ enveloped code body) ->
            exists code body l,
              gin.Written (fst (server.loggingMiddleware hs c w))
              = [(code, body)]
              /\ (enveloped code body
                  \/ (code = 401%Z /\ body = invalid_admin_secret
                      /\ gin.GetHeader c "Admin-Secret" <> adminSecret
                      /\ (r = routes.POST_admin_generate_admin_token
                          \/ r = routes.POST_admin_generate_token)))
              /\ Log (snd (server.loggingMiddleware hs c w))
                 = (l ++ [LogRequest (400 <=? code)%Z code])%list).
  { intros hs [code [body [HR He]]]. rewrite HW0 in HR.
    destruct (Hlog hs code body HR) as [H1 [l H2]].
    exists code, body, l. split; [assumption|]. split; [now left|assumption]. }
  destruct r; cbn [routes.chain].
  - destruct (secret_chain_writes_once adminSecret
                handlers.GenerateAdminTokenHandler c w
                GenerateAdminTokenHandler_writes_once Hc)
      as [code [body [HR He]]].
    rewrite HW0 in HR. destruct (Hlog _ code body HR) as [H1 [l H2]].
    exists code, body, l. split; [assumption|]. split; [|assumption].
    destruct He as [He|[E1 [E2 E3]]]; [now left|]. right. auto.
  - destruct (secret_chain_writes_once adminSecret
                handlers.GenerateTokenHandler c w
                GenerateTokenHandler_writes_once Hc)
      as [code [body [HR He]]].
    rewrite HW0 in HR. destruct (Hlog _ code body HR) as [H1 [l H2]].
    exists code, body, l. split; [assumption|]. split; [|assumption].
    destruct He as [He|[E1 [E2 E3]]]; [now left|]. right. auto.
  - apply Hgated. rewrite run_last. apply AuthenticateHandler_writes_once.
  - apply Hgated, admin_chain_writes_once;
      [apply CustomerCreate_writes_once | assumption].
  - apply Hgated, session_chain_writes_once;
      [apply CustomerFetchByID_writes_once | assumption].
  - apply Hgated, admin_chain_writes_once;
      [apply CustomerDelete_writes_once | assumption].
  - apply Hgated, admin_chain_writes_once;
      [apply SiteCreate_writes_once | assumption].
  - apply Hgated, session_chain_writes_once;
      [apply SiteFetchByID_writes_once | assumption].
  - apply Hgated, admin_chain_writes_once;
      [apply SiteDelete_writes_once | assumption].
  - apply Hgated, admin_chain_writes_once;
      [apply DeviceCreate_writes_once | assumption].
  - apply Hgated, session_chain_writes_once;
      [apply DeviceFetchBySerialNumber_writes_once | assumption].
  - apply Hgated, admin_chain_writes_once;
      [apply DeviceDelete_writes_once | assumption].
Qed.

Lemma X8_witness :
  exists code body l,
    gin.Written
      (fst (routes.serve "adm" routes.GET_customers_id
              (fixture.with_cookie
                 {["customer_id" := uuid.String fixture.acme_id]})
              fixture.world))
    = [(code, body)]
    /\ Log (snd (routes.serve "adm" routes.GET_customers_id
                   (fixture.with_cookie
                      {["customer_id" := uuid.String fixture.acme_id]})
                   fixture.world))
       = (l ++ [LogRequest (400 <=? code)%Z code])%list.
Proof.
  destruct (X8_one_response_per_request "adm" routes.GET_customers_id
              (fixture.with_cookie
                 {["customer_id" := uuid.String fixture.acme_id]})
              fixture.world eq_refl eq_refl)
    as [code [body [l [HW [_ HL]]]]].
  exists code, body, l. split; [exact HW | exact HL].
Defined.

(** X9. On [GET /sites/:site_id] and [GET /devices/:device_serial_number]
    a 200 is only ever written for a token whose role is admin: the
    requester id the two handlers compare is read from a key the middleware
    does not bind, so every other session is refused. *)
Theorem X9_site_and_device_fetch_answer_200_to_admins_only
    (adminSecret : string) (c : gin.Context) (w : World)
    (body : ResponseBody) :
  gin.Keys c = ∅ -> gin.Written c = [] ->
  In (200%Z, body)
     (gin.Written (fst (routes.serve adminSecret routes.GET_sites_id c w)))
  \/ In (200%Z, body)
       (gin.Written
          (fst (routes.serve adminSecret routes.GET_devices_serial c w))) ->
  exists tok claims,
    gin.Cookie c "Authorization" = Ok tok
    /\ serverutils.ValidateJWT w tok = Ok claims
    /\ index claims "role" = Str "admin".
Proof.
  intros HK HW0 Hin.
  assert (Hmain : forall h,
            (forall c' w' b, gin.GetString c' "user_id" = "" ->
               gin.GetString c' "role" <> "admin" -> gin.Written c' = [] ->
               ~ In (200%Z, b) (gin.Written (fst (h c' w')))) ->
            In (200%Z, body)
               (gin.Written
                  (fst (server.loggingMiddleware
                          [server.AuthMiddleware; h] c w))) ->
            exists tok claims,
              gin.Cookie c "Authorization" = Ok tok
              /\ serverutils.ValidateJWT w tok = Ok claims
              /\ index claims "role" = Str "admin").
  { intros h Hh. unfold server.loggingMiddleware. cbn [server.run].
    destruct (AuthMiddleware_cases c w)
      as [[Hab [_ [code [b [HW [_ Hcode]]]]]]|H].
    - destruct (server.AuthMiddleware c w) as [c' w']. cbn [fst] in *.
      rewrite Hab. cbn [fst]. rewrite HW, HW0. intros [Heq|[]].
      inversion Heq. congruence.
    - destruct H as [tok [claims [role [db [H1 [H2 [H3 [_ [H5 _]]]]]]]]].
      rewrite H5.
      destruct (String.eqb role "admin") eqn:Hr.
      { apply String.eqb_eq in Hr. subst role. eauto. }
      apply String.eqb_neq in Hr.
      destruct (gin.Aborted (server.bind_claims c claims)).
      { cbn [fst]. change (gin.Written (server.bind_claims c claims))
          with (gin.Written c). rewrite HW0. intros []. }
      intros Hin'. exfalso.
      apply (Hh (server.bind_claims c claims) w body).
      + apply bind_claims_user_id. rewrite HK. reflexivity.
      + rewrite (GetString_bind_claims_role c claims role H3). assumption.
      + exact HW0.
      + destruct (h (server.bind_claims c claims) w) as [c' w'].
        cbn [fst] in *. destruct (gin.Aborted c'); exact Hin'. }
  destruct Hin as [Hin|Hin].
  - apply (Hmain handlers.SiteFetchByID); [|exact Hin].
    intros c' w' b. apply SiteFetchByID_refuses_users.
  - apply (Hmain handlers.DeviceFetchBySerialNumber); [|exact Hin].
    intros c' w' b. apply DeviceFetchBySerialNumber_refuses_users.
Qed.

Lemma X9_witness :
  exists tok claims,
    gin.Cookie
      (fixture.as_admin {["site_id" := uuid.String fixture.plant_id]}
         (BadBody "EOF")) "Authorization" = Ok tok
    /\ serverutils.ValidateJWT fixture.world tok = Ok claims
    /\ index claims "role" = Str "admin".
Proof.
  eapply (X9_site_and_device_fetch_answer_200_to_admins_only "adm"
            (fixture.as_admin {["site_id" := uuid.String fixture.plant_id]}
               (BadBody "EOF")) fixture.world).
  - reflexivity.
  - reflexivity.
  - left. vm_compute. left. reflexivity.
Defined.

(** ** Deleting and renaming a customer *)

Lemma Update_same {R : Type} (cond : R -> bool) (f : R -> R)
    (rows : list R) :
  (forall r, In r rows -> cond r = false) -> gorm.Update cond f rows = rows.
Proof.
  intros Hall. unfold gorm.Update. induction rows as [|x rest IH];
    [reflexivity|].
  simpl. rewrite (Hall x) by now left. f_equal. apply IH.
  intros r Hr. apply Hall. now right.
Qed.

Lemma In_Update {R : Type} (cond : R -> bool) (f : R -> R) (rows : list R)
    (r' : R) :
  In r' (gorm.Update cond f rows) ->
  exists r, In r rows
            /\ ((cond r = true /\ r' = f r) \/ (cond r = false /\ r' = r)).
Proof.
  unfold gorm.Update. intros Hin. apply in_map_iff in Hin.
  destruct Hin as [r [Heq Hin]]. exists r. split; [assumption|].
  destruct (cond r); [left | right]; split; auto.
Qed.

(** X10. For an admin and a well-formed id, [CustomerDelete] answers 200
    "Customer deleted" whether or not a customer has that id.  Afterwards a
    fetch by that id finds nothing; no row is removed, rows under other ids
    and the other tables are untouched, and when no live row had the id the
    database is unchanged. *)
Theorem X10_CustomerDelete_always_answers_200
    (c : gin.Context) (w : World) (db : Database) :
  gin.GetString c "role" = "admin" ->
  serverutils.IsValidUUID (gin.Param c "customer_id") = true ->
  DB w = Ok db ->
  exists db',
    handlers.CustomerDelete c w
    = (gin.JSON c 200 (Envelope customer_deleted), with_DB w db')
    /\ handlers.FetchCustomerByID db' (gin.Param c "customer_id")
       = Err gorm.ErrRecordNotFound
    /\ length (customers db') = length (customers db)
    /\ (forall r, In r (customers db) ->
          gorm.uuid_is (Customer.ID r) (gin.Param c "customer_id") = false ->
          In r (customers db'))
    /\ sites db' = sites db /\ devices db' = devices db
    /\ auth_tokens db' = auth_tokens db
    /\ ((forall r, In r (customers db) ->
           gorm.uuid_is (Customer.ID r) (gin.Param c "customer_id") = true ->
           Customer.DeletedAt r <> None) ->
        customers db' = customers db).
Proof.
  intros Hrole Hid Hdb.
  unfold handlers.CustomerDelete, serverutils.GetDBInstance.
  rewrite Hrole, Hid, Hdb. cbn [String.eqb Ascii.eqb Bool.eqb negb andb].
  cbv iota. eexists. split; [reflexivity|]. cbn [customers sites devices
    auth_tokens with_customers].
  split; [|split; [|split; [|split; [|split; [|split]]]]];
    try reflexivity.
  - unfold handlers.FetchCustomerByID, handlers.found.
    match goal with
    | |- context [gorm.First ?pk ?cond ?rows] =>
        assert (HN : gorm.First pk cond rows = None)
    end.
    { apply First_None. intros r' Hin.
      destruct (In_Update _ _ _ _ Hin) as [r [_ [[Hc ->]|[Hc ->]]]].
      - apply andb_true_iff in Hc. destruct Hc as [Hm _]. cbn. rewrite Hm.
        reflexivity.
      - exact Hc. }
    rewrite HN. reflexivity.
  - apply Update_length.
  - intros r Hin Hm. unfold gorm.Update. apply in_map_iff. exists r.
    rewrite Hm. split; [reflexivity | assumption].
  - intros Hall. apply Update_same. intros r Hin.
    destruct (gorm.uuid_is (Customer.ID r) _) eqn:Hm; [|reflexivity].
    specialize (Hall r Hin Hm).
    destruct (Customer.DeletedAt r); [reflexivity | contradiction].
Qed.

Lemma X10_witness :
  exists db',
    handlers.CustomerDelete sample.delete_acme fixture.world
    = (gin.JSON sample.delete_acme 200 (Envelope customer_deleted),
       with_DB fixture.world db')
    /\ handlers.FetchCustomerByID db'
         (gin.Param sample.delete_acme "customer_id")
       = Err gorm.ErrRecordNotFound
    /\ sites db' = sites fixture.db.
Proof.
  destruct (X10_CustomerDelete_always_answers_200 sample.delete_acme
              fixture.world fixture.db
              ltac:(vm_compute; reflexivity)
              ltac:(vm_compute; reflexivity)
              ltac:(reflexivity))
    as [db' [HR [HF [_ [_ [HS _]]]]]].
  exists db'. split; [exact HR | split; [exact HF | exact HS]].
Defined.

(** X11. For an admin, a well-formed id and a non-empty name,
    [CustomerUpdate] answers 404 and changes nothing when no live customer
    has the id (a soft-deleted one included); otherwise it answers 200, and
    a fetch by the same id then returns the customer under its old
    identifier with the new name.  The rename keeps every row's identifier,
    creation time and delete marker, and the number of rows. *)
Theorem X11_CustomerUpdate_renames_the_live_customer
    (c : gin.Context) (w : World) (db : Database) (name : string) :
  gin.GetString c "role" = "admin" ->
  serverutils.IsValidUUID (gin.Param c "customer_id") = true ->
  gin.Body c = CustomerBody {| CustomerRequest.Name := name |} ->
  name <> "" -> DB w = Ok db ->
  (handlers.FetchCustomerByID db (gin.Param c "customer_id")
     = Err gorm.ErrRecordNotFound ->
   updates.CustomerUpdate c w
   = (gin.JSON c 404 (Envelope customer_not_found),
      with_Log w
        (LogError "Customer not found"
           "No customer found with the given ID")))
  /\ (forall cu,
        handlers.FetchCustomerByID db (gin.Param c "customer_id") = Ok cu ->
        exists db' cu',
          updates.CustomerUpdate c w
          = (gin.JSON c 200
               (Envelope (customer_updated (Customer.ID cu) name)),
             with_DB w db')
          /\ handlers.FetchCustomerByID db' (gin.Param c "customer_id")
             = Ok cu'
          /\ Customer.ID cu' = Customer.ID cu
          /\ Customer.Name cu' = name
          /\ Customer.UpdatedAt cu' = Now w
          /\ map Customer.ID (customers db') = map Customer.ID (customers db)
          /\ map Customer.CreatedAt (customers db')
             = map Customer.CreatedAt (customers db)
          /\ map Customer.DeletedAt (customers db')
             = map Customer.DeletedAt (customers db)).
Proof.
  intros Hrole Hid Hb Hn Hdb.
  unfold updates.CustomerUpdate, handlers.BindJSON_Customer,
    serverutils.GetDBInstance.
  rewrite Hrole, Hid, Hb. cbn [String.eqb Ascii.eqb Bool.eqb negb andb
    CustomerRequest.Name]. cbv iota.
  rewrite (eqb_false_of_neq _ _ Hn), Hdb. split.
  - intros HF. rewrite HF. reflexivity.
  - intros cu HF. rewrite HF.
    set (cond := fun r : Customer.t =>
                   N.eqb (Customer.ID r) (Customer.ID cu)
                   && gorm.not_deleted (Customer.DeletedAt r)).
    set (rows' := gorm.Update cond (updates.renamed_Customer (Now w) name)
                    (customers db)).
    unfold handlers.FetchCustomerByID, handlers.found in HF.
    destruct (gorm.First Customer.ID _ (customers db)) as [r0|] eqn:H0;
      [|discriminate].
    inversion HF; subst r0. clear HF.
    destruct (First_In _ _ _ _ H0) as [Hin Hc].
    apply andb_true_iff in Hc. destruct Hc as [Hm Hlive].
    assert (Hin' : In (updates.renamed_Customer (Now w) name cu) rows').
    { apply Update_In; [assumption|]. unfold cond.
      rewrite N.eqb_refl, Hlive. reflexivity. }
    destruct (First_found Customer.ID
                (fun r => gorm.uuid_is (Customer.ID r)
                            (gin.Param c "customer_id")
                          && gorm.not_deleted (Customer.DeletedAt r))
                rows' _ Hin') as [cu' HF'].
    { cbn. rewrite Hm, Hlive. reflexivity. }
    exists (with_customers db rows'), cu'.
    split; [reflexivity|].
    unfold handlers.FetchCustomerByID, handlers.found.
    cbn [customers with_customers]. rewrite HF'.
    split; [reflexivity|].
    destruct (First_In _ _ _ _ HF') as [Hin2 Hc2].
    apply andb_true_iff in Hc2. destruct Hc2 as [Hm2 Hlive2].
    destruct (In_Update _ _ _ _ Hin2) as [r [Hr [[Hcr ->]|[Hcr ->]]]].
    + unfold cond in Hcr. apply andb_true_iff in Hcr.
      destruct Hcr as [Hidr _]. apply N.eqb_eq in Hidr.
      cbn. split; [assumption|]. split; [reflexivity|].
      split; [reflexivity|].
      unfold rows', gorm.Update. rewrite !map_map.
      repeat split; apply map_ext; intros a; destruct (cond a); reflexivity.
    + exfalso. unfold cond in Hcr.
      rewrite Hlive2 in Hcr. rewrite andb_true_r in Hcr.
      unfold gorm.uuid_is in Hm, Hm2.
      destruct (uuid.Parse (gin.Param c "customer_id")) as [u|];
        [|discriminate].
      apply N.eqb_eq in Hm, Hm2. rewrite Hm, Hm2, N.eqb_refl in Hcr.
      discriminate.
Qed.

Lemma X11_witness :
  exists db' cu',
    updates.CustomerUpdate sample.rename_acme fixture.world
    = (gin.JSON sample.rename_acme 200
         (Envelope (customer_updated fixture.acme_id "Acme Ltd")),
       with_DB fixture.world db')
    /\ handlers.FetchCustomerByID db'
         (gin.Param sample.rename_acme "customer_id") = Ok cu'
    /\ Customer.Name cu' = "Acme Ltd".
Proof.
  destruct (proj2 (X11_CustomerUpdate_renames_the_live_customer
                     sample.rename_acme fixture.world fixture.db "Acme Ltd"
                     ltac:(vm_compute; reflexivity)
                     ltac:(vm_compute; reflexivity)
                     ltac:(reflexivity)
                     ltac:(discriminate)
                     ltac:(reflexivity))
              fixture.acme ltac:(vm_compute; reflexivity))
    as [db' [cu' [HR [HF [_ [HN _]]]]]].
  exists db', cu'. split; [exact HR | split; [exact HF | exact HN]].
Defined.

(** ** Natural keys are global *)

(** X12. A site name and a device serial number are looked up across all
    customers: with a live site of that name (a live device of that serial
    number) present, the key identifying one row, a create answers 400
    "already exists" under whatever existing customer and site the path
    names, and the database is left as it is. *)
Theorem X12_site_and_device_keys_conflict_across_customers :
  (forall c w db customer s,
     serverutils.IsValidUUID (gin.Param c "customer_id") = true ->
     gin.Body c = SiteBody {| SiteRequest.Name := Site.Name s |} ->
     Site.Name s <> "" -> DB w = Ok db ->
     handlers.FetchCustomerByID db (gin.Param c "customer_id")
       = Ok customer ->
     In s (sites db) -> Site.DeletedAt s = None ->
     (forall s', In s' (sites db) -> Site.Name s' = Site.Name s -> s' = s) ->
     handlers.SiteCreate c w
     = (gin.JSON c 400 (Envelope site_exists),
        with_Log w
          (LogError "Site already exists"
             "A site with this name already exists")))
  /\ (forall c w db body customer site d,
        gin.Body c = DeviceBody body ->
        DeviceRequest.DeviceSerialNumber body = Device.DeviceSerialNumber d ->
        serverutils.IsValidUUID (gin.Param c "customer_id") = true ->
        serverutils.IsValidUUID (gin.Param c "site_id") = true ->
        DB w = Ok db ->
        handlers.FetchCustomerByID db (gin.Param c "customer_id")
          = Ok customer ->
        handlers.FetchSiteByID db (gin.Param c "site_id") = Ok site ->
        Site.CustomerID site = Customer.ID customer ->
        In d (devices db) -> Device.DeletedAt d = None ->
        (forall d', In d' (devices db) ->
           Device.DeviceSerialNumber d' = Device.DeviceSerialNumber d ->
           d' = d) ->
        handlers.DeviceCreate c w
        = (gin.JSON c 400 (Envelope device_exists),
           with_Log w
             (LogError "Device already exists"
                "A device with this serial number already exists"))).
Proof.
  split.
  - intros c w db customer s Hid Hb Hn Hdb HC Hin Hlive Huniq.
    assert (HF : gorm.First Site.ID
                   (fun r => String.eqb (Site.Name r) (Site.Name s))
                   (sites db) = Some s).
    { apply First_unique; [assumption | apply String.eqb_refl |].
      intros s' Hin' Hc. apply String.eqb_eq in Hc. now apply Huniq. }
    unfold handlers.SiteCreate, handlers.BindJSON_Site,
      serverutils.GetDBInstance, handlers.FetchSiteByName, handlers.found.
    rewrite Hid, Hb. cbn [negb SiteRequest.Name]. cbv iota.
    rewrite (eqb_false_of_neq _ _ Hn), Hdb, HC, HF, Hlive. reflexivity.
  - intros c w db body customer site d Hb Hsn Hcid Hsid Hdb HC HS Hown
      Hin Hlive Huniq.
    assert (HF : gorm.First Device.ID
                   (fun r => String.eqb (Device.DeviceSerialNumber r)
                               (DeviceRequest.DeviceSerialNumber body))
                   (devices db) = Some d).
    { rewrite Hsn.
      apply First_unique; [assumption | apply String.eqb_refl |].
      intros d' Hin' Hc. apply String.eqb_eq in Hc. now apply Huniq. }
    destruct (preload_Site_Customer_columns true db d) as [_ [_ Hpdel]].
    unfold handlers.DeviceCreate, handlers.BindJSON_Device,
      serverutils.GetDBInstance, handlers.FetchDeviceBySerialNumber.
    rewrite Hb. cbv iota beta. rewrite Hcid, Hsid. cbn [negb]. cbv iota.
    rewrite Hdb, HC, HS, Hown, N.eqb_refl. cbn [negb]. cbv iota.
    rewrite HF, Hpdel, Hlive. reflexivity.
Qed.

Lemma X12_witness :
  handlers.SiteCreate sample.globex_plant
    (fixture.world_of sample.db_two 1000)
  = (gin.JSON sample.globex_plant 400 (Envelope site_exists),
     with_Log (fixture.world_of sample.db_two 1000)
       (LogError "Site already exists"
          "A site with this name already exists"))
  /\ handlers.DeviceCreate fixture.create_meter fixture.world
     = (gin.JSON fixture.create_meter 400 (Envelope device_exists),
        with_Log fixture.world
          (LogError "Device already exists"
             "A device with this serial number already exists")).
Proof.
  destruct X12_site_and_device_keys_conflict_across_customers as [HS HD].
  split.
  - apply (HS sample.globex_plant (fixture.world_of sample.db_two 1000)
             sample.db_two sample.globex fixture.plant).
    + vm_compute. reflexivity.
    + reflexivity.
    + discriminate.
    + reflexivity.
    + vm_compute. reflexivity.
    + left. reflexivity.
    + reflexivity.
    + intros s' [<-|[]] _. reflexivity.
  - apply (HD fixture.create_meter fixture.world fixture.db
             fixture.meter_body fixture.acme
             (handlers.preload_Customer false fixture.db fixture.plant)
             fixture.meter).
    + reflexivity.
    + reflexivity.
    + vm_compute. reflexivity.
    + vm_compute. reflexivity.
    + reflexivity.
    + vm_compute. reflexivity.
    + vm_compute. reflexivity.
    + reflexivity.
    + left. reflexivity.
    + reflexivity.
    + intros d' [<-|[]] _. reflexivity.
Defined.

(** ** Deleting twice *)

Lemma preload_Customer_ID (u : bool) (db : Database) (s : Site.t) :
  Site.ID (handlers.preload_Customer u db s) = Site.ID s.
Proof.
  unfold handlers.preload_Customer.
  destruct (gorm.First Customer.ID _ (customers db)); reflexivity.
Qed.

(** X13. [DeviceDelete] answers 200 for a device whose serial number
    identifies one row, soft-deleted already or not: the device stays
    reachable by its serial number, and its delete marker is the time of the
    first delete (a second delete does not move it). *)
Theorem X13_DeviceDelete_keeps_the_first_deletion_time
    (c : gin.Context) (w : World) (db : Database) (d : Device.t) :
  gin.Param c "device_serial_number" = Device.DeviceSerialNumber d ->
  DB w = Ok db -> In d (devices db) ->
  (forall d', In d' (devices db) ->
     Device.DeviceSerialNumber d' = Device.DeviceSerialNumber d -> d' = d) ->
  exists db' d',
    handlers.DeviceDelete c w
    = (gin.JSON c 200 (Envelope device_deleted), with_DB w db')
    /\ handlers.FetchDeviceBySerialNumber db' (Device.DeviceSerialNumber d)
       = Ok d'
    /\ Device.ID d' = Device.ID d
    /\ Device.DeletedAt d'
       = Some (match Device.DeletedAt d with
               | Some t => t
               | None => Now w
               end)
    /\ length (devices db') = length (devices db)
    /\ customers db' = customers db /\ sites db' = sites db.
Proof.
  intros Hp Hdb Hin Huniq.
  assert (HF : gorm.First Device.ID
                 (fun d0 => String.eqb (Device.DeviceSerialNumber d0)
                              (Device.DeviceSerialNumber d))
                 (devices db) = Some d).
  { apply First_unique; [assumption | apply String.eqb_refl |].
    intros d' Hin' Hc. apply String.eqb_eq in Hc. now apply Huniq. }
  destruct (preload_Site_Customer_columns true db d) as [Hpid [_ Hpdel]].
  unfold handlers.DeviceDelete, serverutils.GetDBInstance,
    handlers.FetchDeviceBySerialNumber at 1.
  rewrite Hdb, Hp, HF. rewrite Hpid.
  set (cond := fun r : Device.t =>
                 N.eqb (Device.ID r) (Device.ID d)
                 && gorm.not_deleted (Device.DeletedAt r)).
  set (rows' := gorm.Update cond (handlers.deleted_Device (Now w))
                  (devices db)).
  set (d1 := if cond d then handlers.deleted_Device (Now w) d else d).
  assert (Hin1 : In d1 rows').
  { unfold rows', gorm.Update. apply in_map_iff. exists d. split; auto. }
  assert (Hsn1 : Device.DeviceSerialNumber d1 = Device.DeviceSerialNumber d)
    by (unfold d1; destruct (cond d); reflexivity).
  assert (HF' : gorm.First Device.ID
                  (fun d0 => String.eqb (Device.DeviceSerialNumber d0)
                               (Device.DeviceSerialNumber d))
                  rows' = Some d1).
  { apply First_unique; [assumption | now apply String.eqb_eq |].
    intros r' Hr' Hc. apply String.eqb_eq in Hc.
    unfold rows', gorm.Update in Hr'. apply in_map_iff in Hr'.
    destruct Hr' as [r [<- Hr]].
    assert (r = d).
    { apply Huniq; [assumption|]. rewrite <- Hc.
      destruct (cond r); reflexivity. }
    subst r. reflexivity. }
  exists (with_devices db rows'),
    (handlers.preload_Site_Customer true (with_devices db rows') d1).
  split; [reflexivity|].
  unfold handlers.FetchDeviceBySerialNumber. cbn [devices with_devices].
  rewrite HF'. split; [reflexivity|].
  destruct (preload_Site_Customer_columns true (with_devices db rows') d1)
    as [Hid1 [_ Hdel1]].
  rewrite Hid1, Hdel1.
  split; [unfold d1; destruct (cond d); reflexivity|].
  split.
  - unfold d1, cond. rewrite N.eqb_refl.
    destruct (Device.DeletedAt d) eqn:E; cbn; [assumption | reflexivity].
  - split; [apply Update_length|]. split; reflexivity.
Qed.

Lemma X13_witness :
  exists db' d',
    handlers.DeviceDelete sample.delete_meter fixture.world
    = (gin.JSON sample.delete_meter 200 (Envelope device_deleted),
       with_DB fixture.world db')
    /\ handlers.FetchDeviceBySerialNumber db' "SN-001" = Ok d'
    /\ Device.DeletedAt d' = Some 1000%Z.
Proof.
  destruct (X13_DeviceDelete_keeps_the_first_deletion_time
              sample.delete_meter fixture.world fixture.db fixture.meter
              ltac:(vm_compute; reflexivity)
              ltac:(reflexivity)
              ltac:(left; reflexivity)
              ltac:(intros d' [<-|[]] _; reflexivity))
    as [db' [d' [HR [HF [_ [HD _]]]]]].
  exists db', d'. split; [exact HR | split; [exact HF | exact HD]].
Defined.

(** X14. [SiteDelete] fetches the site within the default scope: for a
    well-formed id of a live site it answers 200, and the same delete
    repeated on the resulting database answers 404 "Site not found". *)
Theorem X14_SiteDelete_twice_answers_404
    (c : gin.Context) (w : World) (db : Database) (site : Site.t) :
  serverutils.IsValidUUID (gin.Param c "site_id") = true ->
  DB w = Ok db ->
  handlers.FetchSiteByID db (gin.Param c "site_id") = Ok site ->
  exists db',
    handlers.SiteDelete c w
    = (gin.JSON c 200 (Envelope site_deleted), with_DB w db')
    /\ length (sites db') = length (sites db)
    /\ handlers.FetchSiteByID db' (gin.Param c "site_id")
       = Err gorm.ErrRecordNotFound
    /\ forall c2 w2,
         gin.Param c2 "site_id" = gin.Param c "site_id" ->
         DB w2 = Ok db' ->
         handlers.SiteDelete c2 w2
         = (gin.JSON c2 404 (Envelope site_not_found),
            with_Log w2
              (LogError "Site not found" "No site found with the given ID")).
Proof.
  intros Hid Hdb HS.
  unfold handlers.SiteDelete at 1. unfold serverutils.GetDBInstance.
  rewrite Hid, Hdb, HS. cbn [negb]. cbv iota.
  set (cond := fun r : Site.t =>
                 N.eqb (Site.ID r) (Site.ID site)
                 && gorm.not_deleted (Site.DeletedAt r)).
  set (rows' := gorm.Update cond (handlers.deleted_Site (Now w)) (sites db)).
  assert (Hgone : handlers.FetchSiteByID (with_sites db rows')
                    (gin.Param c "site_id") = Err gorm.ErrRecordNotFound).
  { unfold handlers.FetchSiteByID in HS |- *. cbn [sites with_sites].
    destruct (gorm.First Site.ID _ (sites db)) as [s0|] eqn:H0;
      [|discriminate].
    injection HS as Hsite.
    destruct (First_In _ _ _ _ H0) as [_ Hc0].
    apply andb_true_iff in Hc0. destruct Hc0 as [Hm0 _].
    assert (HN : gorm.First Site.ID
                   (fun s => gorm.uuid_is (Site.ID s) (gin.Param c "site_id")
                             && gorm.not_deleted (Site.DeletedAt s))
                   rows' = None).
    { apply First_None. intros r' Hr'.
      destruct (In_Update _ _ _ _ Hr') as [r [_ [[Hc ->]|[Hc ->]]]].
      - cbn. apply andb_false_r.
      - destruct (gorm.uuid_is (Site.ID r) _) eqn:Hm; [|reflexivity].
        cbn. unfold cond in Hc.
        assert (Heq : N.eqb (Site.ID r) (Site.ID site) = true).
        { rewrite <- Hsite, preload_Customer_ID.
          unfold gorm.uuid_is in Hm, Hm0.
          destruct (uuid.Parse (gin.Param c "site_id")); [|discriminate].
          apply N.eqb_eq in Hm, Hm0. apply N.eqb_eq. congruence. }
        rewrite Heq in Hc. exact Hc. }
    rewrite HN. reflexivity. }
  exists (with_sites db rows'). split; [reflexivity|].
  split; [apply Update_length|]. split; [exact Hgone|].
  intros c2 w2 Hp2 Hdb2.
  unfold handlers.SiteDelete, serverutils.GetDBInstance.
  rewrite Hp2, Hid, Hdb2, Hgone. reflexivity.
Qed.

Lemma X14_witness :
  exists db',
    handlers.SiteDelete sample.delete_plant fixture.world
    = (gin.JSON sample.delete_plant 200 (Envelope site_deleted),
       with_DB fixture.world db')
    /\ handlers.SiteDelete sample.delete_plant (with_DB fixture.world db')
       = (gin.JSON sample.delete_plant 404 (Envelope site_not_found),
          with_Log (with_DB fixture.world db')
            (LogError "Site not found" "No site found with the given ID")).
Proof.
  destruct (X14_SiteDelete_twice_answers_404 sample.delete_plant
              fixture.world fixture.db
              (handlers.preload_Customer false fixture.db fixture.plant)
              ltac:(vm_compute; reflexivity)
              ltac:(reflexivity)
              ltac:(vm_compute; reflexivity))
    as [db' [HR [_ [_ HA]]]].
  exists db'. split; [exact HR|].
  apply HA; reflexivity.
Defined.

(** ** Creating a device *)

(** X15. [DeviceCreate] refuses with 403, and writes nothing to the
    database, when the site of the path is not owned by the customer of the
    path; the check comes before the serial number is looked up, so it also
    holds for the serial number of a soft-deleted device. *)
Theorem X15_DeviceCreate_refuses_a_site_of_another_customer
    (c : gin.Context) (w : World) (db : Database) (body : DeviceRequest.t)
    (customer : Customer.t) (site : Site.t) :
  gin.Body c = DeviceBody body ->
  serverutils.IsValidUUID (gin.Param c "customer_id") = true ->
  serverutils.IsValidUUID (gin.Param c "site_id") = true ->
  DB w = Ok db ->
  handlers.FetchCustomerByID db (gin.Param c "customer_id") = Ok customer ->
  handlers.FetchSiteByID db (gin.Param c "site_id") = Ok site ->
  Site.CustomerID site <> Customer.ID customer ->
  handlers.DeviceCreate c w
  = (gin.JSON c 403 (Envelope site_of_another_customer),
     with_Log w
       (LogError "Forbidden"
          "There is no site with the given ID for the given customer")).
Proof.
  intros Hb Hcid Hsid Hdb HC HS Hown.
  unfold handlers.DeviceCreate, handlers.BindJSON_Device,
    serverutils.GetDBInstance.
  rewrite Hb. cbv iota beta. rewrite Hcid, Hsid. cbn [negb]. cbv iota.
  rewrite Hdb, HC, HS.
  apply N.eqb_neq in Hown. rewrite Hown. reflexivity.
Qed.

Lemma X15_witness :
  handlers.DeviceCreate sample.globex_meter
    (fixture.world_of sample.db_two 1000)
  = (gin.JSON sample.globex_meter 403 (Envelope site_of_another_customer),
     with_Log (fixture.world_of sample.db_two 1000)
       (LogError "Forbidden"
          "There is no site with the given ID for the given customer")).
Proof.
  apply (X15_DeviceCreate_refuses_a_site_of_another_customer
           sample.globex_meter (fixture.world_of sample.db_two 1000)
           sample.db_two fixture.meter_body sample.globex
           (handlers.preload_Customer false sample.db_two fixture.plant)).
  - reflexivity.
  - vm_compute. reflexivity.
  - vm_compute. reflexivity.
  - reflexivity.
  - vm_compute. reflexivity.
  - vm_compute. reflexivity.
  - vm_compute. discriminate.
Defined.

(** X16. With parents that exist and belong together, a serial number no
    row carries and a drawn identifier no row has, [DeviceCreate] answers
    200 "Device created"; the lookup by that serial number then finds the
    new device, live, under the identifier answered and attached to the site
    of the path. *)
Theorem X16_created_device_is_found_by_its_serial_number
    (c : gin.Context) (w : World) (db : Database) (body : DeviceRequest.t)
    (customer : Customer.t) (site : Site.t) :
  gin.Body c = DeviceBody body ->
  serverutils.IsValidUUID (gin.Param c "customer_id") = true ->
  serverutils.IsValidUUID (gin.Param c "site_id") = true ->
  DB w = Ok db ->
  handlers.FetchCustomerByID db (gin.Param c "customer_id") = Ok customer ->
  handlers.FetchSiteByID db (gin.Param c "site_id") = Ok site ->
  Site.CustomerID site = Customer.ID customer ->
  (forall d, In d (devices db) ->
     Device.DeviceSerialNumber d <> DeviceRequest.DeviceSerialNumber body
     /\ Device.ID d <> Rand w (RandPos w)) ->
  exists resp db' d',
    handlers.DeviceCreate c w
    = (gin.JSON c 200 (Envelope (device_created resp)),
       with_DB (snd (uuid_New w)) db')
    /\ DeviceResponse.ID resp = Rand w (RandPos w)
    /\ DeviceResponse.SiteID resp = Site.ID site
    /\ DeviceResponse.CustomerID resp = Customer.ID customer
    /\ length (devices db') = S (length (devices db))
    /\ handlers.FetchDeviceBySerialNumber db'
         (DeviceRequest.DeviceSerialNumber body) = Ok d'
    /\ Device.ID d' = Rand w (RandPos w)
    /\ Device.SiteID d' = Site.ID site
    /\ Device.DeletedAt d' = None
    /\ Device.CreatedAt d' = Now w.
Proof.
  intros Hb Hcid Hsid Hdb HC HS Hown Hfree.
  assert (HN : gorm.First Device.ID
                 (fun r => String.eqb (Device.DeviceSerialNumber r)
                             (DeviceRequest.DeviceSerialNumber body))
                 (devices db) = None).
  { apply First_None. intros r Hr. apply String.eqb_neq.
    now destruct (Hfree r Hr). }
  assert (HE : existsb (fun r => N.eqb (Device.ID r) (Rand w (RandPos w)))
                 (devices db) = false).
  { destruct (existsb _ (devices db)) eqn:HE; [|reflexivity].
    apply existsb_exists in HE. destruct HE as [r [Hr Heq]].
    apply N.eqb_eq in Heq. destruct (Hfree r Hr) as [_ Hid]. contradiction. }
  unfold handlers.DeviceCreate, handlers.BindJSON_Device,
    serverutils.GetDBInstance, handlers.FetchDeviceBySerialNumber at 1.
  rewrite Hb. cbv iota beta. rewrite Hcid, Hsid. cbn [negb]. cbv iota.
  rewrite Hdb, HC, HS, Hown, N.eqb_refl. cbn [negb]. cbv iota.
  rewrite HN. cbn [handlers.is_not_found]. unfold handlers.is_not_found.
  rewrite String.eqb_refl. cbn [negb]. cbv iota.
  unfold uuid_New at 1. cbv iota beta.
  unfold gorm.Create. cbn [Device.ID]. rewrite HE.
  match goal with
  | |- context [(devices db ++ [?x])%list] => set (new := x)
  end.
  assert (HF : gorm.First Device.ID
                 (fun r => String.eqb (Device.DeviceSerialNumber r)
                             (DeviceRequest.DeviceSerialNumber body))
                 (devices db ++ [new])%list = Some new).
  { apply First_unique.
    - apply in_or_app. right. now left.
    - apply String.eqb_refl.
    - intros r Hr Hc. apply String.eqb_eq in Hc.
      apply in_app_or in Hr. destruct Hr as [Hr|[<-|[]]]; [|reflexivity].
      destruct (Hfree r Hr) as [Hne _]. contradiction. }
  eexists. exists (with_devices db (devices db ++ [new])%list).
  exists (handlers.preload_Site_Customer true
            (with_devices db (devices db ++ [new])%list) new).
  split; [reflexivity|].
  split; [reflexivity|]. split; [reflexivity|]. split; [reflexivity|].
  split.
  { cbn [devices with_devices]. rewrite length_app. simpl. lia. }
  unfold handlers.FetchDeviceBySerialNumber. cbn [devices with_devices].
  rewrite HF. split; [reflexivity|].
  destruct (preload_Site_Customer_columns true
              (with_devices db (devices db ++ [new])%list) new)
    as [Hid [_ Hdel]].
  rewrite Hid, Hdel. split; [reflexivity|].
  unfold handlers.preload_Site_Customer.
  destruct (gorm.First Site.ID _ _); repeat split; reflexivity.
Qed.

Lemma X16_witness :
  exists resp db' d',
    handlers.DeviceCreate sample.create_meter2 fixture.world
    = (gin.JSON sample.create_meter2 200 (Envelope (device_created resp)),
       with_DB (snd (uuid_New fixture.world)) db')
    /\ handlers.FetchDeviceBySerialNumber db' "SN-002" = Ok d'
    /\ Device.DeletedAt d' = None.
Proof.
  destruct (X16_created_device_is_found_by_its_serial_number
              sample.create_meter2 fixture.world fixture.db
              sample.meter2_body fixture.acme
              (handlers.preload_Customer false fixture.db fixture.plant)
              ltac:(reflexivity)
              ltac:(vm_compute; reflexivity)
              ltac:(vm_compute; reflexivity)
              ltac:(reflexivity)
              ltac:(vm_compute; reflexivity)
              ltac:(vm_compute; reflexivity)
              ltac:(reflexivity)
              ltac:(intros d [<-|[]]; split; vm_compute; discriminate))
    as [resp [db' [d' [HR [_ [_ [_ [_ [HF [_ [_ [HD _]]]]]]]]]]]].
  exists resp, db', d'. split; [exact HR | split; [exact HF | exact HD]].
Defined.

(** ** Logging in *)

(** X17. [AuthenticateHandler] sets the session cookie only for a token
    [ValidateJWT] accepts and, when its role is not admin, only if a stored
    row holds exactly that token string; the cookie it sets is the token
    presented, and the answer is then 200 "Token validated". *)
Theorem X17_cookie_only_for_a_validated_known_token
    (c : gin.Context) (w : World) :
  gin.SetCookies (fst (handlers.AuthenticateHandler c w))
    <> gin.SetCookies c ->
  exists token claims role db,
    gin.Body c = AuthenticateBody token
    /\ serverutils.ValidateJWT w token = Ok claims
    /\ index claims "role" = Str role
    /\ DB w = Ok db
    /\ (role = "admin"
        \/ exists r, In r (auth_tokens db) /\ AuthToken.Token r = token)
    /\ handlers.AuthenticateHandler c w
       = (gin.JSON (gin.SetCookie c "Authorization" token) 200
            (Envelope token_validated), w).
Proof.
  unfold handlers.AuthenticateHandler.
  destruct (gin.Body c) as [err|b|b|b|i a|token] eqn:Hb;
    try (intros H; exfalso; apply H; reflexivity).
  destruct (jwt.is_empty token); [intros H; exfalso; apply H; reflexivity|].
  destruct (serverutils.ValidateJWT w token) as [claims|e] eqn:Hv;
    [|intros H; exfalso; apply H; reflexivity].
  destruct (DB w) as [db|e] eqn:Hdb;
    [|intros H; exfalso; apply H; reflexivity].
  destruct (index claims "role") as [|role|z|bb] eqn:Hr;
    try (intros H; exfalso; apply H; reflexivity).
  destruct (negb (String.eqb role "admin")) eqn:Hadm.
  - destruct (gorm.First AuthToken.ID
                (fun r => jwt.eqb (AuthToken.Token r) token)
                (auth_tokens db)) as [r|] eqn:HF;
      cbn [default from_option id].
    + destruct (First_In _ _ _ _ HF) as [Hin Hc].
      unfold jwt.eqb in Hc. apply bool_decide_eq_true in Hc.
      destruct (jwt.is_empty (AuthToken.Token r));
        [intros H; exfalso; apply H; reflexivity|].
      intros _. exists token, claims, role, db.
      repeat (split; [first [reflexivity | assumption]|]).
      split; [right; eauto | reflexivity].
    + intros H. exfalso. apply H. reflexivity.
  - intros _. apply negb_false_iff, String.eqb_eq in Hadm.
    exists token, claims, role, db.
    repeat (split; [first [reflexivity | assumption]|]).
    split; [left; assumption | reflexivity].
Qed.

Lemma X17_witness :
  exists token,
    gin.Body fixture.login_request = AuthenticateBody token
    /\ handlers.AuthenticateHandler fixture.login_request fixture.world
       = (gin.JSON
            (gin.SetCookie fixture.login_request "Authorization" token) 200
            (Envelope token_validated), fixture.world).
Proof.
  destruct (X17_cookie_only_for_a_validated_known_token
              fixture.login_request fixture.world
              ltac:(vm_compute; discriminate))
    as [token [claims [role [db [HB [_ [_ [_ [_ HR]]]]]]]]].
  exists token. split; [exact HB | exact HR].
Defined.

(** ** From issuance to a session *)

Lemma GenerateJWT_valid_id (w : World)
    (userID username role action : string) (expire : bool)
    (t : jwt.TokenString) :
  serverutils.GenerateJWT w userID username role action expire = Ok t ->
  serverutils.IsValidUUID userID = true.
Proof.
  unfold serverutils.GenerateJWT.
  destruct (serverutils.IsValidUUID userID); [reflexivity | discriminate].
Qed.

(** What a 200 of [GenerateTokenHandler] has done. *)
Lemma GenerateTokenHandler_issued (c : gin.Context) (w : World)
    (db : Database) (a : AuthToken.t) :
  gin.Written c = [] -> DB w = Ok db ->
  In (200%Z, Envelope (token_generated (PAuthToken a)))
     (gin.Written (fst (handlers.GenerateTokenHandler c w))) ->
  exists id action customer row,
    gin.Body c = GenerateTokenBody id action
    /\ handlers.FetchCustomerByID db id = Ok customer
    /\ serverutils.GenerateJWT w id (Customer.Name customer) "user" action
         false = Ok (AuthToken.Token a)
    /\ DB (snd (handlers.GenerateTokenHandler c w))
       = Ok (with_auth_tokens db (auth_tokens db ++ [row])%list)
    /\ AuthToken.Token row = AuthToken.Token a
    /\ AuthToken.CustomerID row = Customer.ID customer
    /\ AuthToken.Action row = action
    /\ AuthToken.CustomerID a = Customer.ID customer
    /\ AuthToken.Action a = action.
Proof.
  intros Hc Hdb. unfold handlers.GenerateTokenHandler.
  destruct (gin.Body c) as [err|b|b|b|bodyCustomerID bodyAction|tk];
    try (simpl; rewrite Hc; simpl; intros [Heq|[]]; discriminate Heq).
  destruct (String.eqb bodyCustomerID "");
    [simpl; rewrite Hc; intros [Heq|[]]; discriminate Heq|].
  destruct (negb (serverutils.IsValidUUID bodyCustomerID));
    [simpl; rewrite Hc; intros [Heq|[]]; discriminate Heq|].
  destruct (String.eqb bodyAction "");
    [simpl; rewrite Hc; intros [Heq|[]]; discriminate Heq|].
  destruct (negb (serverutils.IsValidAction w bodyAction));
    [simpl; rewrite Hc; intros [Heq|[]]; discriminate Heq|].
  rewrite Hdb.
  destruct (handlers.FetchCustomerByID db bodyCustomerID)
    as [customer|e] eqn:HC.
  2:{ destruct (handlers.is_not_found e); simpl; rewrite Hc;
      intros [Heq|[]]; discriminate Heq. }
  destruct (serverutils.GenerateJWT w bodyCustomerID
              (Customer.Name customer) "user" bodyAction false)
    as [token|e] eqn:HG;
    [|simpl; rewrite Hc; intros [Heq|[]]; discriminate Heq].
  unfold uuid_New.
  match goal with
  | |- context [gorm.Create AuthToken.ID ?x ?rows] =>
      destruct (gorm.Create AuthToken.ID x rows) as [rows'|e] eqn:HCr;
        [|simpl; rewrite Hc; intros [Heq|[]]; discriminate Heq];
      pose proof (First_after_Create AuthToken.ID x rows rows' HCr) as HF;
      set (row := x) in *
  end.
  simpl in HF. simpl. rewrite HF. simpl. rewrite Hc. simpl.
  intros [Heq|[]]. inversion Heq; subst a. clear Heq.
  unfold gorm.Create in HCr.
  destruct (existsb _ (auth_tokens db)); [discriminate|].
  inversion HCr; subst rows'.
  exists bodyCustomerID, bodyAction, customer, row.
  repeat split; assumption.
Qed.

(** X18. A token returned with 200 by [GenerateTokenHandler] works in the
    database the handler leaves, at any later clock value under the same
    secret: [AuthenticateHandler] answers 200 and sets it as the session
    cookie, and a request carrying it as cookie passes [AuthMiddleware] and
    gets, from [GET /customers/:customer_id] for the customer it was issued
    to, 200 with that customer.  Stored token strings are assumed
    non-empty, as the handler keeps them. *)
Theorem X18_issued_token_opens_a_session_for_its_customer
    (c : gin.Context) (w : World) (db : Database) (a : AuthToken.t) :
  gin.Written c = [] -> DB w = Ok db -> tokens_not_empty db ->
  In (200%Z, Envelope (token_generated (PAuthToken a)))
     (gin.Written (fst (handlers.GenerateTokenHandler c w))) ->
  exists id action customer claims,
    gin.Body c = GenerateTokenBody id action
    /\ handlers.FetchCustomerByID db id = Ok customer
    /\ index claims "user_id" = Str id
    /\ index claims "role" = Str "user"
    /\ index claims "action" = Str action
    /\ forall w2,
         DB w2 = DB (snd (handlers.GenerateTokenHandler c w)) ->
         JwtSecret w2 = JwtSecret w ->
         (forall c2,
            gin.Body c2 = AuthenticateBody (AuthToken.Token a) ->
            handlers.AuthenticateHandler c2 w2
            = (gin.JSON
                 (gin.SetCookie c2 "Authorization" (AuthToken.Token a)) 200
                 (Envelope token_validated), w2))
         /\ (forall c3,
               gin.Cookie c3 "Authorization" = Ok (AuthToken.Token a) ->
               gin.Param c3 "customer_id" = id ->
               gin.Aborted c3 = false ->
               server.run [server.AuthMiddleware; handlers.CustomerFetchByID]
                 c3 w2
               = (gin.JSON (server.bind_claims c3 claims) 200
                    (Envelope (customer_fetched customer)),
                  Println w2 (PrintID id))).
Proof.
  intros Hc Hdb Hne Hin.
  destruct (GenerateTokenHandler_issued c w db a Hc Hdb Hin)
    as [id [action [customer [row [Hb [HC [HG [Hdb' [Hrt [Hrc [Hra _]]]]]]]]]]].
  pose proof (GenerateJWT_valid_id _ _ _ _ _ _ _ HG) as Hvalid.
  destruct (GenerateJWT_Ok _ _ _ _ _ _ _ HG)
    as [tok [Htok [Hm [Hs [Hk [Hu [Hr [Hact [Hnbf [Hexp _]]]]]]]]]].
  exists id, action, customer, (jwt.Claims tok).
  repeat (split; [assumption|]).
  intros w2 Hdb2 Hk2. rewrite Hdb' in Hdb2.
  assert (Hv : serverutils.ValidateJWT w2 (AuthToken.Token a)
               = Ok (jwt.Claims tok)).
  { rewrite Htok. apply ValidateJWT_without_expiry; try assumption.
    - rewrite Hm. reflexivity.
    - congruence.
    - congruence. }
  assert (Hrow_in : In row (auth_tokens db ++ [row])%list)
    by (apply in_or_app; right; now left).
  assert (Hall : forall r, In r (auth_tokens db ++ [row])%list ->
                   jwt.is_empty (AuthToken.Token r) = false).
  { intros r0 Hr0. apply in_app_or in Hr0. destruct Hr0 as [Hr0|[<-|[]]].
    - now apply Hne.
    - rewrite Hrt, Htok. reflexivity. }
  unfold handlers.FetchCustomerByID, handlers.found in HC.
  destruct (gorm.First Customer.ID _ (customers db)) as [cu|] eqn:HFc;
    [|discriminate].
  inversion HC; subst cu.
  destruct (First_In _ _ _ _ HFc) as [_ Hcond].
  apply andb_true_iff in Hcond. destruct Hcond as [Hmatch _].
  split.
  - intros c2 Hb2. unfold handlers.AuthenticateHandler.
    rewrite Hb2, Hv, Hdb2, Hr.
    replace (jwt.is_empty (AuthToken.Token a)) with false
      by (rewrite Htok; reflexivity).
    cbn [String.eqb Ascii.eqb Bool.eqb negb andb]. cbv iota.
    cbn [auth_tokens with_auth_tokens].
    assert (Hcond : jwt.eqb (AuthToken.Token row) (AuthToken.Token a) = true)
      by (unfold jwt.eqb; now apply bool_decide_eq_true).
    destruct (First_found AuthToken.ID
                (fun r0 => jwt.eqb (AuthToken.Token r0) (AuthToken.Token a))
                _ row Hrow_in Hcond) as [r' HF].
    rewrite HF. change (default AuthToken.zero (Some r')) with r'.
    destruct (First_In _ _ _ _ HF) as [Hin' _].
    rewrite (Hall r' Hin'). reflexivity.
  - intros c3 Hck Hp Hab. cbn [server.run].
    assert (Hq : server.token_query (jwt.Claims tok) row = true).
    { unfold server.token_query. rewrite Hu, Hact, Hrc, Hra. cbn.
      rewrite Hmatch, String.eqb_refl. reflexivity. }
    rewrite (AuthMiddleware_user c3 w2 (AuthToken.Token a) (jwt.Claims tok)
               "user" _ Hck Hv Hr ltac:(discriminate) Hdb2).
    cbn [auth_tokens with_auth_tokens].
    destruct (First_found AuthToken.ID (server.token_query (jwt.Claims tok))
                _ row Hrow_in Hq) as [r' HF].
    rewrite HF. change (default AuthToken.zero (Some r')) with r'.
    destruct (First_In _ _ _ _ HF) as [Hin' _].
    rewrite (Hall r' Hin').
    change (gin.Aborted (server.bind_claims c3 (jwt.Claims tok)))
      with (gin.Aborted c3).
    rewrite Hab.
    assert (HH : handlers.CustomerFetchByID
                   (server.bind_claims c3 (jwt.Claims tok)) w2
                 = (gin.JSON (server.bind_claims c3 (jwt.Claims tok)) 200
                      (Envelope (customer_fetched customer)),
                    Println w2 (PrintID id))).
    { unfold handlers.CustomerFetchByID, serverutils.GetDBInstance.
      change (gin.Param (server.bind_claims c3 (jwt.Claims tok))
                "customer_id") with (gin.Param c3 "customer_id").
      rewrite Hp, Hvalid.
      rewrite (GetString_bind_claims_role _ _ _ Hr).
      rewrite (GetString_bind_claims_customer_id _ _ _ Hu).
      rewrite String.eqb_refl. cbn [String.eqb Ascii.eqb Bool.eqb negb andb].
      cbv iota. cbn [DB Println]. rewrite Hdb2.
      unfold handlers.FetchCustomerByID, handlers.found.
      cbn [customers with_auth_tokens]. rewrite HFc. reflexivity. }
    rewrite HH.
    change (gin.Aborted
              (gin.JSON (server.bind_claims c3 (jwt.Claims tok)) 200
                 (Envelope (customer_fetched customer))))
      with (gin.Aborted c3).
    rewrite Hab. reflexivity.
Qed.

Lemma X18_witness :
  handlers.AuthenticateHandler
    (gin.request ∅ ∅ ∅ (AuthenticateBody (fixture.acme_token 1000)))
    (snd (handlers.GenerateTokenHandler
            (sample.token_for (uuid.String fixture.acme_id) "READ")
            fixture.world))
  = (gin.JSON
       (gin.SetCookie
          (gin.request ∅ ∅ ∅ (AuthenticateBody (fixture.acme_token 1000)))
          "Authorization" (fixture.acme_token 1000)) 200
       (Envelope token_validated),
     snd (handlers.GenerateTokenHandler
            (sample.token_for (uuid.String fixture.acme_id) "READ")
            fixture.world)).
Proof.
  destruct (X18_issued_token_opens_a_session_for_its_customer
              (sample.token_for (uuid.String fixture.acme_id) "READ")
              fixture.world fixture.db sample.issued
              ltac:(reflexivity)
              ltac:(reflexivity)
              ltac:(intros r [<-|[]]; reflexivity)
              ltac:(vm_compute; left; reflexivity))
    as [id [action [customer [claims [_ [_ [_ [_ [_ Hall]]]]]]]]].
  apply (proj1 (Hall (snd (handlers.GenerateTokenHandler
                             (sample.token_for (uuid.String fixture.acme_id)
                                "READ") fixture.world))
                  eq_refl ltac:(vm_compute; reflexivity))).
  reflexivity.
Defined.

(** ** Names stay unique; deletes do not cascade *)



Lemma preload_Customer_CustomerID (u : bool) (db : Database) (s : Site.t) :
  Site.CustomerID (handlers.preload_Customer u db s) = Site.CustomerID s.
Proof.
  unfold handlers.preload_Customer.
  destruct (gorm.First Customer.ID _ (customers db)); reflexivity.
Qed.

(** X20. Deleting a customer does not touch its sites: the site rows stay
    live, but [SiteFetchByID] looks the owner up within the default scope,
    so after an admin has deleted the customer a fetch of one of its
    sites answers 404 "Customer not found", whoever asks. *)
Theorem X20_site_of_a_deleted_customer_answers_404
    (c c2 : gin.Context) (w : World) (db : Database) (site : Site.t) :
  gin.GetString c "role" = "admin" ->
  serverutils.IsValidUUID (gin.Param c "customer_id") = true ->
  DB w = Ok db ->
  serverutils.IsValidUUID (gin.Param c2 "site_id") = true ->
  handlers.FetchSiteByID db (gin.Param c2 "site_id") = Ok site ->
  uuid.Parse (gin.Param c "customer_id") = Some (Site.CustomerID site) ->
  (Site.CustomerID site < 2 ^ 128)%N ->
  exists db' site',
    DB (snd (handlers.CustomerDelete c w)) = Ok db'
    /\ sites db' = sites db
    /\ handlers.FetchSiteByID db' (gin.Param c2 "site_id") = Ok site'
    /\ Site.ID site' = Site.ID site /\ Site.DeletedAt site' = None
    /\ handlers.SiteFetchByID c2 (snd (handlers.CustomerDelete c w))
       = (gin.JSON c2 404 (Envelope customer_not_found),
          with_Log (snd (handlers.CustomerDelete c w))
            (LogError "Customer not found"
               "No customer found with the given ID")).
Proof.
  intros Hrole Hid Hdb Hsid HS Hparse Hrange.
  unfold handlers.CustomerDelete, serverutils.GetDBInstance.
  rewrite Hrole, Hid, Hdb. cbn [String.eqb Ascii.eqb Bool.eqb negb andb].
  cbv iota. cbn [snd DB with_DB].
  set (cond := fun r : Customer.t =>
                 gorm.uuid_is (Customer.ID r) (gin.Param c "customer_id")
                 && gorm.not_deleted (Customer.DeletedAt r)).
  set (rows' := gorm.Update cond (handlers.deleted_Customer (Now w))
                  (customers db)).
  unfold handlers.FetchSiteByID in HS.
  destruct (gorm.First Site.ID _ (sites db)) as [s0|] eqn:H0;
    [|discriminate].
  injection HS as Hsite.
  destruct (First_In _ _ _ _ H0) as [_ Hc0].
  apply andb_true_iff in Hc0. destruct Hc0 as [_ Hlive0].
  assert (HS' : handlers.FetchSiteByID (with_customers db rows')
                  (gin.Param c2 "site_id")
                = Ok (handlers.preload_Customer false
                        (with_customers db rows') s0)).
  { unfold handlers.FetchSiteByID. cbn [sites with_customers].
    rewrite H0. reflexivity. }
  assert (Hown : Site.CustomerID
                   (handlers.preload_Customer false
                      (with_customers db rows') s0)
                 = Site.CustomerID site).
  { rewrite <- Hsite, !preload_Customer_CustomerID. reflexivity. }
  assert (HN : handlers.FetchCustomerByID (with_customers db rows')
                 (uuid.String (Site.CustomerID site))
               = Err gorm.ErrRecordNotFound).
  { unfold handlers.FetchCustomerByID, handlers.found.
    cbn [customers with_customers].
    assert (HF : gorm.First Customer.ID
                   (fun r => gorm.uuid_is (Customer.ID r)
                               (uuid.String (Site.CustomerID site))
                             && gorm.not_deleted (Customer.DeletedAt r))
                   rows' = None).
    { apply First_None. intros r' Hr'.
      destruct (In_Update _ _ _ _ Hr') as [r [_ [[Hc ->]|[Hc ->]]]].
      - cbn. apply andb_false_r.
      - unfold gorm.uuid_is. rewrite Parse_String.
        rewrite (N.mod_small _ _ Hrange).
        destruct (N.eqb (Customer.ID r) (Site.CustomerID site)) eqn:E;
          [|reflexivity].
        unfold cond, gorm.uuid_is in Hc. rewrite Hparse, E in Hc.
        exact Hc. }
    rewrite HF. reflexivity. }
  exists (with_customers db rows'),
    (handlers.preload_Customer false (with_customers db rows') s0).
  split; [reflexivity|]. split; [reflexivity|]. split; [exact HS'|].
  split; [rewrite <- Hsite, !preload_Customer_ID; reflexivity|].
  split.
  { rewrite preload_Customer_DeletedAt.
    destruct (Site.DeletedAt s0); [discriminate | reflexivity]. }
  unfold handlers.SiteFetchByID, serverutils.GetDBInstance.
  rewrite Hsid. cbn [negb DB with_DB]. cbv iota.
  rewrite HS', Hown, HN. reflexivity.
Qed.

Lemma X20_witness :
  handlers.SiteFetchByID fixture.acme_gets_plant
    (snd (handlers.CustomerDelete sample.delete_acme fixture.world))
  = (gin.JSON fixture.acme_gets_plant 404 (Envelope customer_not_found),
     with_Log (snd (handlers.CustomerDelete sample.delete_acme fixture.world))
       (LogError "Customer not found"
          "No customer found with the given ID")).
Proof.
  destruct (X20_site_of_a_deleted_customer_answers_404 sample.delete_acme
              fixture.acme_gets_plant fixture.world fixture.db
              (handlers.preload_Customer false fixture.db fixture.plant)
              ltac:(vm_compute; reflexivity)
              ltac:(vm_compute; reflexivity)
              ltac:(reflexivity)
              ltac:(vm_compute; reflexivity)
              ltac:(vm_compute; reflexivity)
              ltac:(vm_compute; reflexivity)
              ltac:(vm_compute; reflexivity))
    as [db' [site' [_ [_ [_ [_ [_ HR]]]]]]].
  exact HR.
Defined.
